(** * Static analysis and dependency mapping of [version_02_py_sophisticated]

    A shallow embedding of the three analyzers of the repository

      - [analyzers/code_analyzer.py]      ([CodeAnalyzer]),
      - [analyzers/function_extractor.py] ([FunctionExtractor]),
      - [analyzers/dependency_mapper.py]  ([DependencyMapper]),

    together with the properties their specification states about them and
    further properties of their code.

    Conventions of the embedding.
      - Python [str] is [string]; Python [int] is [Z] for line numbers and
        [nat] for counters that only ever grow from a literal by [+= 1] or
        by [len].
      - A Python [dict] is an association list in insertion order with unique
        keys ([pydict]): the analyzers iterate over their dictionaries, so
        the order is observable.
      - A Python [set] is a [gset]; [list(set(xs))] is [elements] of it: the
        order of the result is fixed but unspecified, in Python as here.
      - Code that may raise returns a [result]; loops whose termination rests
        on the visited set take fuel and report when it runs out. *)

From stdpp Require Import base decidable option list sets gmap strings relations
  sorting.
From Stdlib Require Import Strings.Ascii ZArith QArith Lia Permutation.

Close Scope Q_scope.
Set Warnings "-clear-no-such-hyp".
Open Scope string_scope.
Open Scope list_scope.

(* ================================================================== *)
(** * Part I: the Python runtime the analyzers rely on             *)
(* ================================================================== *)

Module py.

(** The exceptions that can leave the analyzers. *)
Inductive exn : Type :=
| TypeError (msg : string)
| AttributeError (msg : string)
| ValueError (msg : string)
| SyntaxError (msg : string)
| IndexError (msg : string)
| KeyError (msg : string)
| FileNotFoundError (msg : string).

(** Outcome of running a piece of Python: a value, a raised exception, or
    (for the fuel-bounded loops of the model only) fuel exhausted. *)
Inductive result (A : Type) : Type :=
| Val (a : A)
| Exc (e : exn)
| OutOfFuel.
Arguments Val {A} a.
Arguments Exc {A} e.
Arguments OutOfFuel {A}.

Definition bind {A B : Type} (m : result A) (k : A -> result B) : result B :=
  match m with
  | Val a => k a
  | Exc e => Exc e
  | OutOfFuel => OutOfFuel
  end.

(** [for x in xs: body], where the body threads a state and may raise. *)
Fixpoint for_each {A S : Type} (xs : list A) (body : A -> S -> result S) (s : S)
  : result S :=
  match xs with
  | [] => Val s
  | x :: rest => bind (body x s) (for_each rest body)
  end.

(** [[f(x) for x in xs]] where [f] may raise. *)
Fixpoint map_result {A B : Type} (f : A -> result B) (xs : list A) : result (list B) :=
  match xs with
  | [] => Val []
  | x :: rest =>
      bind (f x) (fun y => bind (map_result f rest) (fun ys => Val (y :: ys)))
  end.

(** [s.split(sep)] for a one-character separator. *)
Fixpoint split (sep : ascii) (s : string) : list string :=
  match s with
  | EmptyString => [EmptyString]
  | String c rest =>
      if Ascii.eqb c sep then EmptyString :: split sep rest
      else match split sep rest with
           | piece :: pieces => String c piece :: pieces
           | [] => [String c EmptyString]
           end
  end.

(** [s.startswith(p)]. *)
Definition startswith (s p : string) : bool := String.prefix p s.

(** ASCII letters; a byte outside ASCII is taken as uncased. *)
Definition is_ascii_upper (c : ascii) : bool :=
  let n := nat_of_ascii c in (65 <=? n)%nat && (n <=? 90)%nat.

Definition is_ascii_lower (c : ascii) : bool :=
  let n := nat_of_ascii c in (97 <=? n)%nat && (n <=? 122)%nat.

(** [s.lower()]. *)
Fixpoint lower (s : string) : string :=
  match s with
  | EmptyString => EmptyString
  | String c rest =>
      String (if is_ascii_upper c then ascii_of_nat (nat_of_ascii c + 32) else c)
        (lower rest)
  end.

(** [s.isupper()]: some cased character, and no lowercase one. *)
Definition isupper (s : string) : bool :=
  let chars := String.list_ascii_of_string s in
  existsb is_ascii_upper chars && forallb (fun c => negb (is_ascii_lower c)) chars.

(** [sub in s] for strings. *)
Fixpoint str_contains (s sub : string) : bool :=
  String.prefix sub s
  || match s with
     | EmptyString => false
     | String _ rest => str_contains rest sub
     end.

(** [x or y] on an optional integer: [None] and [0] are both falsy. *)
Definition or_int (x : option Z) (y : Z) : Z :=
  match x with
  | Some v => if (v =? 0)%Z then y else v
  | None => y
  end.

(** [list(set(xs))]. *)
Definition list_set (xs : list string) : list string :=
  elements (list_to_set xs : gset string).

(** [xs.index(x)]: the first position of [x], or [ValueError]. *)
Fixpoint index (xs : list string) (x : string) : result nat :=
  match xs with
  | [] => Exc (ValueError "x is not in list")
  | y :: rest =>
      if decide (y = x) then Val 0%nat
      else bind (index rest x) (fun i => Val (S i))
  end.

(** [xs[i]] as the target of an update: a negative index counts from the
    end, an index out of range raises [IndexError]. *)
Definition setitem {A : Type} (xs : list A) (i : Z) (f : A -> A) : result (list A) :=
  let n := Z.of_nat (length xs) in
  let j := if (i <? 0)%Z then (i + n)%Z else i in
  if ((j <? 0) || (n <=? j))%Z then Exc (IndexError "list index out of range")
  else Val (alter f (Z.to_nat j) xs).

(** Python's [isinstance] takes exactly two arguments; a call with three
    raises before any argument is looked at. *)
Definition isinstance_3_arguments : result bool :=
  Exc (TypeError "isinstance expected 2 arguments, got 3").

(** [xs[:stop]]: a negative [stop] counts from the end of the list. *)
Definition slice_to {A : Type} (xs : list A) (stop : Z) : list A :=
  if (stop <? 0)%Z then take (Z.to_nat (Z.of_nat (length xs) + stop)) xs
  else take (Z.to_nat stop) xs.

(** [sorted(xs, key=key, reverse=True)] for integer keys. Python's sort is
    stable, also when reversed: elements with equal keys keep the order they
    came in. The sorted list is determined by that; it is computed here by
    insertion from the right. *)
Fixpoint insert_reverse {A : Type} (key : A -> nat) (x : A) (sorted : list A) : list A :=
  match sorted with
  | [] => [x]
  | y :: rest =>
      if (key x <? key y)%nat then y :: insert_reverse key x rest else x :: y :: rest
  end.

Definition sorted_reverse {A : Type} (key : A -> nat) (xs : list A) : list A :=
  foldr (insert_reverse key) [] xs.

(** [enumerate(xs, start)]. *)
Definition enumerate_from {A : Type} (start : nat) (xs : list A) : list (nat * A) :=
  imap (fun i x => (start + i, x)) xs.

End py.

Declare Scope py_scope.
Delimit Scope py_scope with py.
Notation "x <- m ;; k" := (py.bind m (fun x => k))
  (at level 100, m at next level, right associativity) : py_scope.

(** ** Insertion-ordered dictionaries with string keys *)

Module pydict.
Section with_values.
Context {V : Type}.

Fixpoint get (d : list (string * V)) (k : string) : option V :=
  match d with
  | [] => None
  | (k', v) :: rest => if decide (k' = k) then Some v else get rest k
  end.

(** [d[k] = v]: a present key keeps its place, a new key goes last. *)
Fixpoint set (d : list (string * V)) (k : string) (v : V) : list (string * V) :=
  match d with
  | [] => [(k, v)]
  | (k', v') :: rest =>
      if decide (k' = k) then (k', v) :: rest else (k', v') :: set rest k v
  end.

(** [k in d]. *)
Definition contains (d : list (string * V)) (k : string) : bool :=
  match get d k with Some _ => true | None => false end.

(** [d.keys()] and [d.values()], in insertion order. *)
Definition keys (d : list (string * V)) : list string := map fst d.

Definition values (d : list (string * V)) : list V := map snd d.

(** Mutate in place the object stored under [k] ([d[k].field.append(..)]);
    every use in the model is on a key known to be present. *)
Definition modify (d : list (string * V)) (k : string) (f : V -> V)
  : list (string * V) :=
  match get d k with
  | Some v => set d k (f v)
  | None => d
  end.
End with_values.
End pydict.

(* ================================================================== *)
(** * Part II: the syntax trees of Python's [ast] module           *)
(* ================================================================== *)

Module ast.

(** The value of a [Constant] node, as far as its Python type goes. *)
Inductive constant : Type :=
| CNone
| CBool (b : bool)
| CInt (z : Z)
| CFloat (repr : string)
| CComplex (repr : string)
| CStr (s : string)
| CBytes (s : string)
| CEllipsis.

(** Node classes whose fields the analyzers never read by name. *)
Inductive other_class : Type :=
| Expr | Return | Pass | Try | BinOp | Compare | List | Dict | Set_ | Tuple
| Yield | YieldFrom | Lambda | IfExp | withitem | keyword
| Load | Store | And | Or | Add
| Named (class_name : string).

(** One node of a tree. The fields that hold nodes are listed in the order
    of the class's [_fields], which is the order [iter_child_nodes] yields
    them in. A [BoolOp] has at least two operands and an [Assign] at least
    one target; the first ones are fields of their own here. *)
#[warnings="-register-all"] Inductive node : Type :=
| Module_ (body : list node)
| FunctionDef (name : string) (args : node) (body decorator_list : list node)
    (returns : option node) (lineno : Z) (end_lineno : option Z)
| AsyncFunctionDef (name : string) (args : node) (body decorator_list : list node)
    (returns : option node) (lineno : Z) (end_lineno : option Z)
| ClassDef (name : string) (bases keywords body decorator_list : list node)
    (lineno : Z) (end_lineno : option Z)
| arguments (posonlyargs args : list node) (vararg : option node)
    (kwonlyargs : list node) (kw_defaults : list (option node))
    (kwarg : option node) (defaults : list node)
| arg (arg_name : string) (annotation : option node)
| Import (names : list node) (lineno : Z)
| ImportFrom (module : option string) (names : list node) (level : Z) (lineno : Z)
| alias (name : string) (asname : option string)
| If (test : node) (body orelse : list node)
| While (test : node) (body orelse : list node)
| For (target iter : node) (body orelse : list node)
| AsyncFor (target iter : node) (body orelse : list node)
| With (items body : list node)
| AsyncWith (items body : list node)
| ExceptHandler (type_ : option node) (name : option string) (body : list node)
| BoolOp (op : node) (value1 value2 : node) (more_values : list node)
| Call (func : node) (args keywords : list node) (lineno : Z)
| Name (id : string) (ctx : node)
| Attribute (value : node) (attr : string) (ctx : node)
| Assign (target1 : node) (more_targets : list node) (value : node) (lineno : Z)
| Constant (value : constant)
| Other (cls : other_class) (children : list node).

(** The class of a node, for [isinstance]. *)
Module cls.
Inductive t : Type :=
| Module_ | FunctionDef | AsyncFunctionDef | ClassDef | arguments | arg
| Import | ImportFrom | alias | If | While | For | AsyncFor | With | AsyncWith
| ExceptHandler | BoolOp | Call | Name | Attribute | Assign | Constant
| Other (c : other_class).
End cls.

Definition class_of (n : node) : cls.t :=
  match n with
  | Module_ _ => cls.Module_
  | FunctionDef _ _ _ _ _ _ _ => cls.FunctionDef
  | AsyncFunctionDef _ _ _ _ _ _ _ => cls.AsyncFunctionDef
  | ClassDef _ _ _ _ _ _ _ => cls.ClassDef
  | arguments _ _ _ _ _ _ _ => cls.arguments
  | arg _ _ => cls.arg
  | Import _ _ => cls.Import
  | ImportFrom _ _ _ _ => cls.ImportFrom
  | alias _ _ => cls.alias
  | If _ _ _ => cls.If
  | While _ _ _ => cls.While
  | For _ _ _ _ => cls.For
  | AsyncFor _ _ _ _ => cls.AsyncFor
  | With _ _ => cls.With
  | AsyncWith _ _ => cls.AsyncWith
  | ExceptHandler _ _ _ => cls.ExceptHandler
  | BoolOp _ _ _ _ => cls.BoolOp
  | Call _ _ _ _ => cls.Call
  | Name _ _ => cls.Name
  | Attribute _ _ _ => cls.Attribute
  | Assign _ _ _ _ => cls.Assign
  | Constant _ => cls.Constant
  | Other c _ => cls.Other c
  end.

#[global] Instance other_class_eq_dec : EqDecision other_class.
Proof. solve_decision. Defined.

#[global] Instance cls_eq_dec : EqDecision cls.t.
Proof. solve_decision. Defined.

(** [isinstance(n, (c1, ..., ck))]. *)
Definition isinstance (n : node) (classes : list cls.t) : bool :=
  bool_decide (class_of n ∈ classes).

Definition opt_nodes (o : option node) : list node :=
  match o with Some n => [n] | None => [] end.

(** [ast.iter_child_nodes]: the direct children, field by field; a field
    that is [None] yields nothing. *)
Definition iter_child_nodes (n : node) : list node :=
  match n with
  | Module_ body => body
  | FunctionDef _ args body decorator_list returns _ _
  | AsyncFunctionDef _ args body decorator_list returns _ _ =>
      [args] ++ body ++ decorator_list ++ opt_nodes returns
  | ClassDef _ bases keywords body decorator_list _ _ =>
      bases ++ keywords ++ body ++ decorator_list
  | arguments posonlyargs args vararg kwonlyargs kw_defaults kwarg defaults =>
      posonlyargs ++ args ++ opt_nodes vararg ++ kwonlyargs
        ++ flat_map opt_nodes kw_defaults ++ opt_nodes kwarg ++ defaults
  | arg _ annotation => opt_nodes annotation
  | Import names _ => names
  | ImportFrom _ names _ _ => names
  | alias _ _ => []
  | If test body orelse | While test body orelse => [test] ++ body ++ orelse
  | For target iter body orelse | AsyncFor target iter body orelse =>
      [target; iter] ++ body ++ orelse
  | With items body | AsyncWith items body => items ++ body
  | ExceptHandler type_ _ body => opt_nodes type_ ++ body
  | BoolOp op value1 value2 more_values => [op; value1; value2] ++ more_values
  | Call func args keywords _ => [func] ++ args ++ keywords
  | Name _ ctx => [ctx]
  | Attribute value _ ctx => [value; ctx]
  | Assign target1 more_targets value _ => [target1] ++ more_targets ++ [value]
  | Constant _ => []
  | Other _ children => children
  end.

(** Recursion over a tree: [f] receives a node and the results for its
    children, in [iter_child_nodes] order. Every recursive walk of the
    analyzers ([visit_node], the size of a tree) is an instance. *)
Section tree_rec.
Context {A : Type} (f : node -> list A -> A).

Fixpoint tree_rec (n : node) : A :=
  let opt o := match o with Some x => [tree_rec x] | None => [] end in
  f n
    match n with
    | Module_ body => map tree_rec body
    | FunctionDef _ args body decorator_list returns _ _
    | AsyncFunctionDef _ args body decorator_list returns _ _ =>
        [tree_rec args] ++ map tree_rec body ++ map tree_rec decorator_list
          ++ opt returns
    | ClassDef _ bases keywords body decorator_list _ _ =>
        map tree_rec bases ++ map tree_rec keywords ++ map tree_rec body
          ++ map tree_rec decorator_list
    | arguments posonlyargs args vararg kwonlyargs kw_defaults kwarg defaults =>
        map tree_rec posonlyargs ++ map tree_rec args ++ opt vararg
          ++ map tree_rec kwonlyargs
          ++ flat_map (fun o => match o with Some x => [tree_rec x] | None => [] end)
               kw_defaults
          ++ opt kwarg ++ map tree_rec defaults
    | arg _ annotation => opt annotation
    | Import names _ => map tree_rec names
    | ImportFrom _ names _ _ => map tree_rec names
    | alias _ _ => []
    | If test body orelse | While test body orelse =>
        [tree_rec test] ++ map tree_rec body ++ map tree_rec orelse
    | For target iter body orelse | AsyncFor target iter body orelse =>
        [tree_rec target; tree_rec iter] ++ map tree_rec body ++ map tree_rec orelse
    | With items body | AsyncWith items body =>
        map tree_rec items ++ map tree_rec body
    | ExceptHandler type_ _ body => opt type_ ++ map tree_rec body
    | BoolOp op value1 value2 more_values =>
        [tree_rec op; tree_rec value1; tree_rec value2] ++ map tree_rec more_values
    | Call func args keywords _ =>
        [tree_rec func] ++ map tree_rec args ++ map tree_rec keywords
    | Name _ ctx => [tree_rec ctx]
    | Attribute value _ ctx => [tree_rec value; tree_rec ctx]
    | Assign target1 more_targets value _ =>
        [tree_rec target1] ++ map tree_rec more_targets ++ [tree_rec value]
    | Constant _ => []
    | Other _ children => map tree_rec children
    end.
End tree_rec.

(** Number of nodes of a tree. *)
Definition count_nodes : node -> nat := tree_rec (fun _ counts => S (list_sum counts)).

(** All nodes of a tree, parents before children, depth first. *)
Definition subnodes : node -> list node := tree_rec (fun n subs => n :: List.concat subs).

(** [ast.walk]: breadth first from a queue; [todo.popleft()] then
    [todo.extend(iter_child_nodes(node))]. One unit of fuel per node. *)
Fixpoint walk_loop (fuel : nat) (todo : list node) : list node :=
  match fuel, todo with
  | S fuel', n :: rest => n :: walk_loop fuel' (rest ++ iter_child_nodes n)
  | _, _ => []
  end.

Definition walk (n : node) : list node := walk_loop (count_nodes n) [n].

(** What [ast.parse(content)] does on a source text: it raises [SyntaxError]
    or returns a [Module]. *)
Inductive parsed : Type :=
| syntax_error (e : string)
| module_of (body : list node).

(** Reading the fields of the helper nodes: [a.args], [a.vararg], [a.kwarg]
    of an [arguments] node, [a.arg] of an [arg], [a.name] and [a.asname] of
    an [alias]. *)
Definition arguments_args (a : node) : list node :=
  match a with arguments _ args _ _ _ _ _ => args | _ => [] end.

Definition arguments_vararg (a : node) : option node :=
  match a with arguments _ _ vararg _ _ _ _ => vararg | _ => None end.

Definition arguments_kwonlyargs (a : node) : list node :=
  match a with arguments _ _ _ kwonlyargs _ _ _ => kwonlyargs | _ => [] end.

Definition arguments_kw_defaults (a : node) : list (option node) :=
  match a with arguments _ _ _ _ kw_defaults _ _ => kw_defaults | _ => [] end.

Definition arguments_kwarg (a : node) : option node :=
  match a with arguments _ _ _ _ _ kwarg _ => kwarg | _ => None end.

Definition arguments_defaults (a : node) : list node :=
  match a with arguments _ _ _ _ _ _ defaults => defaults | _ => [] end.

Definition arg_arg (a : node) : string :=
  match a with arg arg_name _ => arg_name | _ => EmptyString end.

Definition arg_annotation (a : node) : option node :=
  match a with arg _ annotation => annotation | _ => None end.

Definition alias_name (a : node) : string :=
  match a with alias name _ => name | _ => EmptyString end.

Definition alias_asname (a : node) : option string :=
  match a with alias _ asname => asname | _ => None end.

(** [ast.get_docstring(node)] on a module, class or function definition: the
    first statement of the body when it is an expression statement holding a
    string constant, cleaned by [inspect.cleandoc]. *)
Definition get_docstring (cleandoc : string -> string) (n : node) : option string :=
  let body :=
    match n with
    | Module_ body => body
    | FunctionDef _ _ body _ _ _ _ | AsyncFunctionDef _ _ body _ _ _ _ => body
    | ClassDef _ _ _ body _ _ _ => body
    | _ => []
    end in
  match body with
  | Other Expr [Constant (CStr text)] :: _ => Some (cleandoc text)
  | _ => None
  end.

End ast.

(* ================================================================== *)
(** * Part III: [analyzers/code_analyzer.py]                       *)
(* ================================================================== *)

Module CodeAnalyzer.
Import ast.
Local Open Scope py_scope.

Inductive ComplexityLevel : Type := LOW | MEDIUM | HIGH | VERY_HIGH.

Module FunctionInfo.
Record t : Type := mk {
  name : string;
  line_start : Z;
  line_end : Z;
  args : list string;
  returns : option string;
  docstring : option string;
  complexity : nat;
  calls : list string;
  decorators : list string;
  is_async : bool;
  is_method : bool;
  is_static : bool;
  is_class_method : bool
}.
End FunctionInfo.

Module ClassInfo.
Record t : Type := mk {
  name : string;
  line_start : Z;
  line_end : Z;
  bases : list string;
  methods : list FunctionInfo.t;
  attributes : list string;
  docstring : option string;
  decorators : list string;
  is_abstract : bool
}.
End ClassInfo.

Module ImportInfo.
Record t : Type := mk {
  module : string;
  names : list string;
  alias : option string;
  line_number : Z;
  is_from_import : bool
}.
End ImportInfo.

(** The dicts appended by [_extract_global_variables] and
    [_extract_constants]. *)
Module Variable_.
Record t : Type := mk {
  name : string;
  type_ : string;
  line_number : Z;
  is_constant : option bool   (* absent from the dicts of [_extract_constants] *)
}.
End Variable_.

(** The dicts appended by [_detect_code_smells], by their ['type'] key. *)
Inductive smell : Type :=
| long_parameter_list (function : string) (parameter_count : nat) (line_number : Z)
| large_class (class_ : string) (method_count : nat) (line_number : Z).

(** ['complexity_metrics']. *)
Module ComplexityMetrics.
Record t : Type := mk {
  cyclomatic_complexity : nat;
  cognitive_complexity : nat;
  nesting_depth : nat;
  function_count : nat;
  class_count : nat;
  complexity_level : ComplexityLevel
}.
End ComplexityMetrics.

(** [_extract_imports]. *)
Definition _extract_imports (tree : node) : list ImportInfo.t :=
  flat_map
    (fun n =>
       match n with
       | Import names lineno =>
           map (fun a =>
                  ImportInfo.mk (alias_name a) [alias_name a] (alias_asname a) lineno false)
             names
       | ImportFrom module names _ lineno =>
           [ImportInfo.mk (default EmptyString module) (map alias_name names) None
              lineno true]
       | _ => []
       end)
    (walk tree).

(** One round of the loop of [_calculate_function_complexity] and of
    [_calculate_cyclomatic_complexity]. The third test is written
    [isinstance(child, ast.With, ast.AsyncWith)]: three arguments. *)
Definition complexity_step (child : node) (complexity : nat) : py.result nat :=
  if isinstance child [cls.If; cls.While; cls.For; cls.AsyncFor] then
    py.Val (complexity + 1)
  else if isinstance child [cls.ExceptHandler] then
    py.Val (complexity + 1)
  else
    is_with <- py.isinstance_3_arguments ;;
    if (is_with : bool) then py.Val (complexity + 1)
    else match child with
         | BoolOp _ value1 value2 more_values =>
             py.Val (complexity + (length (value1 :: value2 :: more_values) - 1))
         | _ => py.Val complexity
         end.

(** [_calculate_function_complexity]. *)
Definition _calculate_function_complexity (n : node) : py.result nat :=
  py.for_each (walk n) complexity_step 1.

(** [_calculate_cyclomatic_complexity]. *)
Definition _calculate_cyclomatic_complexity (tree : node) : py.result nat :=
  py.for_each (walk tree) complexity_step 1.

(** The name a call node contributes to [calls], if any. *)
Definition call_name (child : node) : list string :=
  match child with
  | Call (Name id _) _ _ _ => [id]
  | Call (Attribute _ attr _) _ _ _ => [attr]
  | _ => []
  end.

(** [_extract_function_calls]. *)
Definition _extract_function_calls (n : node) : list string :=
  py.list_set (flat_map call_name (walk n)).

(** [a is b] for two function definitions of one parsed tree. Nodes compare
    by identity; two definitions of a tree are one object exactly when they
    are of the same class and start on the same line. *)
Definition same_def (a b : node) : bool :=
  match a, b with
  | FunctionDef _ _ _ _ _ l _, FunctionDef _ _ _ _ _ l' _
  | AsyncFunctionDef _ _ _ _ _ l _, AsyncFunctionDef _ _ _ _ _ l' _ => bool_decide (l = l')
  | _, _ => false
  end.

(** [_is_method]: [node in parent.body] for some class [parent] of the tree. *)
Definition _is_method (n tree : node) : bool :=
  existsb
    (fun parent =>
       match parent with
       | ClassDef _ _ _ body _ _ _ => existsb (same_def n) body
       | _ => false
       end)
    (walk tree).

(** [x.id]: only a [Name] has the attribute. *)
Definition attr_id (x : node) : py.result string :=
  match x with
  | Name id _ => py.Val id
  | _ => py.Exc (py.AttributeError "object has no attribute 'id'")
  end.

(** The loop over [decorator_list] of [_extract_functions] and the loop over
    [bases] of [_extract_classes]: a name is kept, [a.b] is rendered through
    [a.id], anything else is skipped. *)
Definition dotted_names (exprs : list node) : py.result (list string) :=
  py.for_each exprs
    (fun e acc =>
       match e with
       | Name id _ => py.Val (acc ++ [id])
       | Attribute value attr _ =>
           value_id <- attr_id value ;;
           py.Val (acc ++ [value_id +:+ "." +:+ attr])
       | _ => py.Val acc
       end)
    [].

Section with_library.
(** Library functions the analyzer calls and the model keeps abstract:
    [ast.unparse] (Python 3.9 and later, where [hasattr(ast, 'unparse')]
    holds), [inspect.cleandoc] behind [ast.get_docstring], and [str(x)] on a
    node, which prints its address. *)
Context (unparse : node -> string) (cleandoc : string -> string) (str : node -> string).

(** The body of the loop of [_extract_functions] on a function definition. *)
Definition function_info (tree n : node) : py.result (list FunctionInfo.t) :=
  match n with
  | FunctionDef name a _ decorator_list returns lineno end_lineno
  | AsyncFunctionDef name a _ decorator_list returns lineno end_lineno =>
      let args :=
        map arg_arg (arguments_args a)
        ++ match arguments_vararg a with Some v => ["*" +:+ arg_arg v] | None => [] end
        ++ match arguments_kwarg a with Some k => ["**" +:+ arg_arg k] | None => [] end in
      let returns := option_map unparse returns in
      let docstring := get_docstring cleandoc n in
      complexity <- _calculate_function_complexity n ;;
      let calls := _extract_function_calls n in
      decorators <- dotted_names decorator_list ;;
      let is_async := isinstance n [cls.AsyncFunctionDef] in
      let is_method := _is_method n tree in
      let is_static := bool_decide ("staticmethod" ∈ decorators) in
      let is_class_method := bool_decide ("classmethod" ∈ decorators) in
      py.Val [FunctionInfo.mk name lineno (py.or_int end_lineno lineno) args returns
                docstring complexity calls decorators is_async is_method is_static
                is_class_method]
  | _ => py.Val []
  end.

(** [_extract_functions]. *)
Definition _extract_functions (tree : node) : py.result (list FunctionInfo.t) :=
  py.for_each (walk tree)
    (fun n functions => info <- function_info tree n ;; py.Val (functions ++ info))
    [].

(** [_extract_method_info]. *)
Definition _extract_method_info (n : node) : py.result FunctionInfo.t :=
  match n with
  | FunctionDef name a _ decorator_list returns lineno end_lineno
  | AsyncFunctionDef name a _ decorator_list returns lineno end_lineno =>
      let args := map arg_arg (arguments_args a) in
      let returns := option_map unparse returns in
      let docstring := get_docstring cleandoc n in
      complexity <- _calculate_function_complexity n ;;
      let calls := _extract_function_calls n in
      let decorators :=
        map (fun d => match d with Name id _ => id | _ => str d end) decorator_list in
      py.Val (FunctionInfo.mk name lineno (py.or_int end_lineno lineno) args returns
                docstring complexity calls decorators
                (isinstance n [cls.AsyncFunctionDef]) true
                (bool_decide ("staticmethod" ∈ decorators))
                (bool_decide ("classmethod" ∈ decorators)))
  | _ => py.Exc (py.AttributeError "object has no attribute 'args'")
  end.

(** [_extract_class_attributes]. *)
Definition _extract_class_attributes (body : list node) : list string :=
  flat_map
    (fun item =>
       match item with
       | Assign target1 more_targets _ _ =>
           flat_map (fun t => match t with Name id _ => [id] | _ => [] end)
             (target1 :: more_targets)
       | _ => []
       end)
    body.

(** The body of the loop of [_extract_classes] on a class definition. *)
Definition class_info (n : node) : py.result (list ClassInfo.t) :=
  match n with
  | ClassDef name bases _ body decorator_list lineno end_lineno =>
      bases <- dotted_names bases ;;
      methods <- py.map_result _extract_method_info
                   (filter (fun item => isinstance item [cls.FunctionDef; cls.AsyncFunctionDef])
                      body) ;;
      let attributes := _extract_class_attributes body in
      let docstring := get_docstring cleandoc n in
      let decorators :=
        flat_map (fun d => match d with Name id _ => [id] | _ => [] end) decorator_list in
      let is_abstract :=
        existsb (fun base => py.str_contains (py.lower base) "abc"
                             || py.str_contains (py.lower base) "abstract") bases in
      py.Val [ClassInfo.mk name lineno (py.or_int end_lineno lineno) bases methods
                attributes docstring decorators is_abstract]
  | _ => py.Val []
  end.

(** [_extract_classes]. *)
Definition _extract_classes (tree : node) : py.result (list ClassInfo.t) :=
  py.for_each (walk tree)
    (fun n classes => info <- class_info n ;; py.Val (classes ++ info))
    [].

(** [type(value).__name__] of a constant. *)
Definition type_name (c : constant) : string :=
  match c with
  | CNone => "NoneType"
  | CBool _ => "bool"
  | CInt _ => "int"
  | CFloat _ => "float"
  | CComplex _ => "complex"
  | CStr _ => "str"
  | CBytes _ => "bytes"
  | CEllipsis => "ellipsis"
  end.

(** [_infer_type]. *)
Definition _infer_type (n : node) : string :=
  match n with
  | Constant value => type_name value
  | Other List _ => "list"
  | Other Dict _ => "dict"
  | Other Set_ _ => "set"
  | Other Tuple _ => "tuple"
  | Call (Name id _) _ _ _ => id
  | _ => "unknown"
  end.

(** [_extract_global_variables]. *)
Definition _extract_global_variables (tree : node) : list Variable_.t :=
  flat_map
    (fun n =>
       match n with
       | Assign (Name var_name _) _ value lineno =>
           [Variable_.mk var_name (_infer_type value) lineno (Some (py.isupper var_name))]
       | _ => []
       end)
    (walk tree).

(** [_extract_constants]. *)
Definition _extract_constants (tree : node) : list Variable_.t :=
  flat_map
    (fun n =>
       match n with
       | Assign (Name var_name _) _ value lineno =>
           if py.isupper var_name
           then [Variable_.mk var_name (_infer_type value) lineno None]
           else []
       | _ => []
       end)
    (walk tree).

(** The inner [visit_node] of [_calculate_cognitive_complexity]; the
    [nonlocal complexity] is threaded through. *)
Definition visit_node : node -> nat -> nat -> nat :=
  tree_rec
    (fun n children level complexity =>
       let complexity :=
         if isinstance n [cls.If; cls.While; cls.For] then complexity + (1 + level)
         else if isinstance n [cls.ExceptHandler] then complexity + (1 + level)
         else complexity in
       let level :=
         if isinstance n [cls.If; cls.While; cls.For; cls.With; cls.ExceptHandler]
         then level + 1 else level in
       fold_left (fun complexity visit_child => visit_child level complexity)
         children complexity).

(** [_calculate_cognitive_complexity]. *)
Definition _calculate_cognitive_complexity (tree : node) : nat :=
  visit_node tree 0 0.

(** The inner [visit_node] of [_calculate_max_nesting_depth]; the
    [nonlocal max_depth] is threaded through. *)
Definition visit_depth : node -> nat -> nat -> nat :=
  tree_rec
    (fun n children depth max_depth =>
       let max_depth := Nat.max max_depth depth in
       let depth :=
         if isinstance n [cls.If; cls.While; cls.For; cls.With; cls.FunctionDef;
                          cls.ClassDef]
         then depth + 1 else depth in
       fold_left (fun max_depth visit_child => visit_child depth max_depth)
         children max_depth).

(** [_calculate_max_nesting_depth]. *)
Definition _calculate_max_nesting_depth (tree : node) : nat :=
  visit_depth tree 0 0.

(** [_calculate_complexity_metrics]: the dict display evaluates its values in
    the order written, the cyclomatic complexity first. *)
Definition _calculate_complexity_metrics (tree : node) : py.result ComplexityMetrics.t :=
  cc <- _calculate_cyclomatic_complexity tree ;;
  let cognitive := _calculate_cognitive_complexity tree in
  let nesting := _calculate_max_nesting_depth tree in
  let function_count := length (filter (fun n => isinstance n [cls.FunctionDef]) (walk tree)) in
  let class_count := length (filter (fun n => isinstance n [cls.ClassDef]) (walk tree)) in
  let level :=
    if (cc <=? 10)%nat then LOW
    else if (cc <=? 20)%nat then MEDIUM
    else if (cc <=? 50)%nat then HIGH
    else VERY_HIGH in
  py.Val (ComplexityMetrics.mk cc cognitive nesting function_count class_count level).

(** [_detect_code_smells]. *)
Definition _detect_code_smells (tree : node) : list smell :=
  flat_map
    (fun n =>
       match n with
       | FunctionDef name a _ _ _ lineno _ =>
           if (5 <? length (arguments_args a))%nat
           then [long_parameter_list name (length (arguments_args a)) lineno]
           else []
       | ClassDef name _ _ body _ lineno _ =>
           let method_count :=
             length (filter (fun item => isinstance item [cls.FunctionDef]) body) in
           if (20 <? method_count)%nat then [large_class name method_count lineno] else []
       | _ => []
       end)
    (walk tree).

(** The result of [analyze_file]. Of the dict returned for a file that
    parses, the model keeps the entries up to ['complexity_metrics']: the
    display evaluates them in this order, and the later ones are only reached
    if that entry returns. *)
Inductive analysis : Type :=
| invalid (error : string)
| valid (file_path : string)
    (imports : list ImportInfo.t)
    (functions : list FunctionInfo.t)
    (classes : list ClassInfo.t)
    (global_variables : list Variable_.t)
    (constants : list Variable_.t)
    (complexity_metrics : ComplexityMetrics.t).

(** [analyze_file], for a file that exists, from the outcome of the parser on
    its content. *)
Definition analyze_file (file_path : string) (parse : parsed) : py.result analysis :=
  match parse with
  | syntax_error e =>
      py.Val (invalid ("Syntax error in " +:+ file_path +:+ ": " +:+ e))
  | module_of body =>
      let tree := Module_ body in
      let imports := _extract_imports tree in
      functions <- _extract_functions tree ;;
      classes <- _extract_classes tree ;;
      let global_variables := _extract_global_variables tree in
      let constants := _extract_constants tree in
      complexity_metrics <- _calculate_complexity_metrics tree ;;
      py.Val (valid file_path imports functions classes global_variables constants
                complexity_metrics)
  end.

End with_library.

(** [self.builtin_functions], as [__init__] sets it. *)
Definition builtin_functions : gset string :=
  list_to_set
    [ "print"; "len"; "range"; "str"; "int"; "float"; "bool"; "list"; "dict";
      "set"; "tuple"; "type"; "isinstance"; "hasattr"; "getattr"; "setattr";
      "open"; "input"; "sum"; "max"; "min"; "abs"; "round"; "sorted"; "reversed";
      "enumerate"; "zip"; "map"; "filter"; "any"; "all" ].

(** The dict returned by [_extract_dependencies]. *)
Module Dependencies.
Record t : Type := mk {
  internal_calls : list string;
  external_calls : list string;
  imported_modules : list string
}.
End Dependencies.

(** One round of the first loop of [_extract_dependencies]. *)
Definition record_import (d : Dependencies.t) (n : node) : Dependencies.t :=
  match n with
  | Import names _ =>
      Dependencies.mk (Dependencies.internal_calls d) (Dependencies.external_calls d)
        (Dependencies.imported_modules d ++ map alias_name names)
  | ImportFrom (Some module) _ _ _ =>
      if decide (module = EmptyString) then d
      else Dependencies.mk (Dependencies.internal_calls d) (Dependencies.external_calls d)
             (Dependencies.imported_modules d ++ [module])
  | _ => d
  end.

(** One round of its second loop. *)
Definition record_call (d : Dependencies.t) (n : node) : Dependencies.t :=
  match n with
  | Call (Name func_name _) _ _ _ =>
      if bool_decide (func_name ∈ builtin_functions)
      then Dependencies.mk (Dependencies.internal_calls d)
             (Dependencies.external_calls d ++ [func_name]) (Dependencies.imported_modules d)
      else Dependencies.mk (Dependencies.internal_calls d ++ [func_name])
             (Dependencies.external_calls d) (Dependencies.imported_modules d)
  | Call (Attribute _ attr_name _) _ _ _ =>
      Dependencies.mk (Dependencies.internal_calls d)
        (Dependencies.external_calls d ++ [attr_name]) (Dependencies.imported_modules d)
  | _ => d
  end.

(** [_extract_dependencies]. *)
Definition _extract_dependencies (tree : node) : Dependencies.t :=
  let dependencies := fold_left record_import (walk tree) (Dependencies.mk [] [] []) in
  fold_left record_call (walk tree) dependencies.

(** The dict returned by [_calculate_docstring_coverage]. The three
    percentages are floats in Python; the model keeps the rationals they
    stand for. *)
Module DocstringCoverage.
Record t : Type := mk {
  function_coverage : Q;
  class_coverage : Q;
  overall_coverage : Q;
  documented_functions : nat;
  total_functions : nat;
  documented_classes : nat;
  total_classes : nat
}.
End DocstringCoverage.

(** [(documented / total * 100) if total > 0 else 100]. *)
Definition coverage (documented total : nat) : Q :=
  if (0 <? total)%nat
  then (inject_Z (Z.of_nat documented) / inject_Z (Z.of_nat total) * 100)%Q
  else 100%Q.

Section with_coverage.
(** [inspect.cleandoc] behind [ast.get_docstring], and [round(x, ndigits)]. *)
Context (cleandoc : string -> string) (round : Q -> Z -> Q).

(** [if ast.get_docstring(node):] a missing docstring and an empty one are
    both falsy. *)
Definition has_docstring (n : node) : bool :=
  match get_docstring cleandoc n with
  | Some text => negb (bool_decide (text = EmptyString))
  | None => false
  end.

(** [_calculate_docstring_coverage]. *)
Definition _calculate_docstring_coverage (tree : node) : DocstringCoverage.t :=
  let '(total_functions, documented_functions, total_classes, documented_classes) :=
    fold_left
      (fun '(total_functions, documented_functions, total_classes, documented_classes) n =>
         if isinstance n [cls.FunctionDef] then
           (total_functions + 1,
            if has_docstring n then documented_functions + 1 else documented_functions,
            total_classes, documented_classes)
         else if isinstance n [cls.ClassDef] then
           (total_functions, documented_functions, total_classes + 1,
            if has_docstring n then documented_classes + 1 else documented_classes)
         else (total_functions, documented_functions, total_classes, documented_classes))
      (walk tree) (0, 0, 0, 0) in
  let function_coverage := coverage documented_functions total_functions in
  let class_coverage := coverage documented_classes total_classes in
  DocstringCoverage.mk (round function_coverage 2) (round class_coverage 2)
    (round ((function_coverage + class_coverage) / 2)%Q 2)
    documented_functions total_functions documented_classes total_classes.

End with_coverage.

(** One entry of the list returned by [_check_line_lengths]. *)
Module LineIssue.
Record t : Type := mk {
  line_number : nat;
  length : nat;
  content : string
}.
End LineIssue.

(** [line[:50] + '...' if len(line) > 50 else line]. *)
Definition shortened (line : string) : string :=
  if (50 <? String.length line)%nat then String.substring 0 50 line +:+ "..." else line.

(** [_check_line_lengths]. *)
Definition _check_line_lengths (content : string) : list LineIssue.t :=
  flat_map
    (fun '(i, line) =>
       if (100 <? String.length line)%nat
       then [LineIssue.mk i (String.length line) (shortened line)]
       else [])
    (py.enumerate_from 1 (py.split "010" content)).

(** One entry of the list returned by [_detect_duplicate_code]. *)
Module Duplicate.
Record t : Type := mk {
  content : string;
  occurrences : list nat;
  count : nat
}.
End Duplicate.

Section with_strip.
(** [str.strip], which removes the white space at both ends of a line. *)
Context (strip : string -> string).

(** [stripped and not stripped.startswith('#')]. *)
Definition is_code (stripped : string) : bool :=
  negb (bool_decide (stripped = EmptyString)) && negb (py.startswith stripped "#").

(** [_count_code_lines]. *)
Definition _count_code_lines (content : string) : nat :=
  fold_left
    (fun code_lines line =>
       let stripped := strip line in
       if is_code stripped then code_lines + 1 else code_lines)
    (py.split "010" content) 0.

(** [_count_comment_lines]. *)
Definition _count_comment_lines (content : string) : nat :=
  fold_left
    (fun comment_lines line =>
       let stripped := strip line in
       if py.startswith stripped "#" then comment_lines + 1 else comment_lines)
    (py.split "010" content) 0.

(** [_count_blank_lines]. *)
Definition _count_blank_lines (content : string) : nat :=
  list_sum
    (flat_map
       (fun line => if bool_decide (strip line = EmptyString) then [1] else [])
       (py.split "010" content)).

(** The dict [line_counts] of [_detect_duplicate_code] after its first loop:
    the line numbers of every stripped line of more than 10 characters that
    is neither blank nor a comment. *)
Definition line_counts (content : string) : list (string * list nat) :=
  fold_left
    (fun line_counts '(i, line) =>
       let stripped := strip line in
       if is_code stripped && (10 <? String.length stripped)%nat then
         if pydict.contains line_counts stripped
         then pydict.modify line_counts stripped (fun occurrences => occurrences ++ [i])
         else pydict.set line_counts stripped [i]
       else line_counts)
    (py.enumerate_from 1 (py.split "010" content)) [].

(** [_detect_duplicate_code]. *)
Definition _detect_duplicate_code (content : string) : list Duplicate.t :=
  flat_map
    (fun '(line, occurrences) =>
       if (1 <? length occurrences)%nat
       then [Duplicate.mk (shortened line) occurrences (length occurrences)]
       else [])
    (line_counts content).

End with_strip.

End CodeAnalyzer.

(* ================================================================== *)
(** * Part IV: [analyzers/function_extractor.py]                   *)
(* ================================================================== *)

Module FunctionExtractor.
Import ast.
Local Open Scope py_scope.

Inductive ParameterType : Type := POSITIONAL | KEYWORD | VAR_POSITIONAL | VAR_KEYWORD.

Module Parameter_.
Record t : Type := mk {
  name : string;
  type_hint : option string;
  default_value : option string;
  parameter_type : ParameterType;
  description : option string
}.
End Parameter_.

Module FunctionSignature.
Record t : Type := mk {
  name : string;
  parameters : list Parameter_.t;
  return_type : option string;
  is_async : bool;
  is_generator : bool;
  decorators : list string
}.
End FunctionSignature.

(** [FunctionDocumentation]. The fields [description], [parameters_doc],
    [returns_doc], [raises_doc], [examples] and [notes] (cut out of the
    docstring with regular expressions) and [source_code] (a slice of the
    lines of the file) are left out: the functions that compute them cannot
    raise, and nothing else reads them. *)
Module FunctionDocumentation.
Record t : Type := mk {
  signature : FunctionSignature.t;
  docstring : option string;
  line_start : Z;
  line_end : Z;
  complexity : nat;
  calls_made : list string;
  called_by : list string
}.
End FunctionDocumentation.

(** [_calculate_function_complexity], one round of its loop. *)
Definition complexity_step (child : node) (complexity : nat) : nat :=
  if isinstance child [cls.If; cls.While; cls.For; cls.AsyncFor] then complexity + 1
  else if isinstance child [cls.ExceptHandler] then complexity + 1
  else if isinstance child [cls.With; cls.AsyncWith] then complexity + 1
  else match child with
       | BoolOp _ value1 value2 more_values =>
           complexity + (length (value1 :: value2 :: more_values) - 1)
       | _ => complexity
       end.

(** [_calculate_function_complexity]. *)
Definition _calculate_function_complexity (n : node) : nat :=
  fold_left (fun complexity child => complexity_step child complexity) (walk n) 1.

(** [_extract_function_calls]. *)
Definition _extract_function_calls (n : node) : list string :=
  py.list_set
    (flat_map
       (fun child =>
          match child with
          | Call (Name id _) _ _ _ => [id]
          | Call (Attribute _ attr _) _ _ _ => [attr]
          | _ => []
          end)
       (walk n)).

(** [_is_generator]. *)
Definition _is_generator (n : node) : bool :=
  existsb (fun child => isinstance child [cls.Other Yield; cls.Other YieldFrom]) (walk n).

(** [x.id]: only a [Name] has the attribute. *)
Definition attr_id (x : node) : py.result string :=
  match x with
  | Name id _ => py.Val id
  | _ => py.Exc (py.AttributeError "object has no attribute 'id'")
  end.

Section with_library.
(** [ast.unparse], [inspect.cleandoc] and [str(x)] on a node, as in
    [CodeAnalyzer]. *)
Context (unparse : node -> string) (cleandoc : string -> string) (str : node -> string).

(** [_get_type_annotation]. *)
Definition _get_type_annotation (annotation : option node) : option string :=
  option_map unparse annotation.

(** [_get_default_value]. *)
Definition _get_default_value (d : node) : string := unparse d.

(** [_get_decorator_name]. *)
Definition _get_decorator_name (decorator : node) : py.result string :=
  match decorator with
  | Name id _ => py.Val id
  | Attribute value attr _ =>
      value_id <- attr_id value ;; py.Val (value_id +:+ "." +:+ attr)
  | Call (Name id _) _ _ _ => py.Val id
  | Call (Attribute value attr _) _ _ _ =>
      value_id <- attr_id value ;; py.Val (value_id +:+ "." +:+ attr)
  | _ => py.Val (str decorator)
  end.

Definition set_default (value : string) (p : Parameter_.t) : Parameter_.t :=
  Parameter_.mk (Parameter_.name p) (Parameter_.type_hint p) (Some value)
    (Parameter_.parameter_type p) (Parameter_.description p).

Definition set_keyword (p : Parameter_.t) : Parameter_.t :=
  Parameter_.mk (Parameter_.name p) (Parameter_.type_hint p) (Parameter_.default_value p)
    KEYWORD (Parameter_.description p).

(** [enumerate(xs)]. *)
Definition enumerate {A : Type} (xs : list A) : list (Z * A) :=
  imap (fun i x => (Z.of_nat i, x)) xs.

(** [_extract_signature] on the fields of a function definition. *)
Definition _extract_signature (n : node) : py.result FunctionSignature.t :=
  match n with
  | FunctionDef name a _ decorator_list returns _ _
  | AsyncFunctionDef name a _ decorator_list returns _ _ =>
      (* Regular arguments *)
      let parameters :=
        map (fun x => Parameter_.mk (arg_arg x) (_get_type_annotation (arg_annotation x))
                        None POSITIONAL None)
          (arguments_args a) in
      (* Default values for regular arguments *)
      let defaults := arguments_defaults a in
      let start_idx := (Z.of_nat (length parameters) - Z.of_nat (length defaults))%Z in
      parameters <-
        py.for_each (enumerate defaults)
          (fun '(i, d) parameters =>
             if (start_idx + i <? Z.of_nat (length parameters))%Z then
               parameters <- py.setitem parameters (start_idx + i)
                               (set_default (_get_default_value d)) ;;
               py.setitem parameters (start_idx + i) set_keyword
             else py.Val parameters)
          parameters ;;
      (* *args parameter *)
      let parameters :=
        parameters
        ++ match arguments_vararg a with
           | Some v => [Parameter_.mk (arg_arg v) (_get_type_annotation (arg_annotation v))
                          None VAR_POSITIONAL None]
           | None => []
           end in
      (* Keyword-only arguments *)
      let parameters :=
        parameters
        ++ map (fun x => Parameter_.mk (arg_arg x) (_get_type_annotation (arg_annotation x))
                           None KEYWORD None)
             (arguments_kwonlyargs a) in
      (* Default values for keyword-only arguments *)
      let kw_start :=
        (Z.of_nat (length (arguments_args a))
         + match arguments_vararg a with Some _ => 1 | None => 0 end)%Z in
      parameters <-
        py.for_each (enumerate (arguments_kw_defaults a))
          (fun '(i, d) parameters =>
             match d with
             | Some d =>
                 if (kw_start + i <? Z.of_nat (length parameters))%Z
                 then py.setitem parameters (kw_start + i)
                        (set_default (_get_default_value d))
                 else py.Val parameters
             | None => py.Val parameters
             end)
          parameters ;;
      (* **kwargs parameter *)
      let parameters :=
        parameters
        ++ match arguments_kwarg a with
           | Some k => [Parameter_.mk (arg_arg k) (_get_type_annotation (arg_annotation k))
                          None VAR_KEYWORD None]
           | None => []
           end in
      let return_type := _get_type_annotation returns in
      let is_async := isinstance n [cls.AsyncFunctionDef] in
      let is_generator := _is_generator n in
      decorators <- py.map_result _get_decorator_name decorator_list ;;
      py.Val (FunctionSignature.mk name parameters return_type is_async is_generator
                decorators)
  | _ => py.Exc (py.AttributeError "object has no attribute 'args'")
  end.

(** [_extract_function_documentation]. *)
Definition _extract_function_documentation (n : node)
  : py.result FunctionDocumentation.t :=
  signature <- _extract_signature n ;;
  let docstring := get_docstring cleandoc n in
  let '(lineno, end_lineno) :=
    match n with
    | FunctionDef _ _ _ _ _ lineno end_lineno
    | AsyncFunctionDef _ _ _ _ _ lineno end_lineno => (lineno, end_lineno)
    | _ => (0%Z, None)
    end in
  let complexity := _calculate_function_complexity n in
  let calls_made := _extract_function_calls n in
  py.Val (FunctionDocumentation.mk signature docstring lineno (py.or_int end_lineno lineno)
            complexity calls_made []).

Definition add_caller (func_name : string) (d : FunctionDocumentation.t)
  : FunctionDocumentation.t :=
  FunctionDocumentation.mk
    (FunctionDocumentation.signature d) (FunctionDocumentation.docstring d)
    (FunctionDocumentation.line_start d) (FunctionDocumentation.line_end d)
    (FunctionDocumentation.complexity d) (FunctionDocumentation.calls_made d)
    (FunctionDocumentation.called_by d ++ [func_name]).

(** One round of the outer loop of [_build_call_graph]. *)
Definition record_calls (functions : list (string * FunctionDocumentation.t))
  (func_name : string) : list (string * FunctionDocumentation.t) :=
  match pydict.get functions func_name with
  | Some func_doc =>
      fold_left
        (fun fs called_func =>
           if pydict.contains fs called_func
           then pydict.modify fs called_func (add_caller func_name)
           else fs)
        (FunctionDocumentation.calls_made func_doc)
        functions
  | None => functions
  end.

(** [_build_call_graph]: the dict after the in-place updates. *)
Definition _build_call_graph (functions : list (string * FunctionDocumentation.t))
  : list (string * FunctionDocumentation.t) :=
  fold_left record_calls (pydict.keys functions) functions.

(** [extract_from_file], for a file that exists, from the outcome of the
    parser on its content: the dict it returns. *)
Definition extract_from_file (file_path : string) (parse : parsed)
  : py.result (list (string * FunctionDocumentation.t)) :=
  match parse with
  | syntax_error e =>
      py.Exc (py.SyntaxError ("Syntax error in " +:+ file_path +:+ ": " +:+ e))
  | module_of body =>
      let tree := Module_ body in
      functions <-
        py.for_each (walk tree)
          (fun n functions =>
             if isinstance n [cls.FunctionDef; cls.AsyncFunctionDef] then
               func_doc <- _extract_function_documentation n ;;
               py.Val (pydict.set functions
                         (FunctionSignature.name (FunctionDocumentation.signature func_doc))
                         func_doc)
             else py.Val functions)
          [] ;;
      py.Val (_build_call_graph functions)
  end.

End with_library.

Section with_library.
Context (unparse : node -> string) (cleandoc : string -> string) (str : node -> string).

(** [extract_from_directory]. [found] is what the file system holds at the
    path: nothing, or a directory with its Python files, each with what the
    parser makes of it. A file that raises [SyntaxError] or
    [FileNotFoundError] is skipped with a warning; any other exception leaves
    the function. *)
Definition extract_from_directory (directory_path : string)
  (found : option (list (string * parsed)))
  : py.result (list (string * list (string * FunctionDocumentation.t))) :=
  match found with
  | None => py.Exc (py.FileNotFoundError ("Directory not found: " +:+ directory_path))
  | Some python_files =>
      py.for_each python_files
        (fun '(file_path, parse) all_functions =>
           match extract_from_file unparse cleandoc str file_path parse with
           | py.Val functions => py.Val (pydict.set all_functions file_path functions)
           | py.Exc (py.SyntaxError _) | py.Exc (py.FileNotFoundError _) =>
               py.Val all_functions
           | py.Exc e => py.Exc e
           | py.OutOfFuel => py.OutOfFuel
           end)
        []
  end.

End with_library.
End FunctionExtractor.

(* ================================================================== *)
(** * Part V: [analyzers/dependency_mapper.py]                     *)
(* ================================================================== *)

Module DependencyMapper.
Import ast.

Inductive DependencyType : Type :=
| IMPORT | FUNCTION_CALL | CLASS_INHERITANCE | VARIABLE_REFERENCE | MODULE_REFERENCE.

Inductive DependencyScope : Type :=
| INTERNAL   (* Within the same project *)
| EXTERNAL   (* External libraries *)
| BUILTIN.   (* Python built-ins *)

Record Dependency : Type := mkDependency {
  source : string;
  target : string;
  dependency_type : DependencyType;
  scope : DependencyScope;
  line_number : Z;
  context : option string
}.

Record ModuleInfo : Type := mkModuleInfo {
  path : string;
  name : string;
  imports : list string;
  exports : list string;
  functions : list string;
  classes : list string;
  dependencies : list Dependency
}.

(** One value of [self.dependency_graph]: the dict with the five string
    keys ['dependencies'], ['dependents'], ['internal_deps'],
    ['external_deps'] and ['builtin_deps']. *)
Record GraphInfo : Type := mkGraphInfo {
  gi_dependencies : list string;
  gi_dependents : list string;
  gi_internal_deps : list string;
  gi_external_deps : list string;
  gi_builtin_deps : list string
}.

(** The attributes of a [DependencyMapper] instance. [modules] is keyed by
    file path, [dependency_graph] by module name. [project_root] only enters
    [_get_module_name], whose result every source file below carries. *)
Record self : Type := mkSelf {
  modules : list (string * ModuleInfo);
  dependency_graph : list (string * GraphInfo);
  builtin_modules : gset string
}.

(** [__init__]: the fixed set of names treated as standard library. *)
Definition default_builtin_modules : gset string :=
  list_to_set
    [ "os"; "sys"; "json"; "datetime"; "pathlib"; "typing"; "re"; "collections";
      "itertools"; "functools"; "operator"; "math"; "random"; "string"; "time";
      "urllib"; "http"; "email"; "html"; "xml"; "csv"; "sqlite3"; "logging";
      "unittest"; "argparse"; "configparser"; "io"; "tempfile"; "shutil";
      "glob"; "fnmatch"; "pickle"; "copy"; "pprint"; "textwrap"; "unicodedata";
      "codecs"; "base64"; "binascii"; "struct"; "array"; "weakref"; "gc";
      "inspect"; "dis"; "ast"; "keyword"; "token"; "tokenize"; "traceback" ].

Definition __init__ : self :=
  {| modules := []; dependency_graph := []; builtin_modules := default_builtin_modules |}.

(** [_get_project_modules]. *)
Definition _get_project_modules (s : self) : list string :=
  map name (pydict.values (modules s)).

(** [_determine_scope]. The first loop runs over [self.modules.keys()] and
    looks every key up again; a key of the dict is always found. *)
Definition _determine_scope (s : self) (target : string) : DependencyScope :=
  let root_module := hd EmptyString (py.split "." target) in
  if bool_decide (root_module ∈ builtin_modules s) then BUILTIN
  else if existsb
            (fun module_path =>
               match pydict.get (modules s) module_path with
               | Some module_info => py.startswith target (name module_info)
               | None => false
               end)
            (pydict.keys (modules s))
  then INTERNAL
  else if py.startswith target "."
          || existsb (fun n => py.startswith target n) (_get_project_modules s)
  then INTERNAL
  else EXTERNAL.

Definition empty_graph_info : GraphInfo :=
  {| gi_dependencies := []; gi_dependents := []; gi_internal_deps := [];
     gi_external_deps := []; gi_builtin_deps := [] |}.

(** The body of the inner loop of [_build_dependency_graph] on the entry of
    the module being processed. *)
Definition record_dependency (dep : Dependency) (gi : GraphInfo) : GraphInfo :=
  let gi1 :=
    {| gi_dependencies := gi_dependencies gi ++ [target dep];
       gi_dependents := gi_dependents gi;
       gi_internal_deps := gi_internal_deps gi;
       gi_external_deps := gi_external_deps gi;
       gi_builtin_deps := gi_builtin_deps gi |} in
  match scope dep with
  | INTERNAL =>
      {| gi_dependencies := gi_dependencies gi1;
         gi_dependents := gi_dependents gi1;
         gi_internal_deps := gi_internal_deps gi1 ++ [target dep];
         gi_external_deps := gi_external_deps gi1;
         gi_builtin_deps := gi_builtin_deps gi1 |}
  | EXTERNAL =>
      {| gi_dependencies := gi_dependencies gi1;
         gi_dependents := gi_dependents gi1;
         gi_internal_deps := gi_internal_deps gi1;
         gi_external_deps := gi_external_deps gi1 ++ [target dep];
         gi_builtin_deps := gi_builtin_deps gi1 |}
  | BUILTIN =>
      {| gi_dependencies := gi_dependencies gi1;
         gi_dependents := gi_dependents gi1;
         gi_internal_deps := gi_internal_deps gi1;
         gi_external_deps := gi_external_deps gi1;
         gi_builtin_deps := gi_builtin_deps gi1 ++ [target dep] |}
  end.

(** First loop of [_build_dependency_graph], one module: a fresh entry is
    stored under the module's name, then filled through the graph. *)
Definition add_module (graph : list (string * GraphInfo)) (module_info : ModuleInfo)
  : list (string * GraphInfo) :=
  let module_name := name module_info in
  fold_left
    (fun g dep => pydict.modify g module_name (record_dependency dep))
    (dependencies module_info)
    (pydict.set graph module_name empty_graph_info).

Definition add_dependent (module_name : string) (gi : GraphInfo) : GraphInfo :=
  {| gi_dependencies := gi_dependencies gi;
     gi_dependents := gi_dependents gi ++ [module_name];
     gi_internal_deps := gi_internal_deps gi;
     gi_external_deps := gi_external_deps gi;
     gi_builtin_deps := gi_builtin_deps gi |}.

(** Second loop of [_build_dependency_graph], one module: every target of
    its ['dependencies'] list that is a key of the graph gets the module
    appended to its ['dependents']. *)
Definition add_dependents (graph : list (string * GraphInfo)) (module_name : string)
  : list (string * GraphInfo) :=
  match pydict.get graph module_name with
  | Some graph_info =>
      fold_left
        (fun g dep =>
           if pydict.contains g dep
           then pydict.modify g dep (add_dependent module_name)
           else g)
        (gi_dependencies graph_info)
        graph
  | None => graph
  end.

(** [_build_dependency_graph]: the new value of [self.dependency_graph]. *)
Definition _build_dependency_graph (s : self) : self :=
  let graph1 := fold_left add_module (pydict.values (modules s)) [] in
  let graph2 := fold_left add_dependents (pydict.keys graph1) graph1 in
  {| modules := modules s; dependency_graph := graph2;
     builtin_modules := builtin_modules s |}.

(** [_extract_imports]. *)
Definition _extract_imports (tree : node) : list string :=
  py.list_set
    (flat_map
       (fun n =>
          match n with
          | Import names _ => map alias_name names
          | ImportFrom (Some module) names _ _ =>
              if decide (module = EmptyString) then []
              else module
                   :: flat_map
                        (fun a =>
                           if decide (alias_name a = "*") then []
                           else [module +:+ "." +:+ alias_name a])
                        names
          | _ => []
          end)
       (walk tree)).

(** The string elements of the list assigned to [__all__]. *)
Definition all_names (value : node) : list string :=
  match value with
  | Other List elts =>
      flat_map (fun elt => match elt with Constant (CStr text) => [text] | _ => [] end) elts
  | _ => []
  end.

(** The first assignment to the single target [__all__] met by the walk. *)
Fixpoint find_all (nodes : list node) : option node :=
  match nodes with
  | [] => None
  | Assign (Name "__all__" _) [] value _ :: _ => Some value
  | _ :: rest => find_all rest
  end.

Definition is_private (identifier : string) : bool := py.startswith identifier "_".

(** [_extract_exports]. *)
Definition _extract_exports (tree : node) : list string :=
  match find_all (walk tree) with
  | Some value => all_names value
  | None =>
      (* If no __all__, extract top-level definitions *)
      flat_map
        (fun n =>
           match n with
           | FunctionDef name _ _ _ _ _ _ => if is_private name then [] else [name]
           | ClassDef name _ _ _ _ _ _ => if is_private name then [] else [name]
           | Assign target1 more_targets _ _ =>
               flat_map
                 (fun t =>
                    match t with
                    | Name id _ => if is_private id then [] else [id]
                    | _ => []
                    end)
                 (target1 :: more_targets)
           | _ => []
           end)
        (match tree with Module_ body => body | _ => [] end)
  end.

(** [_extract_function_names]. *)
Definition _extract_function_names (tree : node) : list string :=
  flat_map
    (fun n =>
       match n with
       | FunctionDef name _ _ _ _ _ _ | AsyncFunctionDef name _ _ _ _ _ _ => [name]
       | _ => []
       end)
    (walk tree).

(** [_extract_class_names]. *)
Definition _extract_class_names (tree : node) : list string :=
  flat_map (fun n => match n with ClassDef name _ _ _ _ _ _ => [name] | _ => [] end)
    (walk tree).

(** [_get_call_target]. *)
Definition _get_call_target (func : node) : option string :=
  match func with
  | Name id _ => Some id
  | Attribute _ attr _ => Some attr
  | _ => None
  end.

(** [_get_name_from_node]; the f-string prints an inner [None] as ["None"]. *)
Fixpoint _get_name_from_node (n : node) : option string :=
  match n with
  | Name id _ => Some id
  | Attribute value attr _ =>
      Some (default "None" (_get_name_from_node value) +:+ "." +:+ attr)
  | _ => None
  end.

(** [if target:] on an optional string: [None] and the empty string are
    falsy. *)
Definition truthy (target : option string) : list string :=
  match target with
  | Some t => if decide (t = EmptyString) then [] else [t]
  | None => []
  end.

(** [_extract_dependencies]; [source_module] is the module name of the file. *)
Definition _extract_dependencies (s : self) (tree : node) (source_module : string)
  : list Dependency :=
  flat_map
    (fun n =>
       match n with
       | Import names lineno =>
           map (fun a =>
                  mkDependency source_module (alias_name a) IMPORT
                    (_determine_scope s (alias_name a)) lineno (Some "import"))
             names
       | ImportFrom module _ _ lineno =>
           map (fun m =>
                  mkDependency source_module m IMPORT (_determine_scope s m) lineno
                    (Some "from_import"))
             (truthy module)
       | Call func _ _ lineno =>
           map (fun t =>
                  mkDependency source_module t FUNCTION_CALL (_determine_scope s t) lineno
                    (Some "function_call"))
             (truthy (_get_call_target func))
       | ClassDef name bases _ _ _ lineno _ =>
           flat_map
             (fun base =>
                map (fun t =>
                       mkDependency source_module t CLASS_INHERITANCE (_determine_scope s t)
                         lineno (Some ("class " +:+ name)))
                  (truthy (_get_name_from_node base)))
             bases
       | _ => []
       end)
    (walk tree).

(** A source file of the project: its path, the module name
    [_get_module_name] derives from the path (the path relative to the
    project root with dots for separators, without [__init__]), and what
    [ast.parse] makes of its content. *)
Record source_file : Type := mkSourceFile {
  file_path : string;
  module_name : string;
  content : parsed
}.

(** [analyze_file], for a file that exists: the mapper with the module
    registered, and the [ModuleInfo] returned. *)
Definition analyze_file (s : self) (f : source_file) : py.result (self * ModuleInfo) :=
  match content f with
  | syntax_error e =>
      py.Exc (py.SyntaxError ("Syntax error in " +:+ file_path f +:+ ": " +:+ e))
  | module_of body =>
      let tree := Module_ body in
      let module_info :=
        {| path := file_path f;
           name := module_name f;
           imports := _extract_imports tree;
           exports := _extract_exports tree;
           functions := _extract_function_names tree;
           classes := _extract_class_names tree;
           dependencies := _extract_dependencies s tree (module_name f) |} in
      py.Val ({| modules := pydict.set (modules s) (file_path f) module_info;
                 dependency_graph := dependency_graph s;
                 builtin_modules := builtin_modules s |},
              module_info)
  end.

(** The loop of [analyze_project] over the files found: a file whose analysis
    raises is skipped with a warning. *)
Definition analyze_files (s : self) (python_files : list source_file) : self :=
  fold_left
    (fun s f => match analyze_file s f with py.Val (s', _) => s' | _ => s end)
    python_files s.

(** The three variables shared by the nested [dfs] of
    [_find_circular_dependencies]. *)
Record dfs_state : Type := mk_dfs_state {
  circular_deps : list (list string);
  visited : gset string;
  rec_stack : gset string
}.

(** The nested function [dfs(node, path)]. Each call receives its own copy of
    the path ([path.copy()] at the call), so the path is a plain value; the
    three shared variables are threaded through. A call that goes past the
    two early returns marks a module that was not visited before, hence the
    fuel: one unit per nested call. *)
Fixpoint dfs (fuel : nat) (graph : list (string * GraphInfo)) (node : string)
  (path : list string) (st : dfs_state) : py.result dfs_state :=
  match fuel with
  | O => py.OutOfFuel
  | S fuel' =>
      if bool_decide (node ∈ rec_stack st) then
        (* Found a cycle *)
        py.bind (py.index path node) (fun cycle_start =>
        let cycle := drop cycle_start path ++ [node] in
        py.Val {| circular_deps := circular_deps st ++ [cycle];
                  visited := visited st; rec_stack := rec_stack st |})
      else if bool_decide (node ∈ visited st) || negb (pydict.contains graph node)
      then py.Val st
      else
        match pydict.get graph node with
        | None => py.Exc (py.KeyError node)
        | Some graph_info =>
            let st1 := {| circular_deps := circular_deps st;
                          visited := {[node]} ∪ visited st;
                          rec_stack := {[node]} ∪ rec_stack st |} in
            let path1 := path ++ [node] in
            py.bind
              (py.for_each (gi_internal_deps graph_info)
                 (fun dep st' => dfs fuel' graph dep path1 st') st1)
              (fun st2 =>
                 if bool_decide (node ∈ rec_stack st2) then
                   py.Val {| circular_deps := circular_deps st2;
                             visited := visited st2;
                             rec_stack := rec_stack st2 ∖ {[node]} |}
                 else py.Exc (py.KeyError node))
        end
  end.

(** One round of the loop over the modules of the graph: a module not yet
    visited is the root of a search. *)
Definition dfs_root (graph : list (string * GraphInfo)) (module : string)
  (st : dfs_state) : py.result dfs_state :=
  if bool_decide (module ∈ visited st) then py.Val st
  else dfs (S (length graph)) graph module [] st.

Definition dfs_roots (graph : list (string * GraphInfo)) (roots : list string)
  (st : dfs_state) : py.result dfs_state :=
  py.for_each roots (dfs_root graph) st.

Definition dfs_init : dfs_state :=
  {| circular_deps := []; visited := ∅; rec_stack := ∅ |}.

(** [_find_circular_dependencies]. *)
Definition _find_circular_dependencies (s : self) : py.result (list (list string)) :=
  py.bind (dfs_roots (dependency_graph s) (pydict.keys (dependency_graph s)) dfs_init)
    (fun st => py.Val (circular_deps st)).

(** [_find_orphaned_modules]. *)
Definition _find_orphaned_modules (s : self) : list string :=
  flat_map
    (fun '(module_name, graph_info) =>
       match gi_dependents graph_info with [] => [module_name] | _ => [] end)
    (dependency_graph s).

(** One value of the dict [dependency_counts] of
    [_get_most_used_dependencies], and one entry of the list it returns. The
    scope and the type are kept as the enumeration members whose [value]
    strings the dicts hold. *)
Record Usage : Type := mkUsage {
  usage_count : nat;
  usage_scope : DependencyScope;
  usage_type : DependencyType
}.

Record MostUsed : Type := mkMostUsed {
  mu_name : string;
  mu_count : nat;
  mu_scope : DependencyScope;
  mu_type : DependencyType
}.

(** The body of the inner loop of [_get_most_used_dependencies]. *)
Definition count_dependency (dependency_counts : list (string * Usage)) (dep : Dependency)
  : list (string * Usage) :=
  let dependency_counts :=
    if pydict.contains dependency_counts (target dep) then dependency_counts
    else pydict.set dependency_counts (target dep)
           (mkUsage 0 (scope dep) (dependency_type dep)) in
  pydict.modify dependency_counts (target dep)
    (fun u => mkUsage (usage_count u + 1) (usage_scope u) (usage_type u)).

(** The dict [dependency_counts] after the two loops. *)
Definition dependency_counts (s : self) : list (string * Usage) :=
  fold_left
    (fun counts module_info => fold_left count_dependency (dependencies module_info) counts)
    (pydict.values (modules s)) [].

(** [_get_most_used_dependencies]. *)
Definition _get_most_used_dependencies (s : self) (limit : Z) : list MostUsed :=
  let sorted_deps := py.sorted_reverse (fun item => usage_count item.2) (dependency_counts s) in
  map (fun '(name, info) =>
         mkMostUsed name (usage_count info) (usage_scope info) (usage_type info))
    (py.slice_to sorted_deps limit).

(** One value of ['module_coupling']. Python computes the instability in
    floating point; the model keeps the rational the float stands for. *)
Record CouplingData : Type := mkCouplingData {
  afferent_coupling : nat;
  efferent_coupling : nat;
  instability : Q
}.

Record CouplingReport : Type := mkCouplingReport {
  module_coupling : list (string * CouplingData);
  average_afferent_coupling : Q;
  average_efferent_coupling : Q;
  average_instability : Q
}.

Definition Q_of_nat (n : nat) : Q := inject_Z (Z.of_nat n).

Section with_round.
(** [round(x, ndigits)] of the Python runtime. *)
Context (round : Q -> Z -> Q).

(** The instability of a module before it is rounded:
    [ce / (ca + ce) if (ca + ce) > 0 else 0]. *)
Definition raw_instability (ca ce : nat) : Q :=
  if (0 <? ca + ce)%nat then (Q_of_nat ce / Q_of_nat (ca + ce))%Q else 0%Q.

(** One round of the loop of [_calculate_coupling_metrics]. *)
Definition coupling_of (graph_info : GraphInfo) : CouplingData :=
  let ca := length (gi_dependents graph_info) in   (* Afferent coupling *)
  let ce := length (gi_internal_deps graph_info) in   (* Efferent coupling *)
  {| afferent_coupling := ca; efferent_coupling := ce;
     instability := round (raw_instability ca ce) 3 |}.

Definition Q_sum (xs : list Q) : Q := fold_left Qplus xs 0%Q.

(** [_calculate_coupling_metrics]; [None] stands for the empty dict returned
    for an empty graph. *)
Definition _calculate_coupling_metrics (s : self) : option CouplingReport :=
  match dependency_graph s with
  | [] => None
  | graph =>
      let '(coupling_data, total_ca, total_ce) :=
        fold_left
          (fun '(data, total_ca, total_ce) '(module_name, graph_info) =>
             let c := coupling_of graph_info in
             (pydict.set data module_name c,
              total_ca + afferent_coupling c, total_ce + efferent_coupling c))
          graph ([], 0, 0) in
      let num_modules := length graph in
      let avg x := if (0 <? num_modules)%nat then (x / Q_of_nat num_modules)%Q else 0%Q in
      Some {| module_coupling := coupling_data;
              average_afferent_coupling := round (avg (Q_of_nat total_ca)) 2;
              average_efferent_coupling := round (avg (Q_of_nat total_ce)) 2;
              average_instability :=
                round (avg (Q_sum (map instability (pydict.values coupling_data)))) 3 |}
  end.

(** The dict returned by [_generate_analysis_report], without its entries
    ['modules'], ['most_used_dependencies'], ['external_libraries'] and
    ['builtin_modules_used']. *)
Inductive report : Type :=
| no_modules   (* {'error': 'No modules analyzed'} *)
| analysis
    (total_modules total_dependencies : nat)
    (internal_dependencies external_dependencies builtin_dependencies : nat)
    (graph : list (string * GraphInfo))
    (circular_dependencies : list (list string))
    (orphaned_modules : list string)
    (coupling_metrics : option CouplingReport).

Definition has_scope (sc : DependencyScope) (d : Dependency) : bool :=
  match sc, scope d with
  | INTERNAL, INTERNAL | EXTERNAL, EXTERNAL | BUILTIN, BUILTIN => true
  | _, _ => false
  end.

(** [_generate_analysis_report]. *)
Definition _generate_analysis_report (s : self) : py.result report :=
  match modules s with
  | [] => py.Val no_modules
  | _ =>
      let all_dependencies := flat_map dependencies (pydict.values (modules s)) in
      py.bind (_find_circular_dependencies s) (fun circular_deps =>
      py.Val (analysis (length (modules s)) (length all_dependencies)
                (length (filter (has_scope INTERNAL) all_dependencies))
                (length (filter (has_scope EXTERNAL) all_dependencies))
                (length (filter (has_scope BUILTIN) all_dependencies))
                (dependency_graph s) circular_deps (_find_orphaned_modules s)
                (_calculate_coupling_metrics s)))
  end.

(** [analyze_project], from the list of the project's Python files: the
    mapper after the run, and the report. *)
Definition analyze_project (s : self) (python_files : list source_file)
  : self * py.result report :=
  let s := _build_dependency_graph (analyze_files s python_files) in
  (s, _generate_analysis_report s).

End with_round.

End DependencyMapper.

(* ================================================================== *)
(** * Part VI: the properties as the specification words them      *)
(* ================================================================== *)

Module Spec.
Import DependencyMapper.

(** The root component of a dependency target: the text before the first
    ['.']. *)
Fixpoint text_before_first_dot (target : string) : string :=
  match target with
  | EmptyString => EmptyString
  | String c rest =>
      if Ascii.eqb c "." then EmptyString else String c (text_before_first_dot rest)
  end.

(** A target matches a project module when it equals the module's name or is
    dot-prefixed by it. *)
Definition matches_module (target module_name : string) : bool :=
  bool_decide (target = module_name) || String.prefix (module_name +:+ ".") target.

(** Scope classification in the words of the specification, as a function of
    the target, the known project module names and the builtin set. *)
Definition classify_scope (target : string) (project_modules : list string)
  (builtins : gset string) : DependencyScope :=
  if bool_decide (text_before_first_dot target ∈ builtins) then BUILTIN
  else if existsb (matches_module target) project_modules || String.prefix "." target
  then INTERNAL
  else EXTERNAL.

(** What one node adds to the cyclomatic complexity of the function it
    belongs to: one per [if], [while] and [for] node, per [except] clause and
    per [with] block, and one per operand beyond the first of a boolean
    chain. *)
Definition increment (n : ast.node) : nat :=
  match n with
  | ast.If _ _ _ | ast.While _ _ _ | ast.For _ _ _ _ | ast.AsyncFor _ _ _ _ => 1
  | ast.ExceptHandler _ _ _ => 1
  | ast.With _ _ | ast.AsyncWith _ _ => 1
  | ast.BoolOp _ _ _ more_values => 1 + length more_values
  | _ => 0
  end.

(** The increments of all the nodes of a tree. *)
Definition increments (n : ast.node) : nat := list_sum (map increment (ast.subnodes n)).

(** Cyclomatic complexity of a function definition in the words of the
    specification. *)
Definition cyclomatic_complexity (f : ast.node) : nat := 1 + increments f.

(** The constructs that score in the cognitive complexity, and the
    constructs that deepen the nesting. *)
Definition scores (n : ast.node) : bool :=
  ast.isinstance n [ast.cls.If; ast.cls.While; ast.cls.For; ast.cls.ExceptHandler].

Definition nests (n : ast.node) : bool :=
  ast.isinstance n
    [ast.cls.If; ast.cls.While; ast.cls.For; ast.cls.With; ast.cls.ExceptHandler].

(** Every node of a tree with the nesting level at which it occurs: the level
    of a node is that of its parent, plus one when the parent is a construct
    that nests. *)
Definition with_levels : ast.node -> nat -> list (ast.node * nat) :=
  ast.tree_rec
    (fun n children level =>
       (n, level)
       :: flat_map (fun child => child (if nests n then level + 1 else level)) children).

(** Cognitive complexity in the words of the specification: the sum, over the
    scoring constructs, of one plus the nesting level. *)
Definition cognitive_complexity (tree : ast.node) : nat :=
  list_sum
    (map (fun '(n, level) => if scores n then 1 + level else 0) (with_levels tree 0)).

(** The import records of one statement in the words of the specification:
    a bare import gives one record per module with no imported names, a
    from-style import one record per imported name. *)
Definition import_records (n : ast.node) : list CodeAnalyzer.ImportInfo.t :=
  match n with
  | ast.Import names lineno =>
      map (fun a =>
             CodeAnalyzer.ImportInfo.mk (ast.alias_name a) [] (ast.alias_asname a) lineno false)
        names
  | ast.ImportFrom module names _ lineno =>
      map (fun a =>
             CodeAnalyzer.ImportInfo.mk (default EmptyString module) [ast.alias_name a] None
               lineno true)
        names
  | _ => []
  end.

(** The functions of a file are its function definitions, plain or [async];
    the parameters of a function are those its [FunctionInfo] lists: the
    positional names, then the variadic ones with their stars; the methods of
    a class are the function definitions directly in its body. *)
Definition is_function (n : ast.node) : bool :=
  ast.isinstance n [ast.cls.FunctionDef; ast.cls.AsyncFunctionDef].

Definition parameters (f : ast.node) : list string :=
  match f with
  | ast.FunctionDef _ a _ _ _ _ _ | ast.AsyncFunctionDef _ a _ _ _ _ _ =>
      map ast.arg_arg (ast.arguments_args a)
      ++ match ast.arguments_vararg a with Some v => ["*" +:+ ast.arg_arg v] | None => [] end
      ++ match ast.arguments_kwarg a with Some k => ["**" +:+ ast.arg_arg k] | None => [] end
  | _ => []
  end.

Definition def_name (n : ast.node) : string :=
  match n with
  | ast.FunctionDef name _ _ _ _ _ _ | ast.AsyncFunctionDef name _ _ _ _ _ _ => name
  | ast.ClassDef name _ _ _ _ _ _ => name
  | _ => EmptyString
  end.

Definition methods (c : ast.node) : list ast.node :=
  match c with
  | ast.ClassDef _ _ _ body _ _ _ => filter (fun item => is_function item) body
  | _ => []
  end.

(** The code-smell report in the words of the specification: the functions
    flagged are exactly those with more than 5 parameters, the classes
    flagged exactly those with more than 20 methods. *)
Definition smells_as_specified (tree : ast.node) (smells : list CodeAnalyzer.smell) : Prop :=
  (forall f, f ∈ ast.subnodes tree -> is_function f = true ->
             (5 < length (parameters f)
              <-> exists count line,
                    CodeAnalyzer.long_parameter_list (def_name f) count line ∈ smells))
  /\ (forall c, c ∈ ast.subnodes tree -> ast.isinstance c [ast.cls.ClassDef] = true ->
                (20 < length (methods c)
                 <-> exists count line,
                       CodeAnalyzer.large_class (def_name c) count line ∈ smells)).

(** The graph invariant in the words of the specification: [dependents] is
    the transpose of the [internal_deps] edges between modules of the graph. *)
Definition dependents_transpose_internal_deps (graph : list (string * GraphInfo)) : Prop :=
  forall M N gm gn,
    pydict.get graph M = Some gm -> pydict.get graph N = Some gn ->
    (M ∈ gi_dependents gn <-> N ∈ gi_internal_deps gm).

End Spec.

(* ================================================================== *)
(** * Part VII: notions used to state and to prove the properties  *)
(* ================================================================== *)

Module Notions.
Import ast DependencyMapper.

(** ** Transposing edges in place

    Both [_build_dependency_graph] (second loop) and [_build_call_graph] run
    over the keys of a dict and, for every target listed by the value of a
    key, append that key to a list kept by the value of the target, when the
    target is a key too. [out] reads the list of targets, [add k] appends
    [k] to the list kept by a value. *)
Section transpose.
Context {V : Type} (out : V -> list string) (add : string -> V -> V).
Implicit Types (g : list (string * V)) (k n : string) (v : V).

Definition link k g (t : string) : list (string * V) :=
  if pydict.contains g t then pydict.modify g t (add k) else g.

Definition link_all g k : list (string * V) :=
  match pydict.get g k with
  | Some v => fold_left (link k) (out v) g
  | None => g
  end.

Definition occurrences n (ts : list string) : nat :=
  length (filter (fun t => t = n) ts).

Definition out_of g k : list string :=
  match pydict.get g k with Some v => out v | None => [] end.

(** The value of [n] after the keys [ks] have been processed. *)
Definition linked g n (ks : list string) v : V :=
  fold_left (fun v k => Nat.iter (occurrences n (out_of g k)) (add k) v) ks v.

End transpose.

(** ** The dependency graph *)

(** What the first loop of [_build_dependency_graph] establishes for every
    entry: no dependents yet, and every internal target is also listed under
    ['dependencies']. *)
Definition fresh_entry (gi : GraphInfo) : Prop :=
  gi_dependents gi = [] /\ forall t, t ∈ gi_internal_deps gi -> t ∈ gi_dependencies gi.

(** The entry of a module in ['module_coupling']. *)
Definition coupling_entry (round : Q -> Z -> Q) (s : self) (module_name : string)
  : option CouplingData :=
  match _calculate_coupling_metrics round s with
  | Some report => pydict.get (module_coupling report) module_name
  | None => None
  end.

Section with_graph.
Context (graph : list (string * GraphInfo)).
Implicit Types (node : string) (path : list string) (st : dfs_state).

(** An internal-dependency edge of the graph. *)
Definition edge (a b : string) : Prop :=
  exists gi, pydict.get graph a = Some gi /\ b ∈ gi_internal_deps gi.

(** The graph has a cycle of internal-dependency edges. *)
Definition cyclic : Prop := exists x, tc edge x x.

(** Consecutive modules of a list are joined by edges. *)
Fixpoint chain (l : list string) : Prop :=
  match l with
  | a :: (b :: _) as rest => edge a b /\ chain rest
  | _ => True
  end.

(** The module before the closing one in a reported cycle. *)
Definition penult (c : list string) : option string :=
  match reverse c with
  | _ :: p :: _ => Some p
  | _ => None
  end.

(** Modules of the graph not visited yet. *)
Definition unvisited st : nat :=
  size (list_to_set (pydict.keys graph) ∖ visited st : gset string).

(** What a call of [dfs] with path [path] leaves behind: the recursion stack
    as it found it, a larger visited set, and some more reported cycles. Each
    of them is a cycle of the graph, and the module before its closing one is
    the end of [path] or was first visited during the call. *)
Definition dfs_post path st st' : Prop :=
  rec_stack st' = rec_stack st
  /\ visited st ⊆ visited st'
  /\ exists new,
       circular_deps st' = circular_deps st ++ new
       /\ forall c, c ∈ new ->
            cyclic
            /\ exists p, penult c = Some p
                         /\ (last path = Some p \/ ((p ∉ visited st) /\ p ∈ visited st')).

End with_graph.

(** The cycle A -> B -> C -> A written from [first], one of the three, and
    closed by [first] again. *)
Definition cycle_from (A B C first : string) (cycle : list string) : Prop :=
  (first = A /\ cycle = [A; B; C; A])
  \/ (first = B /\ cycle = [B; C; A; B])
  \/ (first = C /\ cycle = [C; A; B; C]).

(** ** The analyzers of one file *)

Definition isinstance_type_error : py.exn :=
  py.TypeError "isinstance expected 2 arguments, got 3".

(** What one node adds at a given nesting level. *)
Definition score (entry : node * nat) : nat :=
  let '(n, level) := entry in if Spec.scores n then 1 + level else 0.

(** The records [_extract_imports] makes of one node. *)
Definition records_of (n : node) : list CodeAnalyzer.ImportInfo.t :=
  match n with
  | Import names lineno =>
      map (fun a =>
             CodeAnalyzer.ImportInfo.mk (alias_name a) [alias_name a] (alias_asname a)
               lineno false)
        names
  | ImportFrom module names _ lineno =>
      [CodeAnalyzer.ImportInfo.mk (default EmptyString module) (map alias_name names) None
         lineno true]
  | _ => []
  end.

(** The entries [_detect_code_smells] makes of one node. *)
Definition smells_of (n : node) : list CodeAnalyzer.smell :=
  match n with
  | FunctionDef name a _ _ _ lineno _ =>
      if (5 <? length (arguments_args a))%nat
      then [CodeAnalyzer.long_parameter_list name (length (arguments_args a)) lineno]
      else []
  | ClassDef name _ _ body _ lineno _ =>
      let method_count :=
        length (filter (fun item => isinstance item [cls.FunctionDef]) body) in
      if (20 <? method_count)%nat then [CodeAnalyzer.large_class name method_count lineno]
      else []
  | _ => []
  end.

Definition is_large_class (s : CodeAnalyzer.smell) : bool :=
  match s with CodeAnalyzer.large_class _ _ _ => true | _ => false end.

(** No class definition at or below a node. *)
Definition class_free (n : node) : Prop :=
  Forall (fun x => isinstance x [cls.ClassDef] = false) (subnodes n).

Definition func_name (d : FunctionExtractor.FunctionDocumentation.t) : string :=
  FunctionExtractor.FunctionSignature.name (FunctionExtractor.FunctionDocumentation.signature d).

(** What holds of every entry of the dict before the call graph is built. *)
Definition fresh_doc (k : string) (d : FunctionExtractor.FunctionDocumentation.t) : Prop :=
  k = func_name d
  /\ FunctionExtractor.FunctionDocumentation.called_by d = []
  /\ NoDup (FunctionExtractor.FunctionDocumentation.calls_made d).

(** The dict of [extract_from_file] before [_build_call_graph]: its keys are
    distinct, each entry is filed under the name of its function, nobody is
    recorded as a caller yet, and no callee is listed twice. *)
Definition fresh_functions (functions : list (string * FunctionExtractor.FunctionDocumentation.t)) : Prop :=
  NoDup (pydict.keys functions)
  /\ forall k d, pydict.get functions k = Some d -> fresh_doc k d.

(** ** Notions of the further properties *)

(** The constructs that deepen the nesting counted by
    [_calculate_max_nesting_depth]. *)
Definition deepens (n : node) : bool :=
  isinstance n [cls.If; cls.While; cls.For; cls.With; cls.FunctionDef; cls.ClassDef].

(** Every node of a tree with the depth at which it occurs: the depth of a
    node is that of its parent, plus one when the parent deepens the
    nesting. *)
Definition with_depths : node -> nat -> list (node * nat) :=
  tree_rec
    (fun n children depth =>
       (n, depth)
       :: flat_map (fun child => child (if deepens n then depth + 1 else depth)) children).

(** A stripped line that [_detect_duplicate_code] takes into account:
    neither blank nor a comment, and of more than 10 characters. *)
Definition counted (stripped : string) : bool :=
  CodeAnalyzer.is_code stripped && (10 <? String.length stripped)%nat.

(** The numbers, from 1, of the lines of a text that are [k] once
    stripped. *)
Definition lines_equal_to (strip : string -> string) (content k : string) : list nat :=
  flat_map (fun '(i, line) => if decide (strip line = k) then [i] else [])
    (py.enumerate_from 1 (py.split "010" content)).

(** A cycle as the search reports it: a module, the modules met from it
    along internal-dependency edges, all different, and the first module
    again. *)
Definition simple_cycle (graph : list (string * GraphInfo)) (c : list string) : Prop :=
  exists x rest, c = x :: rest ++ [x] /\ NoDup (x :: rest) /\ chain graph c.

Section search.
Context (graph : list (string * GraphInfo)).

(** An order in which modules can have been finished by the search, the
    last one first: the modules of the graph that a module depends on were
    finished before it. *)
Fixpoint finish_order (order : list string) : Prop :=
  match order with
  | [] => True
  | v :: earlier =>
      (v ∉ earlier)
      /\ (forall w, edge graph v w -> w ∈ pydict.keys graph -> w ∈ earlier)
      /\ finish_order earlier
  end.

(** The state of a search that has reported a cycle, or else has finished
    the modules it visited and left, in some finish order. *)
Definition searched (st : dfs_state) : Prop :=
  circular_deps st <> []
  \/ exists order,
       finish_order order
       /\ forall x, x ∈ order <-> x ∈ visited st /\ x ∉ rec_stack st.
End search.

(** The outcome of a piece of the analyzers that returns or raises one of
    the exceptions [P] (and does not run out of the fuel of the model). *)
Definition raises_only {A : Type} (P : py.exn -> Prop) (r : py.result A) : Prop :=
  match r with
  | py.Val _ => True
  | py.Exc e => P e
  | py.OutOfFuel => False
  end.

Definition attribute_or_index_error (e : py.exn) : Prop :=
  match e with
  | py.AttributeError _ | py.IndexError _ => True
  | _ => False
  end.

(** [node.name] of a function definition. *)
Definition defined_name (n : node) : string :=
  match n with
  | FunctionDef name _ _ _ _ _ _ | AsyncFunctionDef name _ _ _ _ _ _ => name
  | _ => EmptyString
  end.

End Notions.

(* ================================================================== *)
(** * Part VIII: the inputs of the examples                        *)
(* ================================================================== *)

Module Inputs.
Import ast DependencyMapper.

(** A project of one empty file, [util.py]. *)
Definition util_files : list source_file :=
  [mkSourceFile "util.py" "util" (module_of [])].

Definition util_project : self := analyze_files __init__ util_files.

(** Two project files: [logging.py], a module of the project's own, and
    [main.py], which is the line [import logging]. *)
Definition shadow_files : list source_file :=
  [mkSourceFile "logging.py" "logging" (module_of []);
   mkSourceFile "main.py" "main" (module_of [Import [alias "logging" None] 1])].

Definition shadow_project : self := analyze_files __init__ shadow_files.

(** Two project files, found in this order: [b.py], which defines [helper],
    and [a.py], which is the two lines [import b] and
    [from b import helper]. *)
Definition twice_files : list source_file :=
  [mkSourceFile "b.py" "b"
     (module_of
        [FunctionDef "helper" (arguments [] [] None [] [] None []) [Other Pass []] []
           None 1 (Some 1%Z)]);
   mkSourceFile "a.py" "a"
     (module_of
        [Import [alias "b" None] 1;
         ImportFrom (Some "b") [alias "helper" None] 0 2])].

Definition twice_project : self := analyze_files __init__ twice_files.

(** The same two files found in the other order. *)
Definition twice_files_reversed : list source_file := reverse twice_files.

(** A graph of three modules [a], [b], [c], listed in the order [b], [a],
    [c], with the internal dependencies a -> b -> c -> a. *)
Definition abc_graph : self :=
  {| modules := [];
     dependency_graph :=
       [("b", mkGraphInfo ["c"] ["a"] ["c"] [] []);
        ("a", mkGraphInfo ["b"] ["c"] ["b"] [] []);
        ("c", mkGraphInfo ["a"] ["b"] ["a"] [] [])];
     builtin_modules := default_builtin_modules |}.

(** The same three modules in a project that also has a module [main], found
    first, whose only import is [os]. *)
Definition main_abc_graph : self :=
  {| modules := [];
     dependency_graph :=
       ("main", mkGraphInfo ["os"] [] [] [] ["os"]) :: dependency_graph abc_graph;
     builtin_modules := default_builtin_modules |}.

(** The source text [def add(a, b): return a + b], parsed. *)
Definition add_def : node :=
  FunctionDef "add"
    (arguments [] [arg "a" None; arg "b" None] None [] [] None [])
    [Other Return
       [Other BinOp [Name "a" (Other Load []); Other Add []; Name "b" (Other Load [])]]]
    [] None 1 (Some 1%Z).

(** The file [if x:] / [if y:] / [pass], parsed. *)
Definition nested_ifs : node :=
  Module_
    [If (Name "x" (Other Load []))
       [If (Name "y" (Other Load [])) [Other Pass []] []]
       []].

(** The file [from x import a, b], and the file [import x.y], parsed. *)
Definition from_import_file : node :=
  Module_ [ImportFrom (Some "x") [alias "a" None; alias "b" None] 0 1].

Definition bare_import_file : node := Module_ [Import [alias "x.y" None] 1].

Definition pass_body : list node := [Other Pass []].

(** The file [def f(a, b, c, d, e, *rest): pass], parsed: six parameters,
    five of them positional. *)
Definition variadic_file : node :=
  Module_
    [FunctionDef "f"
       (arguments []
          [arg "a" None; arg "b" None; arg "c" None; arg "d" None; arg "e" None]
          (Some (arg "rest" None)) [] [] None [])
       pass_body [] None 1 (Some 1%Z)].

(** A file of one class with 25 methods. *)
Definition method (i : nat) : node :=
  FunctionDef "run" (arguments [] [arg "self" None] None [] [] None []) pass_body []
    None (Z.of_nat (2 + i)) None.

Definition class_of_25_methods : node :=
  Module_ [ClassDef "Big" [] [] (map method (seq 0 25)) [] 1 None].

(** A file with three functions: [first] calls [second] twice and [print],
    [second] calls [first], [third] calls nothing. *)
Definition call (f : string) : node :=
  Other Expr [Call (Name f (Other Load [])) [] [] 0].

Definition def_calling (name : string) (lineno : Z) (callees : list string) : node :=
  FunctionDef name (arguments [] [] None [] [] None []) (map call callees) [] None lineno None.

Definition three_functions : parsed :=
  module_of
    [def_calling "first" 1 ["second"; "print"; "second"];
     def_calling "second" 5 ["first"];
     def_calling "third" 8 []].

Definition three_functions_documented : list (string * FunctionExtractor.FunctionDocumentation.t) :=
  Eval vm_compute in
    match FunctionExtractor.extract_from_file (fun _ => "") (fun text => text) (fun _ => "") "three.py"
            three_functions with
    | py.Val functions => functions
    | _ => []
    end.

(** The arguments of [def f(a, b=1, *args, c, d=2, **kw)], parsed. *)
Definition mixed_arguments : node :=
  arguments [] [arg "a" None; arg "b" None] (Some (arg "args" None))
    [arg "c" None; arg "d" None] [None; Some (Constant (CInt 2))]
    (Some (arg "kw" None)) [Constant (CInt 1)].

End Inputs.

(* ================================================================== *)
(** * Part IX: properties of the Python runtime model              *)
(* ================================================================== *)

Module py_facts.

Lemma prefix_app (p s : string) :
  String.prefix p s = true <-> exists rest, s = p +:+ rest.
Proof.
  revert s; induction p as [|c p IH]; intros s.
  - destruct s; simpl; split; eauto.
  - destruct s as [|d s]; simpl.
    + split; [discriminate | intros [rest H]; discriminate].
    + destruct (Ascii.ascii_dec c d) as [->|Hne].
      * rewrite IH. split; intros [rest H]; exists rest; [by rewrite H|].
        by injection H.
      * split; [discriminate | intros [rest H]; injection H; intros; congruence].
Qed.

Lemma split_head (s : string) :
  hd EmptyString (py.split "." s) = Spec.text_before_first_dot s.
Proof.
  induction s as [|c s IH]; simpl; [reflexivity|].
  destruct (Ascii.eqb c "."); [reflexivity|].
  destruct (py.split "." s) as [|piece pieces]; simpl in *; congruence.
Qed.

Lemma existsb_elem_of {A : Type} (f : A -> bool) (l : list A) :
  existsb f l = true <-> exists x, x ∈ l /\ f x = true.
Proof.
  rewrite existsb_exists. split; intros (x & Hx & Hf); exists x; split; auto;
    by apply list_elem_of_In.
Qed.

End py_facts.

(* ================================================================== *)
(** * Part X: scope classification                                 *)
(* ================================================================== *)

Module ScopeProps.
Import DependencyMapper Notions Inputs.

(** The first loop of [_determine_scope] finds nothing the second test would
    not find: a key of [self.modules] leads to one of its values. *)
Lemma first_loop_subsumed (s : self) (target : string) :
  existsb
    (fun module_path =>
       match pydict.get (modules s) module_path with
       | Some module_info => py.startswith target (name module_info)
       | None => false
       end)
    (pydict.keys (modules s)) = true ->
  existsb (fun n => py.startswith target n) (_get_project_modules s) = true.
Proof.
  rewrite !py_facts.existsb_elem_of. intros (k & _ & Hk).
  destruct (pydict.get (modules s) k) as [info|] eqn:Hget; [|discriminate].
  exists (name info). split; [|exact Hk].
  unfold _get_project_modules, pydict.values.
  apply list_elem_of_fmap. exists info. split; [reflexivity|].
  clear Hk. induction (modules s) as [|[k' v] rest IH]; simpl in *; [discriminate|].
  destruct (decide (k' = k)).
  - injection Hget as ->. left.
  - right. auto.
Qed.

(** [_determine_scope] as three cases on the target, the names of the modules
    registered in the mapper and the builtin set. *)
Lemma determine_scope_cases (s : self) (target : string) :
  _determine_scope s target =
    if bool_decide (Spec.text_before_first_dot target ∈ builtin_modules s) then BUILTIN
    else if existsb (fun n => String.prefix n target) (_get_project_modules s)
            || String.prefix "." target
    then INTERNAL
    else EXTERNAL.
Proof.
  unfold _determine_scope. rewrite py_facts.split_head.
  destruct (bool_decide _); [reflexivity|].
  pose proof (first_loop_subsumed s target) as Hsub.
  unfold py.startswith in *.
  destruct (existsb _ (pydict.keys _)).
  - rewrite Hsub by reflexivity. reflexivity.
  - destruct (String.prefix "." target), (existsb _ (_get_project_modules s)); reflexivity.
Qed.

(** C2, as stated, fails: the target [utilities] neither equals the project
    module [util] nor is dot-prefixed by it, so the stated rule makes it
    External; [_determine_scope] answers Internal, because it tests
    [target.startswith(name)]. *)
Lemma determine_scope_not_dot_prefix :
  _determine_scope util_project "utilities"
  <> Spec.classify_scope "utilities" (_get_project_modules util_project)
       (builtin_modules util_project).
Proof. vm_compute. discriminate. Qed.

Lemma internal_test (s : self) (target : string) :
  existsb (fun n => String.prefix n target) (_get_project_modules s)
  || String.prefix "." target = true
  <-> (exists n rest, n ∈ _get_project_modules s /\ target = n +:+ rest)
      \/ (exists rest, target = "." +:+ rest).
Proof.
  rewrite orb_true_iff, py_facts.existsb_elem_of, py_facts.prefix_app.
  split; (intros [H|H]; [left|right; exact H]).
  - destruct H as (n & Hn & Hp). apply py_facts.prefix_app in Hp as [rest ->]. eauto.
  - destruct H as (n & rest & Hn & ->). exists n. split; [exact Hn|].
    apply py_facts.prefix_app. eauto.
Qed.

(** C2, amended: [_determine_scope] returns exactly one of Internal, External
    and Builtin. It is Builtin whenever the root component of the target (the
    text before the first ['.']) is in the builtin set, whatever the project
    modules are. Otherwise it is Internal exactly when the name of some
    module registered in the mapper is a string prefix of the target (no
    ['.'] boundary is required) or the target begins with ['.'], and External
    in the remaining case. The result is the same for two mappers that hold
    the same set of module names and the same builtin set. *)
Theorem determine_scope_classification (s : self) (target : string) :
  let root := Spec.text_before_first_dot target in
  let internal :=
    (exists n rest, n ∈ _get_project_modules s /\ target = n +:+ rest)
    \/ (exists rest, target = "." +:+ rest) in
  (root ∈ builtin_modules s -> _determine_scope s target = BUILTIN)
  /\ (root ∉ builtin_modules s -> (_determine_scope s target = INTERNAL <-> internal))
  /\ (root ∉ builtin_modules s -> ~ internal -> _determine_scope s target = EXTERNAL)
  /\ (forall s' : self,
        builtin_modules s' = builtin_modules s ->
        (forall n, n ∈ _get_project_modules s' <-> n ∈ _get_project_modules s) ->
        _determine_scope s' target = _determine_scope s target).
Proof.
  intros root internal.
  pose proof (determine_scope_cases s target) as Hcases. fold root in Hcases.
  pose proof (internal_test s target) as Hs. fold internal in Hs.
  split; [|split; [|split]].
  - intros Hb. rewrite Hcases, bool_decide_eq_true_2 by exact Hb. reflexivity.
  - intros Hb. rewrite Hcases, bool_decide_eq_false_2 by exact Hb. rewrite <- Hs.
    destruct (_ || _); split; congruence.
  - intros Hb Hi. rewrite Hcases, bool_decide_eq_false_2 by exact Hb.
    destruct (_ || _) eqn:E; [|reflexivity]. exfalso. apply Hi, Hs. reflexivity.
  - intros s' Hbs Hnames.
    rewrite Hcases, (determine_scope_cases s' target), Hbs. fold root.
    destruct (bool_decide _); [reflexivity|].
    assert (existsb (fun n => String.prefix n target) (_get_project_modules s')
            || String.prefix "." target
            = existsb (fun n => String.prefix n target) (_get_project_modules s)
              || String.prefix "." target) as ->; [|reflexivity].
    apply eq_true_iff_eq. rewrite Hs, internal_test. unfold internal.
    split; (intros [(n & rest & Hn & ->)|Hrel]; [left|right; exact Hrel]);
      exists n, rest; (split; [by apply Hnames|reflexivity]).
Qed.

(** The classification at a project with the modules [json] and [app]: the
    builtin check wins over the project module [json], [app.core] and
    [apple] are Internal, [requests] is External. *)
Example determine_scope_examples :
  let s := {| modules :=
                [("json.py", mkModuleInfo "json.py" "json" [] [] [] [] []);
                 ("app.py", mkModuleInfo "app.py" "app" [] [] [] [] [])];
              dependency_graph := [];
              builtin_modules := default_builtin_modules |} in
  _determine_scope s "json.decoder" = BUILTIN
  /\ _determine_scope s "app.core" = INTERNAL
  /\ _determine_scope s "apple" = INTERNAL
  /\ _determine_scope s ".sibling" = INTERNAL
  /\ _determine_scope s "requests" = EXTERNAL.
Proof. vm_compute. repeat split. Qed.

(** The amended statement at the project of the one module [util] and the
    target [utilities]. *)
Lemma determine_scope_classification_witness :
  _determine_scope util_project "utilities" = INTERNAL.
Proof.
  assert (Spec.text_before_first_dot "utilities" ∉ builtin_modules util_project) as Hroot
    by (apply (bool_decide_eq_false_1 _); vm_compute; reflexivity).
  apply (proj1 (proj2 (determine_scope_classification util_project "utilities")) Hroot).
  left. exists "util", "ities". split; [left|reflexivity].
Defined.

(** The modules registered in the mapper are those of the files analysed so
    far: the import of [b] by [a.py] is Internal when [b.py] was analysed
    before [a.py], External when it is analysed after. *)
Example scope_follows_the_files_analysed :
  map (fun d => (source d, target d, scope d))
    (flat_map dependencies (pydict.values (modules (analyze_files __init__ twice_files))))
  = [("a", "b", INTERNAL); ("a", "b", INTERNAL)]
  /\ map (fun d => (source d, target d, scope d))
       (flat_map dependencies
          (pydict.values (modules (analyze_files __init__ twice_files_reversed))))
     = [("a", "b", EXTERNAL); ("a", "b", EXTERNAL)].
Proof. split; vm_compute; reflexivity. Qed.

End ScopeProps.

(* ================================================================== *)
(** * Part XI: dictionaries, and the loop that transposes edges    *)
(* ================================================================== *)

Module pydict_facts.
Section with_values.
Context {V : Type}.
Implicit Types (d : list (string * V)) (k : string) (v : V).

Lemma get_set_eq d k v : pydict.get (pydict.set d k v) k = Some v.
Proof.
  induction d as [|[k' v'] d IH]; simpl.
  - by rewrite decide_True.
  - destruct (decide (k' = k)) as [->|Hne]; simpl.
    + by rewrite decide_True.
    + by rewrite decide_False.
Qed.

Lemma get_set_ne d k k' v : k <> k' -> pydict.get (pydict.set d k v) k' = pydict.get d k'.
Proof.
  intros Hne. induction d as [|[k0 v0] d IH]; simpl.
  - by rewrite decide_False.
  - destruct (decide (k0 = k)) as [->|Hne0]; simpl.
    + by rewrite !decide_False.
    + destruct (decide (k0 = k')); [reflexivity|exact IH].
Qed.

Lemma get_Some_keys d k : is_Some (pydict.get d k) <-> k ∈ pydict.keys d.
Proof.
  unfold pydict.keys. induction d as [|[k' v'] d IH]; simpl.
  - split; [intros [? ?]; discriminate | intros H; inversion H].
  - destruct (decide (k' = k)) as [->|Hne].
    + split; [intros _; left | intros _; eauto].
    + rewrite IH. split; [by right | intros H; inversion H; subst; [done|assumption]].
Qed.

Lemma get_None_keys d k : pydict.get d k = None <-> k ∉ pydict.keys d.
Proof. rewrite <- get_Some_keys, eq_None_not_Some. reflexivity. Qed.

Lemma keys_set_present d k v :
  k ∈ pydict.keys d -> pydict.keys (pydict.set d k v) = pydict.keys d.
Proof.
  unfold pydict.keys. induction d as [|[k' v'] d IH]; simpl; intros Hin.
  - inversion Hin.
  - destruct (decide (k' = k)) as [->|Hne]; simpl; [reflexivity|].
    f_equal. apply IH. inversion Hin; subst; [done|assumption].
Qed.

Lemma keys_set_absent d k v :
  k ∉ pydict.keys d -> pydict.keys (pydict.set d k v) = pydict.keys d ++ [k].
Proof.
  unfold pydict.keys. induction d as [|[k' v'] d IH]; simpl; intros Hin; [reflexivity|].
  destruct (decide (k' = k)) as [->|Hne]; simpl.
  - exfalso. apply Hin. left.
  - f_equal. apply IH. intros H. apply Hin. by right.
Qed.

Lemma keys_set_NoDup d k v :
  NoDup (pydict.keys d) -> NoDup (pydict.keys (pydict.set d k v)).
Proof.
  intros Hnd. destruct (decide (k ∈ pydict.keys d)) as [Hin|Hin].
  - by rewrite keys_set_present.
  - rewrite keys_set_absent by assumption. apply NoDup_app. repeat split.
    + assumption.
    + intros x Hx Hk. apply list_elem_of_singleton in Hk as ->. contradiction.
    + apply NoDup_singleton.
Qed.

Lemma keys_set_elem d k k' v :
  k' ∈ pydict.keys (pydict.set d k v) <-> k' = k \/ k' ∈ pydict.keys d.
Proof.
  rewrite <- !get_Some_keys. destruct (decide (k = k')) as [->|Hne].
  - rewrite get_set_eq. split; [by left | eauto].
  - rewrite get_set_ne by assumption. split; [by right | intros [->|H]; [done|assumption]].
Qed.

Lemma get_modify d k k' (f : V -> V) :
  pydict.get (pydict.modify d k f) k' =
    if decide (k = k') then f <$> pydict.get d k' else pydict.get d k'.
Proof.
  unfold pydict.modify. destruct (pydict.get d k) as [v|] eqn:Hk.
  - destruct (decide (k = k')) as [<-|Hne].
    + by rewrite get_set_eq, Hk.
    + by rewrite get_set_ne.
  - destruct (decide (k = k')) as [<-|Hne]; [by rewrite Hk | reflexivity].
Qed.

Lemma keys_modify d k (f : V -> V) :
  pydict.keys (pydict.modify d k f) = pydict.keys d.
Proof.
  unfold pydict.modify. destruct (pydict.get d k) as [v|] eqn:Hk; [|reflexivity].
  apply keys_set_present, get_Some_keys. eauto.
Qed.

Lemma elem_of_get d k v : NoDup (pydict.keys d) -> (k, v) ∈ d <-> pydict.get d k = Some v.
Proof.
  unfold pydict.keys. induction d as [|[k' v'] d IH]; simpl; intros Hnd.
  - split; [intros H; inversion H | discriminate].
  - apply NoDup_cons in Hnd as [Hk' Hnd]. rewrite elem_of_cons, IH by assumption.
    destruct (decide (k' = k)) as [->|Hne].
    + split.
      * intros [[= ->]|Hget]; [reflexivity|]. exfalso. apply Hk'.
        change (k ∈ pydict.keys d). apply get_Some_keys. eauto.
      * intros [= ->]. by left.
    + split; [intros [[= -> ->]|H]; [done|exact H] | by right].
Qed.

Lemma get_elem_of d k v : pydict.get d k = Some v -> (k, v) ∈ d.
Proof.
  induction d as [|[k' v'] d IH]; simpl; [discriminate|].
  destruct (decide (k' = k)) as [->|Hne]; [intros [= ->]; left | right; auto].
Qed.

End with_values.

(** ** The loop that transposes edges *)

Section transpose.
Context {V : Type} (out : V -> list string) (add : string -> V -> V).
Context (out_add : forall k v, out (add k v) = out v).
Implicit Types (g : list (string * V)) (k n : string) (v : V).

Local Abbreviation link := (Notions.link add).
Local Abbreviation link_all := (Notions.link_all out add).
Local Abbreviation occurrences := Notions.occurrences.
Local Abbreviation out_of := (Notions.out_of out).
Local Abbreviation linked := (Notions.linked out add).

Lemma get_link k g t n :
  pydict.get (link k g t) n =
    (if decide (t = n) then add k else id) <$> pydict.get g n.
Proof.
  unfold link, pydict.contains.
  destruct (pydict.get g t) as [v|] eqn:Ht.
  - rewrite get_modify. destruct (decide (t = n)); [reflexivity|].
    by destruct (pydict.get g n).
  - destruct (decide (t = n)) as [<-|Hne]; [by rewrite Ht|].
    by destruct (pydict.get g n).
Qed.

Lemma keys_link k g t : pydict.keys (link k g t) = pydict.keys g.
Proof. unfold link. destruct (pydict.contains g t); [apply keys_modify|reflexivity]. Qed.

Lemma get_links k ts g n :
  pydict.get (fold_left (link k) ts g) n =
    Nat.iter (occurrences n ts) (add k) <$> pydict.get g n.
Proof.
  revert g. induction ts as [|t ts IH]; intros g; simpl.
  - by destruct (pydict.get g n).
  - rewrite IH, get_link. unfold occurrences. rewrite filter_cons.
    destruct (decide (t = n)) as [->|Hne]; simpl.
    + destruct (pydict.get g n) as [v|]; simpl; [|reflexivity].
      f_equal. symmetry. apply (Nat.iter_succ_r _ _ (add k)).
    + by destruct (pydict.get g n).
Qed.

Lemma keys_links k ts g : pydict.keys (fold_left (link k) ts g) = pydict.keys g.
Proof.
  revert g. induction ts as [|t ts IH]; intros g; simpl; [reflexivity|].
  by rewrite IH, keys_link.
Qed.

Lemma get_link_all g k n :
  pydict.get (link_all g k) n =
    Nat.iter (occurrences n (out_of g k)) (add k) <$> pydict.get g n.
Proof.
  unfold link_all, out_of. destruct (pydict.get g k) as [v|].
  - apply get_links.
  - simpl. by destruct (pydict.get g n).
Qed.

Lemma keys_link_all g k : pydict.keys (link_all g k) = pydict.keys g.
Proof. unfold link_all. destruct (pydict.get g k); [apply keys_links|reflexivity]. Qed.

Lemma out_iter k c v : out (Nat.iter c (add k) v) = out v.
Proof. induction c as [|c IH]; simpl; [reflexivity|]. by rewrite out_add. Qed.

Lemma out_of_link_all g k k' : out_of (link_all g k) k' = out_of g k'.
Proof.
  unfold out_of. rewrite get_link_all.
  destruct (pydict.get g k') as [v|]; simpl; [apply out_iter|reflexivity].
Qed.

Lemma linked_ext g g' n ks v :
  (forall k, out_of g' k = out_of g k) -> linked g' n ks v = linked g n ks v.
Proof.
  intros Hout. unfold linked. revert v.
  induction ks as [|k ks IH]; intros v; simpl; [reflexivity|]. by rewrite Hout, IH.
Qed.

Lemma get_transposed ks g n :
  pydict.get (fold_left link_all ks g) n = linked g n ks <$> pydict.get g n.
Proof.
  revert g. induction ks as [|k ks IH]; intros g; simpl.
  - by destruct (pydict.get g n).
  - rewrite IH, get_link_all.
    destruct (pydict.get g n) as [v|]; simpl; [|reflexivity].
    by rewrite (linked_ext g (link_all g k)) by apply out_of_link_all.
Qed.

Lemma keys_transposed ks g : pydict.keys (fold_left link_all ks g) = pydict.keys g.
Proof.
  revert g. induction ks as [|k ks IH]; intros g; simpl; [reflexivity|].
  by rewrite IH, keys_link_all.
Qed.

(** A field that [add] leaves alone is the same after the loop. *)
Lemma linked_frame {B : Type} (p : V -> B) g n ks v :
  (forall k v, p (add k v) = p v) -> p (linked g n ks v) = p v.
Proof.
  intros Hp. unfold linked. revert v.
  induction ks as [|k ks IH]; intros v; simpl; [reflexivity|].
  rewrite IH. induction (occurrences n (out_of g k)) as [|c IHc]; simpl; [reflexivity|].
  by rewrite Hp.
Qed.

(** The list that [add] appends to, after the loop. *)
Lemma linked_appended (inn : V -> list string) g n ks v :
  (forall k v, inn (add k v) = inn v ++ [k]) ->
  inn (linked g n ks v) =
    inn v ++ flat_map (fun k => repeat k (occurrences n (out_of g k))) ks.
Proof.
  intros Hinn. unfold linked. revert v.
  induction ks as [|k ks IH]; intros v; simpl; [by rewrite app_nil_r|].
  rewrite IH, app_assoc. f_equal.
  induction (occurrences n (out_of g k)) as [|c IHc]; simpl; [by rewrite app_nil_r|].
  rewrite Hinn, IHc, <- app_assoc. f_equal.
  symmetry. apply (repeat_cons c k).
Qed.

Lemma occurrences_pos n ts : (0 < occurrences n ts)%nat <-> n ∈ ts.
Proof.
  unfold occurrences. induction ts as [|t ts IH]; simpl.
  - split; [lia | intros H; inversion H].
  - rewrite filter_cons. destruct (decide (t = n)) as [->|Hne]; simpl.
    + split; [intros _; left | lia].
    + rewrite IH. split; [by right | intros H; inversion H; subst; [done|assumption]].
Qed.

Lemma occurrences_NoDup n ts : NoDup ts -> (occurrences n ts <= 1)%nat.
Proof.
  unfold occurrences. induction 1 as [|t ts Hnotin Hnd IH]; simpl; [lia|].
  rewrite filter_cons. destruct (decide (t = n)) as [->|Hne]; simpl; [|exact IH].
  assert (~ (0 < length (filter (fun t => t = n) ts))%nat); [|lia].
  intros H. apply Hnotin. by apply occurrences_pos.
Qed.

Lemma elem_of_appended (count : string -> nat) m ks :
  m ∈ flat_map (fun k => repeat k (count k)) ks <-> m ∈ ks /\ (0 < count m)%nat.
Proof.
  induction ks as [|k ks IH]; simpl.
  - split; [intros H; inversion H | intros [H _]; inversion H].
  - rewrite elem_of_app, IH, elem_of_cons. split.
    + intros [H|[H1 H2]]; [|by auto].
      apply list_elem_of_In, repeat_spec in H as Heq. subst m.
      split; [by left|]. destruct (count k); [inversion H|lia].
    + intros [[->|H1] H2]; [left|right; by auto].
      destruct (count k) as [|c]; [lia|]. simpl. left.
Qed.

Lemma NoDup_appended (count : string -> nat) ks :
  NoDup ks -> (forall k, (count k <= 1)%nat) ->
  NoDup (flat_map (fun k => repeat k (count k)) ks).
Proof.
  intros Hnd Hc. induction Hnd as [|k ks Hnotin Hnd IH]; simpl; [constructor|].
  apply NoDup_app. repeat split.
  - specialize (Hc k). destruct (count k) as [|[|c]]; simpl;
      [constructor | apply NoDup_singleton | lia].
  - intros x Hx Hx'. apply list_elem_of_In, repeat_spec in Hx. subst x.
    apply elem_of_appended in Hx' as [Hx' _]. contradiction.
  - exact IH.
Qed.

End transpose.
End pydict_facts.

(* ================================================================== *)
(** * Part XII: the dependency graph and its [dependents]          *)
(* ================================================================== *)

Module GraphProps.
Import DependencyMapper Notions Inputs.

Lemma record_dependency_fresh dep gi : fresh_entry gi -> fresh_entry (record_dependency dep gi).
Proof.
  intros [Hd Hi]. unfold record_dependency.
  destruct (scope dep); split; simpl; try assumption; intros t Ht;
    rewrite ?elem_of_app in *; intuition.
Qed.

Lemma modify_all_entries {V : Type} (P : V -> Prop) (g : list (string * V)) k f :
  (forall v, P v -> P (f v)) ->
  (forall n v, pydict.get g n = Some v -> P v) ->
  forall n v, pydict.get (pydict.modify g k f) n = Some v -> P v.
Proof.
  intros Hf Hg n v. rewrite pydict_facts.get_modify.
  destruct (decide (k = n)); [|apply Hg].
  destruct (pydict.get g n) as [v0|] eqn:Hn; simpl; [|discriminate].
  intros [= <-]. eauto.
Qed.

Lemma add_module_entries graph module_info :
  (forall n gi, pydict.get graph n = Some gi -> fresh_entry gi) ->
  forall n gi, pydict.get (add_module graph module_info) n = Some gi -> fresh_entry gi.
Proof.
  intros Hg. unfold add_module.
  assert (forall n gi,
             pydict.get (pydict.set graph (name module_info) empty_graph_info) n = Some gi ->
             fresh_entry gi) as H0.
  { intros n gi. destruct (decide (name module_info = n)) as [<-|Hne].
    - rewrite pydict_facts.get_set_eq. intros [= <-]. split; [reflexivity|].
      intros t Ht. inversion Ht.
    - rewrite pydict_facts.get_set_ne by assumption. apply Hg. }
  revert H0. generalize (pydict.set graph (name module_info) empty_graph_info).
  induction (dependencies module_info) as [|dep deps IH]; intros g Hg0; simpl; [exact Hg0|].
  apply IH. apply modify_all_entries; [apply record_dependency_fresh|exact Hg0].
Qed.

Lemma add_module_keys graph module_info :
  NoDup (pydict.keys graph) -> NoDup (pydict.keys (add_module graph module_info)).
Proof.
  intros Hnd. unfold add_module.
  assert (NoDup (pydict.keys (pydict.set graph (name module_info) empty_graph_info))) as H0
    by (by apply pydict_facts.keys_set_NoDup).
  revert H0. generalize (pydict.set graph (name module_info) empty_graph_info).
  induction (dependencies module_info) as [|dep deps IH]; intros g Hg0; simpl; [exact Hg0|].
  apply IH. by rewrite pydict_facts.keys_modify.
Qed.

Lemma first_loop_entries module_infos graph :
  (forall n gi, pydict.get graph n = Some gi -> fresh_entry gi) ->
  forall n gi,
    pydict.get (fold_left add_module module_infos graph) n = Some gi -> fresh_entry gi.
Proof.
  revert graph. induction module_infos as [|m ms IH]; intros graph Hg; simpl; [exact Hg|].
  apply IH, add_module_entries, Hg.
Qed.

Lemma first_loop_keys module_infos graph :
  NoDup (pydict.keys graph) -> NoDup (pydict.keys (fold_left add_module module_infos graph)).
Proof.
  revert graph. induction module_infos as [|m ms IH]; intros graph Hg; simpl; [exact Hg|].
  apply IH, add_module_keys, Hg.
Qed.

(** The second loop is the edge-transposing loop, reading
    ['dependencies'] and appending to ['dependents']. *)
Lemma add_dependents_link graph module_name :
  add_dependents graph module_name
  = Notions.link_all gi_dependencies add_dependent graph module_name.
Proof. reflexivity. Qed.

Lemma second_loop_link ks graph :
  fold_left add_dependents ks graph
  = fold_left (Notions.link_all gi_dependencies add_dependent) ks graph.
Proof. reflexivity. Qed.

(** The graph after [_build_dependency_graph], entry by entry: the lists of
    targets are those of the first loop, and the dependents of [N] are the
    keys, in order, that list [N] under ['dependencies'], once per listing. *)
Lemma built_graph_entry (s : self) (N : string) (gn : GraphInfo) :
  let graph1 := fold_left add_module (pydict.values (modules s)) [] in
  pydict.get (dependency_graph (_build_dependency_graph s)) N = Some gn ->
  exists gn1,
    pydict.get graph1 N = Some gn1
    /\ gi_dependencies gn = gi_dependencies gn1
    /\ gi_internal_deps gn = gi_internal_deps gn1
    /\ (forall t, t ∈ gi_internal_deps gn1 -> t ∈ gi_dependencies gn1)
    /\ gi_dependents gn =
         flat_map
           (fun k => repeat k (Notions.occurrences N
                                 (Notions.out_of gi_dependencies graph1 k)))
           (pydict.keys graph1).
Proof.
  intros graph1. unfold _build_dependency_graph. simpl. fold graph1.
  rewrite second_loop_link, (pydict_facts.get_transposed gi_dependencies add_dependent)
    by reflexivity.
  destruct (pydict.get graph1 N) as [gn1|] eqn:H1; simpl; [|discriminate].
  intros [= <-]. exists gn1.
  assert (fresh_entry gn1) as [Hdeps Hincl].
  { apply (first_loop_entries (pydict.values (modules s)) []) with N;
      [intros n gi; discriminate | exact H1]. }
  repeat split.
  - by apply pydict_facts.linked_frame.
  - by apply pydict_facts.linked_frame.
  - exact Hincl.
  - rewrite (pydict_facts.linked_appended gi_dependencies add_dependent gi_dependents)
      by reflexivity.
    by rewrite Hdeps.
Qed.

(** C3, as stated, fails: [main] is a dependent of the project module
    [logging], but [logging] is not among the internal dependencies of
    [main], its import being classified Builtin. *)
Lemma dependents_not_transpose_of_internal_deps :
  ~ Spec.dependents_transpose_internal_deps
      (dependency_graph (_build_dependency_graph shadow_project)).
Proof.
  intros H.
  specialize (H "main" "logging"
                (mkGraphInfo ["logging"] [] [] [] ["logging"])
                (mkGraphInfo [] ["main"] [] [] [])
                eq_refl eq_refl).
  destruct H as [H _]. specialize (H ltac:(left)). inversion H.
Qed.

(** C3, amended: after [_build_dependency_graph], for every pair of modules M
    and N present in the graph, M appears in N's [dependents] exactly when N
    appears in M's [dependencies] list, the targets of all of M's dependency
    records whatever their scope. Every [internal_deps] edge between two
    modules of the graph is among them, so it is transposed; an edge to a
    module of the graph that was classified Builtin or External is transposed
    as well. *)
Theorem dependents_transpose_dependencies (s : self) (M N : string) (gm gn : GraphInfo) :
  pydict.get (dependency_graph (_build_dependency_graph s)) M = Some gm ->
  pydict.get (dependency_graph (_build_dependency_graph s)) N = Some gn ->
  (M ∈ gi_dependents gn <-> N ∈ gi_dependencies gm)
  /\ (N ∈ gi_internal_deps gm -> M ∈ gi_dependents gn).
Proof.
  intros HM HN.
  destruct (built_graph_entry s M gm HM) as (gm1 & HM1 & HMd & HMi & HMincl & _).
  destruct (built_graph_entry s N gn HN) as (gn1 & HN1 & _ & _ & _ & HNdep).
  assert (M ∈ gi_dependents gn <-> N ∈ gi_dependencies gm) as Hiff.
  { rewrite HNdep, pydict_facts.elem_of_appended, pydict_facts.occurrences_pos.
    unfold Notions.out_of. rewrite HM1, HMd. split; [tauto|].
    intros H. split; [|exact H]. apply pydict_facts.get_Some_keys. eauto. }
  split; [exact Hiff|].
  intros Hint. apply Hiff. rewrite HMd. apply HMincl. by rewrite <- HMi.
Qed.

(** The amended statement at the project above, where [main] depends on
    the project module [logging]. *)
Lemma dependents_transpose_dependencies_witness :
  ("main" ∈ ["main"] <-> "logging" ∈ ["logging"])
  /\ ("logging" ∈ @nil string -> "main" ∈ ["main"]).
Proof.
  apply (dependents_transpose_dependencies shadow_project "main" "logging"
           (mkGraphInfo ["logging"] [] [] [] ["logging"])
           (mkGraphInfo [] ["main"] [] [] [])); reflexivity.
Defined.

End GraphProps.

(* ================================================================== *)
(** * Part XIII: coupling metrics                                  *)
(* ================================================================== *)

Module CouplingProps.
Import DependencyMapper Notions Inputs.

Lemma built_graph_keys (s : self) :
  NoDup (pydict.keys (dependency_graph (_build_dependency_graph s))).
Proof.
  unfold _build_dependency_graph. simpl.
  rewrite GraphProps.second_loop_link, pydict_facts.keys_transposed.
  apply GraphProps.first_loop_keys. constructor.
Qed.

Lemma coupling_loop (round : Q -> Z -> Q) (graph : list (string * GraphInfo))
  (data : list (string * CouplingData)) (ca ce : nat) (n : string) :
  NoDup (pydict.keys graph) ->
  let '(data', _, _) :=
    fold_left
      (fun '(data, total_ca, total_ce) '(module_name, graph_info) =>
         let c := coupling_of round graph_info in
         (pydict.set data module_name c,
          total_ca + afferent_coupling c, total_ce + efferent_coupling c))
      graph (data, ca, ce) in
  pydict.get data' n =
    match pydict.get graph n with
    | Some gi => Some (coupling_of round gi)
    | None => pydict.get data n
    end.
Proof.
  revert data ca ce. induction graph as [|[k gi] graph IH]; intros data ca ce Hnd; simpl.
  - reflexivity.
  - unfold pydict.keys in Hnd. simpl in Hnd. apply NoDup_cons in Hnd as [Hk Hnd].
    fold (pydict.keys graph) in Hk, Hnd.
    specialize (IH (pydict.set data k (coupling_of round gi))
                  (ca + afferent_coupling (coupling_of round gi))
                  (ce + efferent_coupling (coupling_of round gi)) Hnd).
    destruct (fold_left _ graph _) as [[data' ?] ?]. rewrite IH.
    destruct (decide (k = n)) as [->|Hne].
    + apply pydict_facts.get_None_keys in Hk. rewrite Hk.
      apply pydict_facts.get_set_eq.
    + destruct (pydict.get graph n); [reflexivity|].
      by apply pydict_facts.get_set_ne.
Qed.

(** Every module of the graph has an entry, computed from its own lists: the
    afferent coupling is the length of ['dependents'], the efferent coupling
    the length of ['internal_deps']. *)
Lemma coupling_entry_of_graph (round : Q -> Z -> Q) (s : self) (n : string) (gi : GraphInfo) :
  NoDup (pydict.keys (dependency_graph s)) ->
  pydict.get (dependency_graph s) n = Some gi ->
  coupling_entry round s n =
    Some {| afferent_coupling := length (gi_dependents gi);
            efferent_coupling := length (gi_internal_deps gi);
            instability :=
              round (raw_instability (length (gi_dependents gi))
                       (length (gi_internal_deps gi))) 3%Z |}.
Proof.
  intros Hnd Hget. unfold coupling_entry, _calculate_coupling_metrics.
  destruct (dependency_graph s) as [|e graph] eqn:Hg; [discriminate|].
  pose proof (coupling_loop round (e :: graph) [] 0 0 n Hnd) as Hloop.
  destruct (fold_left _ (e :: graph) _) as [[data' ?] ?]. simpl.
  rewrite Hloop, Hget. reflexivity.
Qed.

Lemma Q_of_nat_nonneg (n : nat) : (0 <= Q_of_nat n)%Q.
Proof. unfold Q_of_nat. change 0%Q with (inject_Z 0). rewrite <- Zle_Qle. lia. Qed.

(** The instability before rounding: [ce / (ca + ce)], with 0 for 0/0, and
    always between 0 and 1. *)
Lemma raw_instability_bounds (ca ce : nat) :
  (0 <= raw_instability ca ce)%Q /\ (raw_instability ca ce <= 1)%Q
  /\ ((0 < ca + ce)%nat -> raw_instability ca ce = (Q_of_nat ce / Q_of_nat (ca + ce))%Q)
  /\ raw_instability 0 0 = 0%Q.
Proof.
  unfold raw_instability. split; [|split; [|split]].
  - destruct (0 <? ca + ce)%nat eqn:E; [|apply Qle_refl].
    apply Nat.ltb_lt in E. apply Qle_shift_div_l.
    + unfold Q_of_nat. change 0%Q with (inject_Z 0). rewrite <- Zlt_Qlt. lia.
    + rewrite Qmult_0_l. apply Q_of_nat_nonneg.
  - destruct (0 <? ca + ce)%nat eqn:E; [|discriminate].
    apply Nat.ltb_lt in E. apply Qle_shift_div_r.
    + unfold Q_of_nat. change 0%Q with (inject_Z 0). rewrite <- Zlt_Qlt. lia.
    + rewrite Qmult_1_l. unfold Q_of_nat. rewrite <- Zle_Qle. lia.
  - intros H. apply Nat.ltb_lt in H. by rewrite H.
  - reflexivity.
Qed.

(** C4 at a failing input: [a] depends on one internal module, [b], through
    two import statements; its efferent coupling is reported as 2, the number
    of entries of its ['internal_deps'] list, not as 1, the number of
    distinct targets. *)
Theorem efferent_coupling_counts_multiplicity (round : Q -> Z -> Q) :
  let s := _build_dependency_graph twice_project in
  efferent_coupling <$> coupling_entry round s "a" = Some 2
  /\ gi_internal_deps <$> pydict.get (dependency_graph s) "a" = Some ["b"; "b"]
  /\ length (py.list_set ["b"; "b"]) = 1.
Proof.
  intros s. split; [|split].
  - rewrite (coupling_entry_of_graph round s "a" (mkGraphInfo ["b"; "b"] [] ["b"; "b"] [] []));
      [reflexivity | apply built_graph_keys | reflexivity].
  - reflexivity.
  - vm_compute. reflexivity.
Qed.

End CouplingProps.

(* ================================================================== *)
(** * Part XIV: circular dependencies                              *)
(* ================================================================== *)

Module CycleProps.
Import DependencyMapper Notions Inputs.

Section with_graph.
Context (graph : list (string * GraphInfo)).
Implicit Types (node : string) (path : list string) (st : dfs_state).

Local Abbreviation edge := (Notions.edge graph).
Local Abbreviation cyclic := (Notions.cyclic graph).
Local Abbreviation chain := (Notions.chain graph).
Local Abbreviation unvisited := (Notions.unvisited graph).
Local Abbreviation dfs_post := (Notions.dfs_post graph).

Lemma chain_cons_inv a l : chain (a :: l) -> chain l.
Proof. destruct l; simpl; [done|]. by intros [_ H]. Qed.

Lemma chain_drop i l : chain l -> chain (drop i l).
Proof.
  revert l. induction i as [|i IH]; intros l Hl; [by rewrite drop_0|].
  destruct l as [|a l]; [done|]. simpl. apply IH. by apply chain_cons_inv in Hl.
Qed.

Lemma chain_snoc l a b : chain (l ++ [a]) -> edge a b -> chain ((l ++ [a]) ++ [b]).
Proof.
  intros Hl Hab. induction l as [|x l IH]; simpl in *; [by split|].
  destruct l as [|y l]; simpl in *.
  - destruct Hl as [Hxa _]. repeat split; assumption.
  - destruct Hl as [Hxy Hl]. split; [assumption|]. by apply IH.
Qed.

Lemma chain_tc a l b : chain (a :: l ++ [b]) -> tc edge a b.
Proof.
  revert a. induction l as [|x l IH]; intros a; simpl.
  - intros [H _]. by apply tc_once.
  - intros [H Hl]. eapply tc_l; [exact H|]. by apply IH.
Qed.

Lemma index_found path node :
  node ∈ path ->
  exists i rest, py.index path node = py.Val i /\ drop i path = node :: rest.
Proof.
  induction path as [|x path IH]; intros Hin; [inversion Hin|]. simpl.
  destruct (decide (x = node)) as [->|Hne].
  - exists 0, path. split; reflexivity.
  - destruct IH as (i & rest & Hi & Hd); [by apply elem_of_cons in Hin as [?|?]|].
    exists (S i), rest. rewrite Hi. split; [reflexivity|exact Hd].
Qed.

Lemma penult_snoc l a b : penult (l ++ [a; b]) = Some a.
Proof.
  unfold penult. change [a; b] with ([a] ++ [b]).
  rewrite app_assoc. rewrite !reverse_snoc. reflexivity.
Qed.

Lemma snoc_decompose (x : string) l : exists pre p, x :: l = pre ++ [p].
Proof.
  revert x. induction l as [|y l IH]; intros x.
  - by exists [], x.
  - destruct (IH y) as (pre & p & ->). by exists (x :: pre), p.
Qed.

Lemma penult_cycle i path node rest :
  drop i path = node :: rest ->
  exists p, penult (drop i path ++ [node]) = Some p /\ last path = Some p.
Proof.
  intros H.
  assert (last path = last (node :: rest)) as ->.
  { rewrite <- (take_drop i path), H. apply last_app_cons. }
  destruct (snoc_decompose node rest) as (pre & p & Heq).
  rewrite H, Heq. exists p. split.
  - rewrite <- app_assoc. apply penult_snoc.
  - by rewrite last_snoc.
Qed.

Lemma unvisited_mono st st' : visited st ⊆ visited st' -> unvisited st' <= unvisited st.
Proof. intros H. unfold unvisited. apply subseteq_size. set_solver. Qed.

Lemma unvisited_mark node st st1 :
  node ∈ pydict.keys graph -> node ∉ visited st ->
  visited st1 = {[node]} ∪ visited st ->
  unvisited st1 < unvisited st.
Proof.
  intros Hk Hv Heq. unfold unvisited. apply subset_size. rewrite Heq.
  split; [set_solver|]. intros Hsub.
  assert (node ∈ (list_to_set (pydict.keys graph) ∖ ({[node]} ∪ visited st) : gset string))
    by (apply Hsub; set_solver).
  set_solver.
Qed.

Lemma size_list_to_set_le (l : list string) :
  size (list_to_set l : gset string) <= length l.
Proof.
  induction l as [|x l IH].
  - rewrite list_to_set_nil, size_empty. simpl. lia.
  - rewrite list_to_set_cons, size_union_alt, size_singleton.
    assert (size (list_to_set l ∖ {[x]} : gset string) <= size (list_to_set l : gset string))
      by (apply subseteq_size; set_solver).
    simpl. lia.
Qed.

Lemma unvisited_bound st : unvisited st < S (length graph).
Proof.
  unfold unvisited.
  assert (size (list_to_set (pydict.keys graph) ∖ visited st : gset string)
          <= size (list_to_set (pydict.keys graph) : gset string)) as H1
    by (apply subseteq_size; set_solver).
  pose proof (size_list_to_set_le (pydict.keys graph)) as H2.
  unfold pydict.keys in H2 at 2. rewrite length_map in H2. lia.
Qed.

Lemma dfs_post_refl path st : dfs_post path st st.
Proof.
  repeat split; [set_solver|]. exists []. split; [by rewrite app_nil_r|].
  intros c Hc. inversion Hc.
Qed.

Lemma dfs_post_trans path st1 st2 st3 :
  dfs_post path st1 st2 -> dfs_post path st2 st3 -> dfs_post path st1 st3.
Proof.
  intros (Hr1 & Hv1 & new1 & Hc1 & Hn1) (Hr2 & Hv2 & new2 & Hc2 & Hn2).
  split; [congruence|]. split; [set_solver|].
  exists (new1 ++ new2). split; [by rewrite Hc2, Hc1, app_assoc|].
  intros c Hc. apply elem_of_app in Hc as [Hc|Hc].
  - destruct (Hn1 c Hc) as (Hcyc & p & Hp & Hor). split; [exact Hcyc|].
    exists p. split; [exact Hp|]. destruct Hor as [?|[? ?]]; [by left|right]. set_solver.
  - destruct (Hn2 c Hc) as (Hcyc & p & Hp & Hor). split; [exact Hcyc|].
    exists p. split; [exact Hp|]. destruct Hor as [?|[? ?]]; [by left|right]. set_solver.
Qed.

Lemma dfs_S fuel node path st :
  dfs (S fuel) graph node path st =
    if bool_decide (node ∈ rec_stack st) then
      py.bind (py.index path node) (fun cycle_start =>
        py.Val {| circular_deps := circular_deps st ++ [drop cycle_start path ++ [node]];
                  visited := visited st; rec_stack := rec_stack st |})
    else if bool_decide (node ∈ visited st) || negb (pydict.contains graph node)
    then py.Val st
    else
      match pydict.get graph node with
      | None => py.Exc (py.KeyError node)
      | Some graph_info =>
          py.bind
            (py.for_each (gi_internal_deps graph_info)
               (fun dep st' => dfs fuel graph dep (path ++ [node]) st')
               {| circular_deps := circular_deps st;
                  visited := {[node]} ∪ visited st;
                  rec_stack := {[node]} ∪ rec_stack st |})
            (fun st2 =>
               if bool_decide (node ∈ rec_stack st2) then
                 py.Val {| circular_deps := circular_deps st2;
                           visited := visited st2;
                           rec_stack := rec_stack st2 ∖ {[node]} |}
               else py.Exc (py.KeyError node))
      end.
Proof. reflexivity. Qed.

(** The calls made for the dependencies of one module, given that each of
    them behaves. *)
Lemma dfs_children fuel path1 :
  (forall d st,
      rec_stack st = list_to_set path1 -> chain (path1 ++ [d]) -> unvisited st < fuel ->
      exists st', dfs fuel graph d path1 st = py.Val st' /\ dfs_post path1 st st') ->
  forall deps st,
    (forall d, d ∈ deps -> chain (path1 ++ [d])) ->
    rec_stack st = list_to_set path1 -> unvisited st < fuel ->
    exists st',
      py.for_each deps (fun dep st' => dfs fuel graph dep path1 st') st = py.Val st'
      /\ dfs_post path1 st st'.
Proof.
  intros IH deps. induction deps as [|d deps IHdeps]; intros st Hch Hrec Hfuel; simpl.
  - exists st. split; [reflexivity|apply dfs_post_refl].
  - destruct (IH d st Hrec (Hch d ltac:(left)) Hfuel) as (st1 & -> & Hpost1). simpl.
    destruct (IHdeps st1) as (st2 & -> & Hpost2).
    + intros d' Hd'. apply Hch. by right.
    + destruct Hpost1 as (-> & _). exact Hrec.
    + destruct Hpost1 as (_ & Hv & _). pose proof (unvisited_mono st st1 Hv). lia.
    + exists st2. split; [reflexivity|]. by apply dfs_post_trans with st1.
Qed.

(** A call of [dfs] whose recursion stack holds the modules of its path, and
    whose path is a chain of edges leading to the node, returns: it runs out
    of neither fuel nor keys, and [path.index] finds the node it looks for. *)
Lemma dfs_spec fuel node path st :
  rec_stack st = list_to_set path -> chain (path ++ [node]) -> unvisited st < fuel ->
  exists st', dfs fuel graph node path st = py.Val st' /\ dfs_post path st st'.
Proof.
  revert node path st. induction fuel as [|fuel IH]; intros node path st Hrec Hch Hfuel;
    [lia|].
  rewrite dfs_S. destruct (bool_decide (node ∈ rec_stack st)) eqn:Hstack.
  - (* the node is on the recursion stack: a cycle is reported *)
    apply bool_decide_eq_true in Hstack. rewrite Hrec, elem_of_list_to_set in Hstack.
    destruct (index_found path node Hstack) as (i & rest & -> & Hdrop). simpl.
    eexists. split; [reflexivity|]. repeat split; simpl; [set_solver|].
    exists [drop i path ++ [node]]. split; [reflexivity|].
    intros c Hc. apply list_elem_of_singleton in Hc as ->. split.
    + exists node. apply (chain_tc node rest node).
      change (node :: rest ++ [node]) with ((node :: rest) ++ [node]).
      rewrite <- Hdrop.
      assert (drop i path ++ [node] = drop i (path ++ [node])) as ->.
      { rewrite drop_app_le; [reflexivity|].
        apply Nat.lt_le_incl, lookup_lt_is_Some. rewrite <- (Nat.add_0_r i), <- lookup_drop, Hdrop.
        eauto. }
      by apply chain_drop.
    + destruct (penult_cycle i path node rest Hdrop) as (p & Hp & Hlast). eauto.
  - apply bool_decide_eq_false in Hstack.
    destruct (bool_decide (node ∈ visited st) || negb (pydict.contains graph node)) eqn:Hskip.
    + exists st. split; [reflexivity|apply dfs_post_refl].
    + (* the node is expanded *)
      apply orb_false_iff in Hskip as [Hvis Hin].
      apply bool_decide_eq_false in Hvis. apply negb_false_iff in Hin.
      unfold pydict.contains in Hin.
      destruct (pydict.get graph node) as [gi|] eqn:Hget; [clear Hin|discriminate].
      set (st1 := {| circular_deps := circular_deps st;
                     visited := {[node]} ∪ visited st;
                     rec_stack := {[node]} ∪ rec_stack st |}).
      assert (node ∈ pydict.keys graph) as Hkey
        by (apply pydict_facts.get_Some_keys; eauto).
      destruct (dfs_children fuel (path ++ [node]) (fun d st' => IH d (path ++ [node]) st')
                  (gi_internal_deps gi) st1) as (st2 & -> & Hr2 & Hv2 & new & Hc2 & Hnew).
      * intros d Hd. apply chain_snoc; [exact Hch|]. exists gi. by split.
      * simpl. rewrite Hrec, list_to_set_app_L. set_solver.
      * pose proof (unvisited_mark node st st1 Hkey Hvis eq_refl). lia.
      * simpl in *. rewrite bool_decide_eq_true_2 by (rewrite Hr2; set_solver).
        eexists. split; [reflexivity|]. repeat split; simpl.
        -- rewrite Hr2. set_solver.
        -- set_solver.
        -- exists new. split; [exact Hc2|]. intros c Hc.
           destruct (Hnew c Hc) as (Hcyc & p & Hp & Hor). split; [exact Hcyc|].
           exists p. split; [exact Hp|]. right.
           destruct Hor as [Hlast|[Hp1 Hp2]].
           ++ rewrite last_snoc in Hlast. injection Hlast as <-. set_solver.
           ++ set_solver.
Qed.

Lemma dfs_root_spec module st :
  rec_stack st = ∅ ->
  exists st', dfs_root graph module st = py.Val st' /\ dfs_post [] st st'.
Proof.
  intros Hrec. unfold dfs_root. destruct (bool_decide (module ∈ visited st)).
  - exists st. split; [reflexivity|apply dfs_post_refl].
  - apply dfs_spec; [by rewrite Hrec | exact I | apply unvisited_bound].
Qed.

Lemma dfs_roots_spec roots st :
  rec_stack st = ∅ ->
  exists st', dfs_roots graph roots st = py.Val st' /\ dfs_post [] st st'.
Proof.
  unfold dfs_roots. revert st. induction roots as [|r roots IH]; intros st Hrec; simpl.
  - exists st. split; [reflexivity|apply dfs_post_refl].
  - destruct (dfs_root_spec r st Hrec) as (st1 & -> & Hpost1). simpl.
    destruct (IH st1) as (st2 & -> & Hpost2).
    + destruct Hpost1 as (-> & _). exact Hrec.
    + exists st2. split; [reflexivity|]. by apply dfs_post_trans with st1.
Qed.

Lemma dfs_roots_app roots1 roots2 st :
  dfs_roots graph (roots1 ++ roots2) st
  = py.bind (dfs_roots graph roots1 st) (dfs_roots graph roots2).
Proof.
  unfold dfs_roots. revert st. induction roots1 as [|r roots1 IH]; intros st; simpl.
  - reflexivity.
  - destruct (dfs_root graph r st) as [st1| |]; simpl; [apply IH|reflexivity..].
Qed.

(** The cycles reported by searches started from an empty recursion stack
    end in a module that the searches were the first to visit. *)
Lemma reported_from_roots st st' new c :
  dfs_post [] st st' -> circular_deps st' = circular_deps st ++ new -> c ∈ new ->
  cyclic /\ exists p, penult c = Some p /\ (p ∉ visited st) /\ p ∈ visited st'.
Proof.
  intros (_ & _ & new' & Hc' & Hnew) Hc Hin.
  rewrite Hc' in Hc. apply app_inv_head in Hc as <-.
  destruct (Hnew c Hin) as (Hcyc & p & Hp & [Hlast|[Hp1 Hp2]]); [discriminate|].
  split; [exact Hcyc|]. eauto.
Qed.

End with_graph.

(** The search from a module without internal dependencies marks the module
    and reports nothing. *)
Lemma isolated_root (graph : list (string * GraphInfo)) (r : string) (gi : GraphInfo)
  (st : dfs_state) :
  pydict.get graph r = Some gi -> gi_internal_deps gi = [] ->
  rec_stack st = ∅ -> r ∉ visited st ->
  exists st',
    dfs_root graph r st = py.Val st'
    /\ circular_deps st' = circular_deps st
    /\ rec_stack st' = ∅
    /\ visited st' = {[r]} ∪ visited st.
Proof.
  intros Hget Hdeps Hrec Hvis. unfold dfs_root.
  rewrite bool_decide_eq_false_2 by assumption.
  rewrite dfs_S.
  rewrite (bool_decide_eq_false_2 (r ∈ rec_stack st)) by (rewrite Hrec; set_solver).
  rewrite (bool_decide_eq_false_2 (r ∈ visited st)) by assumption.
  unfold pydict.contains. rewrite Hget, Hdeps.
  cbn [negb orb py.for_each py.bind rec_stack visited circular_deps].
  rewrite bool_decide_eq_true_2 by set_solver.
  eexists. split; [reflexivity|]. cbn [rec_stack visited circular_deps].
  split; [reflexivity|]. split; [set_solver|reflexivity].
Qed.

Ltac present := rewrite bool_decide_eq_true_2 by set_solver.

(** The search from [X] on a graph with the edges X -> Y -> Z -> X, none of
    the three modules visited before: it reports the cycle from [X] and
    marks the three. *)
Lemma cycle_root (graph : list (string * GraphInfo)) (X Y Z : string)
  (gx gy gz : GraphInfo) (st : dfs_state) :
  X <> Y -> Y <> Z -> X <> Z ->
  pydict.get graph X = Some gx -> pydict.get graph Y = Some gy ->
  pydict.get graph Z = Some gz ->
  gi_internal_deps gx = [Y] -> gi_internal_deps gy = [Z] -> gi_internal_deps gz = [X] ->
  3 <= length graph ->
  rec_stack st = ∅ -> X ∉ visited st -> Y ∉ visited st -> Z ∉ visited st ->
  exists st',
    dfs_root graph X st = py.Val st'
    /\ circular_deps st' = circular_deps st ++ [[X; Y; Z; X]]
    /\ rec_stack st' = ∅
    /\ visited st' = {[Z]} ∪ ({[Y]} ∪ ({[X]} ∪ visited st)).
Proof.
  intros HXY HYZ HXZ HX HY HZ Ex Ey Ez Hlen Hrec Hvx Hvy Hvz.
  unfold dfs_root. rewrite bool_decide_eq_false_2 by assumption.
  destruct (length graph) as [|[|[|n]]]; [lia..|]. clear Hlen.
  rewrite dfs_S, Hrec. unfold pydict.contains. rewrite HX, Ex. cbn [rec_stack visited circular_deps].
  rewrite (bool_decide_eq_false_2 (X ∈ (∅ : gset string))) by set_solver.
  rewrite (bool_decide_eq_false_2 (X ∈ visited st)) by assumption.
  cbn [negb orb py.for_each py.bind app].
  rewrite dfs_S. unfold pydict.contains. rewrite HY, Ey. cbn [rec_stack visited circular_deps].
  rewrite (bool_decide_eq_false_2 (Y ∈ {[X]} ∪ (∅ : gset string))) by set_solver.
  rewrite (bool_decide_eq_false_2 (Y ∈ {[X]} ∪ visited st)) by set_solver.
  cbn [negb orb py.for_each py.bind app].
  rewrite dfs_S. unfold pydict.contains. rewrite HZ, Ez. cbn [rec_stack visited circular_deps].
  rewrite (bool_decide_eq_false_2 (Z ∈ {[Y]} ∪ ({[X]} ∪ (∅ : gset string)))) by set_solver.
  rewrite (bool_decide_eq_false_2 (Z ∈ {[Y]} ∪ ({[X]} ∪ visited st))) by set_solver.
  cbn [negb orb py.for_each py.bind app].
  rewrite dfs_S. cbn [rec_stack visited circular_deps].
  rewrite (bool_decide_eq_true_2 (X ∈ {[Z]} ∪ ({[Y]} ∪ ({[X]} ∪ (∅ : gset string)))))
    by set_solver.
  cbn [py.index]. rewrite decide_True by reflexivity.
  cbn [py.bind drop app rec_stack visited circular_deps].
  present. cbn [py.bind rec_stack visited circular_deps].
  present. cbn [py.bind rec_stack visited circular_deps].
  present. cbn [py.bind rec_stack visited circular_deps].
  eexists. split; [reflexivity|]. cbn [rec_stack visited circular_deps].
  split; [reflexivity|]. split; [set_solver|reflexivity].
Qed.

(** A graph in which the modules [A], [B], [C] have the internal
    dependencies A -> B -> C -> A and no other module has any. *)
Section with_three_cycle.
Context (graph : list (string * GraphInfo)) (A B C : string) (ga gb gc : GraphInfo).
Context (HAB : A <> B) (HBC : B <> C) (HAC : A <> C).
Context (HA : pydict.get graph A = Some ga) (HB : pydict.get graph B = Some gb)
  (HC : pydict.get graph C = Some gc).
Context (Ea : gi_internal_deps ga = [B]) (Eb : gi_internal_deps gb = [C])
  (Ec : gi_internal_deps gc = [A]).
Context (isolated : forall k gi,
  pydict.get graph k = Some gi -> k <> A -> k <> B -> k <> C -> gi_internal_deps gi = []).

Lemma three_modules : 3 <= length graph.
Proof.
  assert (length [A; B; C] <= length (pydict.keys graph)) as H.
  { apply submseteq_length, NoDup_submseteq.
    - repeat constructor; set_solver.
    - intros x Hx. apply pydict_facts.get_Some_keys.
      repeat (apply elem_of_cons in Hx as [->|Hx]); [eauto..|inversion Hx]. }
  unfold pydict.keys in H. rewrite length_map in H. exact H.
Qed.

(** Once the three modules are visited, the later roots report nothing. *)
Lemma after_cycle roots : forall st,
  (forall r, r ∈ roots -> r ∈ pydict.keys graph) -> rec_stack st = ∅ ->
  A ∈ visited st -> B ∈ visited st -> C ∈ visited st ->
  exists st',
    dfs_roots graph roots st = py.Val st' /\ circular_deps st' = circular_deps st.
Proof.
  unfold dfs_roots. induction roots as [|r roots IH]; intros st Hkeys Hrec Ha Hb Hc;
    cbn [py.for_each].
  - by exists st.
  - destruct (decide (r ∈ visited st)) as [Hr|Hr].
    + unfold dfs_root at 1. rewrite bool_decide_eq_true_2 by assumption. cbn [py.bind].
      apply IH; [|assumption..]. intros r' Hr'. apply Hkeys. by right.
    + destruct (proj2 (pydict_facts.get_Some_keys graph r) (Hkeys r ltac:(left)))
        as (gi & Hget).
      destruct (isolated_root graph r gi st Hget) as (st1 & -> & Hc1 & Hr1 & Hv1);
        [|assumption|assumption|].
      { apply (isolated r gi Hget); intros ->; contradiction. }
      cbn [py.bind].
      destruct (IH st1) as (st2 & -> & Hc2); [|assumption|rewrite Hv1; set_solver..|].
      { intros r' Hr'. apply Hkeys. by right. }
      exists st2. split; [reflexivity|congruence].
Qed.

(** Until one of the three modules is a root, the roots report nothing; the
    first of them that is a root reports the cycle, starting from itself. *)
Lemma before_cycle roots : forall st,
  (forall r, r ∈ roots -> r ∈ pydict.keys graph) -> rec_stack st = ∅ ->
  A ∉ visited st -> B ∉ visited st -> C ∉ visited st ->
  exists st',
    dfs_roots graph roots st = py.Val st'
    /\ (((A ∉ roots) /\ (B ∉ roots) /\ (C ∉ roots) /\ circular_deps st' = circular_deps st)
        \/ exists before first after cycle,
             roots = before ++ first :: after
             /\ (A ∉ before) /\ (B ∉ before) /\ (C ∉ before)
             /\ cycle_from A B C first cycle
             /\ circular_deps st' = circular_deps st ++ [cycle]).
Proof.
  pose proof three_modules as Hlen.
  induction roots as [|r roots IH]; intros st Hkeys Hrec Ha Hb Hc.
  - exists st. split; [reflexivity|]. left. repeat split; set_solver.
  - assert (forall r', r' ∈ roots -> r' ∈ pydict.keys graph) as Hkeys'
      by (intros r' Hr'; apply Hkeys; by right).
    assert (forall X Y Z st1,
              r = X ->
              dfs_root graph r st = py.Val st1 ->
              circular_deps st1 = circular_deps st ++ [[X; Y; Z; X]] ->
              rec_stack st1 = ∅ -> A ∈ visited st1 -> B ∈ visited st1 -> C ∈ visited st1 ->
              cycle_from A B C X [X; Y; Z; X] ->
              exists st',
                dfs_roots graph (r :: roots) st = py.Val st'
                /\ exists before first after cycle,
                     r :: roots = before ++ first :: after
                     /\ (A ∉ before) /\ (B ∉ before) /\ (C ∉ before)
                     /\ cycle_from A B C first cycle
                     /\ circular_deps st' = circular_deps st ++ [cycle]) as Hfound.
    { intros X Y Z st1 -> Hrun Hc1 Hr1 Ha1 Hb1 Hc1' Hfrom.
      destruct (after_cycle roots st1 Hkeys' Hr1 Ha1 Hb1 Hc1') as (st2 & Hrun2 & Hc2).
      exists st2. split.
      - unfold dfs_roots in *. cbn [py.for_each]. rewrite Hrun. cbn [py.bind]. exact Hrun2.
      - exists [], X, roots, [X; Y; Z; X].
        repeat split; [set_solver..|exact Hfrom|congruence]. }
    destruct (decide (r = A)) as [->|HrA]; [|destruct (decide (r = B)) as [->|HrB];
      [|destruct (decide (r = C)) as [->|HrC]]].
    + destruct (cycle_root graph A B C ga gb gc st) as (st1 & Hrun & Hc1 & Hr1 & Hv1);
        try assumption.
      destruct (Hfound A B C st1) as (st' & Hst' & Hex);
        [reflexivity|assumption..|rewrite Hv1; set_solver|rewrite Hv1; set_solver
        |rewrite Hv1; set_solver|by left|].
      exists st'. split; [assumption|by right].
    + destruct (cycle_root graph B C A gb gc ga st) as (st1 & Hrun & Hc1 & Hr1 & Hv1);
        try assumption; try done.
      destruct (Hfound B C A st1) as (st' & Hst' & Hex);
        [reflexivity|assumption..|rewrite Hv1; set_solver|rewrite Hv1; set_solver
        |rewrite Hv1; set_solver|by right; left|].
      exists st'. split; [assumption|by right].
    + destruct (cycle_root graph C A B gc ga gb st) as (st1 & Hrun & Hc1 & Hr1 & Hv1);
        try assumption; try done.
      destruct (Hfound C A B st1) as (st' & Hst' & Hex);
        [reflexivity|assumption..|rewrite Hv1; set_solver|rewrite Hv1; set_solver
        |rewrite Hv1; set_solver|by right; right|].
      exists st'. split; [assumption|by right].
    + assert (exists st1, dfs_root graph r st = py.Val st1
                /\ circular_deps st1 = circular_deps st /\ rec_stack st1 = ∅
                /\ (A ∉ visited st1) /\ (B ∉ visited st1) /\ (C ∉ visited st1))
        as (st1 & Hrun & Hc1 & Hr1 & Ha1 & Hb1 & Hc1').
      { destruct (decide (r ∈ visited st)) as [Hr|Hr].
        - exists st. unfold dfs_root. rewrite bool_decide_eq_true_2 by assumption. done.
        - destruct (proj2 (pydict_facts.get_Some_keys graph r) (Hkeys r ltac:(left)))
            as (gi & Hget).
          destruct (isolated_root graph r gi st Hget) as (st1 & Hrun & Hc1 & Hr1 & Hv1);
            [by apply (isolated r gi Hget)|assumption|assumption|].
          exists st1. repeat split; [assumption..|rewrite Hv1; set_solver
            |rewrite Hv1; set_solver|rewrite Hv1; set_solver]. }
      destruct (IH st1 Hkeys' Hr1 Ha1 Hb1 Hc1') as (st2 & Hrun2 & Hcases).
      exists st2. split.
      { unfold dfs_roots in *. cbn [py.for_each]. rewrite Hrun. cbn [py.bind]. exact Hrun2. }
      destruct Hcases as [(Hna & Hnb & Hnc & Hc2)
                         |(before & first & after & cycle & -> & Hna & Hnb & Hnc & Hfrom & Hc2)].
      * left. repeat split; [set_solver..|congruence].
      * right. exists (r :: before), first, after, cycle.
        repeat split; [set_solver..|exact Hfrom|congruence].
Qed.

End with_three_cycle.

(** The search always returns, and what it reports are cycles of the graph. *)
Lemma find_circular_dependencies_returns (s : self) :
  exists cycles,
    _find_circular_dependencies s = py.Val cycles
    /\ forall c, c ∈ cycles -> cyclic (dependency_graph s).
Proof.
  unfold _find_circular_dependencies.
  destruct (dfs_roots_spec (dependency_graph s) (pydict.keys (dependency_graph s)) dfs_init
              eq_refl) as (st & -> & Hpost).
  exists (circular_deps st). split; [reflexivity|]. intros c Hc.
  by destruct (reported_from_roots _ dfs_init st (circular_deps st) c Hpost eq_refl Hc).
Qed.

Lemma acyclic_reports_nothing (s : self) :
  ~ cyclic (dependency_graph s) -> _find_circular_dependencies s = py.Val [].
Proof.
  intros Hacyclic. destruct (find_circular_dependencies_returns s) as (cycles & -> & Hc).
  destruct cycles as [|c cycles]; [reflexivity|].
  exfalso. apply Hacyclic, (Hc c). left.
Qed.

(** The searches from the roots before [r], from [r], and from the roots
    after [r] report three lists of cycles; no cycle reported from [r] is in
    either of the other two. *)
Lemma roots_report_apart (s : self) (roots1 roots2 : list string) (r : string) :
  pydict.keys (dependency_graph s) = roots1 ++ r :: roots2 ->
  exists st1 st2 st3 during after,
    dfs_roots (dependency_graph s) roots1 dfs_init = py.Val st1
    /\ dfs_root (dependency_graph s) r st1 = py.Val st2
    /\ dfs_roots (dependency_graph s) roots2 st2 = py.Val st3
    /\ circular_deps st2 = circular_deps st1 ++ during
    /\ circular_deps st3 = circular_deps st2 ++ after
    /\ _find_circular_dependencies s = py.Val (circular_deps st1 ++ during ++ after)
    /\ forall c, c ∈ during -> (c ∉ circular_deps st1) /\ (c ∉ after).
Proof.
  intros Hkeys. unfold _find_circular_dependencies.
  remember (dependency_graph s) as graph eqn:Hgraph.
  destruct (dfs_roots_spec graph roots1 dfs_init eq_refl) as (st1 & H1 & Hpost1).
  assert (rec_stack st1 = ∅) as Hrec1 by (by destruct Hpost1 as (-> & _)).
  destruct (dfs_root_spec graph r st1 Hrec1) as (st2 & H2 & Hpost2).
  assert (rec_stack st2 = ∅) as Hrec2 by (destruct Hpost2 as (-> & _); exact Hrec1).
  destruct (dfs_roots_spec graph roots2 st2 Hrec2) as (st3 & H3 & Hpost3).
  pose proof Hpost2 as (_ & _ & during & Hduring & _).
  pose proof Hpost3 as (_ & _ & after & Hafter & _).
  exists st1, st2, st3, during, after. repeat split; try assumption.
  - rewrite Hkeys, dfs_roots_app, H1.
    cbn [py.bind]. unfold dfs_roots at 1. cbn [py.for_each]. rewrite H2.
    cbn [py.bind]. fold (dfs_roots graph roots2 st2). rewrite H3.
    cbn [py.bind]. by rewrite Hafter, Hduring, app_assoc.
  - intros Hbefore.
    destruct (reported_from_roots graph st1 st2 during c Hpost2 Hduring H)
      as (_ & p & Hp & Hp1 & _).
    destruct (reported_from_roots graph dfs_init st1 (circular_deps st1) c Hpost1 eq_refl
                Hbefore) as (_ & p' & Hp' & _ & Hp2).
    congruence.
  - intros Hlater.
    destruct (reported_from_roots graph st1 st2 during c Hpost2 Hduring H)
      as (_ & p & Hp & _ & Hp2).
    destruct (reported_from_roots graph st2 st3 after c Hpost3 Hafter Hlater)
      as (_ & p' & Hp' & Hp1 & _).
    congruence.
Qed.

(** C5: on a graph in which the modules A, B, C have the internal
    dependencies A -> B, B -> C and C -> A and no other module has an
    internal dependency, [_find_circular_dependencies] reports one cycle, the
    three modules in the order of the edges, starting from the one of them
    that comes first among the keys of the graph and closed by it again; on
    a graph without a cycle of internal-dependency edges it reports the empty
    list; and a cycle reported by the search from one root of the outer loop
    is reported by the search from no other root. The search always
    returns. *)
Theorem find_circular_dependencies_correct :
  (forall (s : self) (A B C : string) (ga gb gc : GraphInfo),
      A <> B -> B <> C -> A <> C ->
      pydict.get (dependency_graph s) A = Some ga ->
      pydict.get (dependency_graph s) B = Some gb ->
      pydict.get (dependency_graph s) C = Some gc ->
      gi_internal_deps ga = [B] -> gi_internal_deps gb = [C] -> gi_internal_deps gc = [A] ->
      (forall k gi,
          pydict.get (dependency_graph s) k = Some gi ->
          k <> A -> k <> B -> k <> C -> gi_internal_deps gi = []) ->
      exists before first after cycle,
        pydict.keys (dependency_graph s) = before ++ first :: after
        /\ (A ∉ before) /\ (B ∉ before) /\ (C ∉ before)
        /\ cycle_from A B C first cycle
        /\ _find_circular_dependencies s = py.Val [cycle])
  /\ (forall s : self,
        ~ cyclic (dependency_graph s) -> _find_circular_dependencies s = py.Val [])
  /\ (forall (s : self) (roots1 roots2 : list string) (r : string),
        pydict.keys (dependency_graph s) = roots1 ++ r :: roots2 ->
        exists st1 st2 st3 during after,
          dfs_roots (dependency_graph s) roots1 dfs_init = py.Val st1
          /\ dfs_root (dependency_graph s) r st1 = py.Val st2
          /\ dfs_roots (dependency_graph s) roots2 st2 = py.Val st3
          /\ circular_deps st2 = circular_deps st1 ++ during
          /\ circular_deps st3 = circular_deps st2 ++ after
          /\ _find_circular_dependencies s = py.Val (circular_deps st1 ++ during ++ after)
          /\ forall c, c ∈ during -> (c ∉ circular_deps st1) /\ (c ∉ after))
  /\ (forall s : self, exists cycles, _find_circular_dependencies s = py.Val cycles).
Proof.
  split; [|split; [|split]].
  - intros s A B C ga gb gc HAB HBC HAC HA HB HC Ea Eb Ec Hothers.
    destruct (before_cycle (dependency_graph s) A B C ga gb gc HAB HBC HAC HA HB HC
                Ea Eb Ec Hothers (pydict.keys (dependency_graph s)) dfs_init)
      as (st & Hrun & [(Hna & _)|(before & first & after & cycle & Hk & Ha & Hb & Hc
                                   & Hfrom & Hcycle)]);
      [done|reflexivity|set_solver..| |].
    + exfalso. apply Hna, pydict_facts.get_Some_keys. eauto.
    + exists before, first, after, cycle. repeat split; try assumption.
      unfold _find_circular_dependencies. rewrite Hrun. cbn [py.bind].
      by rewrite Hcycle.
  - apply acyclic_reports_nothing.
  - apply roots_report_apart.
  - intros s. destruct (find_circular_dependencies_returns s) as (cycles & H & _). eauto.
Qed.

Lemma find_circular_dependencies_correct_witness :
  exists before first after cycle,
    pydict.keys (dependency_graph main_abc_graph) = before ++ first :: after
    /\ ("a" ∉ before) /\ ("b" ∉ before) /\ ("c" ∉ before)
    /\ cycle_from "a" "b" "c" first cycle
    /\ _find_circular_dependencies main_abc_graph = py.Val [cycle].
Proof.
  apply (proj1 find_circular_dependencies_correct main_abc_graph "a" "b" "c"
           (mkGraphInfo ["b"] ["c"] ["b"] [] [])
           (mkGraphInfo ["c"] ["a"] ["c"] [] [])
           (mkGraphInfo ["a"] ["b"] ["a"] [] []));
    first [discriminate | reflexivity | idtac].
  intros k gi Hget Ha Hb Hc. unfold main_abc_graph, abc_graph in Hget. cbn in Hget.
  by repeat case_decide; simplify_eq.
Defined.

Example find_circular_dependencies_abc :
  _find_circular_dependencies abc_graph = py.Val [["b"; "c"; "a"; "b"]].
Proof. vm_compute. reflexivity. Qed.

Example find_circular_dependencies_main_abc :
  _find_circular_dependencies main_abc_graph = py.Val [["b"; "c"; "a"; "b"]].
Proof. vm_compute. reflexivity. Qed.

End CycleProps.

(* ================================================================== *)
(** * Part XV: walking a syntax tree                               *)
(* ================================================================== *)

Module ast_facts.
Import ast.

Lemma map_opt_nodes {A : Type} (g : node -> A) (o : option node) :
  map g (opt_nodes o) = match o with Some x => [g x] | None => [] end.
Proof. by destruct o. Qed.

Lemma map_flat_opt_nodes {A : Type} (g : node -> A) (l : list (option node)) :
  map g (flat_map opt_nodes l)
  = flat_map (fun o => match o with Some x => [g x] | None => [] end) l.
Proof.
  induction l as [|o l IH]; simpl; [reflexivity|].
  by rewrite map_app, map_opt_nodes, IH.
Qed.

(** [tree_rec] unfolds along [iter_child_nodes]. *)
Lemma tree_rec_unfold {A : Type} (f : node -> list A -> A) (n : node) :
  tree_rec f n = f n (map (tree_rec f) (iter_child_nodes n)).
Proof.
  destruct n; simpl; f_equal;
    rewrite ?map_app, ?map_flat_opt_nodes, ?map_opt_nodes; reflexivity.
Qed.

Lemma count_nodes_unfold (n : node) :
  count_nodes n = S (list_sum (map count_nodes (iter_child_nodes n))).
Proof. unfold count_nodes. by rewrite tree_rec_unfold at 1. Qed.

Lemma subnodes_unfold (n : node) :
  subnodes n = n :: flat_map subnodes (iter_child_nodes n).
Proof.
  unfold subnodes. rewrite tree_rec_unfold at 1. f_equal.
  induction (iter_child_nodes n) as [|c cs IH]; simpl; [reflexivity|]. by rewrite IH.
Qed.

Lemma count_nodes_child (n c : node) :
  c ∈ iter_child_nodes n -> count_nodes c < count_nodes n.
Proof.
  rewrite (count_nodes_unfold n). induction (iter_child_nodes n) as [|x xs IH]; intros Hin.
  - inversion Hin.
  - simpl. apply elem_of_cons in Hin as [->|Hin]; [lia|]. specialize (IH Hin). lia.
Qed.

(** Induction on a tree through [iter_child_nodes]. *)
Lemma node_children_ind (P : node -> Prop) :
  (forall n, (forall c, c ∈ iter_child_nodes n -> P c) -> P n) -> forall n, P n.
Proof.
  intros Hstep n. remember (count_nodes n) as k eqn:Hk. revert n Hk.
  induction k as [k IH] using lt_wf_ind. intros n ->.
  apply Hstep. intros c Hc. apply (IH (count_nodes c)); [by apply count_nodes_child|reflexivity].
Qed.

Lemma list_sum_app (l1 l2 : list nat) : list_sum (l1 ++ l2) = list_sum l1 + list_sum l2.
Proof. induction l1 as [|x l1 IH]; simpl; [reflexivity|]. rewrite IH. lia. Qed.

(** With one unit of fuel per node of the queue, the loop of [ast.walk]
    yields every node below the queue, each once. *)
Lemma walk_loop_subnodes (fuel : nat) (todo : list node) :
  list_sum (map count_nodes todo) <= fuel ->
  walk_loop fuel todo ≡ₚ flat_map subnodes todo.
Proof.
  revert todo. induction fuel as [|fuel IH]; intros todo Hfuel.
  - destruct todo as [|n rest]; [reflexivity|].
    simpl in Hfuel. rewrite (count_nodes_unfold n) in Hfuel. lia.
  - destruct todo as [|n rest]; [reflexivity|]. simpl.
    rewrite subnodes_unfold. simpl. constructor.
    rewrite IH.
    + rewrite flat_map_app. apply Permutation_app_comm.
    + simpl in Hfuel. rewrite (count_nodes_unfold n) in Hfuel.
      rewrite map_app, list_sum_app. lia.
Qed.

(** [ast.walk(n)] yields the nodes of the tree below [n], each once. *)
Lemma walk_subnodes (n : node) : walk n ≡ₚ subnodes n.
Proof.
  unfold walk. rewrite walk_loop_subnodes; simpl; [by rewrite app_nil_r|lia].
Qed.

Lemma elem_of_walk (n x : node) : x ∈ walk n <-> x ∈ subnodes n.
Proof. by rewrite walk_subnodes. Qed.

(** The walk starts with the node it is given. *)
Lemma walk_head (n : node) : exists rest, walk n = n :: rest.
Proof.
  unfold walk. rewrite count_nodes_unfold. simpl. eauto.
Qed.

End ast_facts.

(* ================================================================== *)
(** * Part XVI: cyclomatic complexity                              *)
(* ================================================================== *)

Module ComplexityProps.
Import ast Notions Inputs.

(** ** [CodeAnalyzer]: the three-argument [isinstance] *)

(** A child that is neither a loop, an [if] nor an [except] clause reaches
    the third test, which raises. *)
Lemma analyzer_step_raises (child : node) (complexity : nat) :
  isinstance child [cls.If; cls.While; cls.For; cls.AsyncFor] = false ->
  isinstance child [cls.ExceptHandler] = false ->
  CodeAnalyzer.complexity_step child complexity = py.Exc isinstance_type_error.
Proof. intros H1 H2. unfold CodeAnalyzer.complexity_step. by rewrite H1, H2. Qed.

Lemma analyzer_loop_raises (n : node) :
  isinstance n [cls.If; cls.While; cls.For; cls.AsyncFor] = false ->
  isinstance n [cls.ExceptHandler] = false ->
  py.for_each (walk n) CodeAnalyzer.complexity_step 1 = py.Exc isinstance_type_error.
Proof.
  intros H1 H2. destruct (ast_facts.walk_head n) as [rest ->]. simpl.
  by rewrite analyzer_step_raises.
Qed.

(** [CodeAnalyzer._calculate_function_complexity] raises on every function
    definition: the first node of the walk is the definition itself. *)
Lemma analyzer_function_complexity_raises (n : node) :
  isinstance n [cls.FunctionDef; cls.AsyncFunctionDef] = true ->
  CodeAnalyzer._calculate_function_complexity n = py.Exc isinstance_type_error.
Proof.
  intros Hdef. apply analyzer_loop_raises; destruct n; try reflexivity; discriminate.
Qed.

(** [CodeAnalyzer._calculate_cyclomatic_complexity] raises on every module. *)
Lemma analyzer_cyclomatic_complexity_raises (body : list node) :
  CodeAnalyzer._calculate_cyclomatic_complexity (Module_ body)
  = py.Exc isinstance_type_error.
Proof. by apply analyzer_loop_raises. Qed.

Lemma for_each_fuel {A S : Type} (xs : list A) (body : A -> S -> py.result S) (s : S) :
  (forall x s', body x s' <> py.OutOfFuel) -> py.for_each xs body s <> py.OutOfFuel.
Proof.
  intros Hbody. revert s. induction xs as [|x xs IH]; intros s; simpl; [discriminate|].
  specialize (Hbody x s). destruct (body x s); simpl; [apply IH|discriminate|done].
Qed.

Lemma map_result_fuel {A B : Type} (f : A -> py.result B) (xs : list A) :
  (forall x, f x <> py.OutOfFuel) -> py.map_result f xs <> py.OutOfFuel.
Proof.
  intros Hf. induction xs as [|x xs IH]; simpl; [discriminate|].
  specialize (Hf x). destruct (f x); simpl; [|discriminate|done].
  destruct (py.map_result f xs); simpl; [discriminate|discriminate|done].
Qed.

Lemma analyzer_complexity_fuel (n : node) :
  CodeAnalyzer._calculate_function_complexity n <> py.OutOfFuel.
Proof.
  apply for_each_fuel. intros x c. unfold CodeAnalyzer.complexity_step.
  destruct (isinstance x _); [discriminate|]. destruct (isinstance x _); discriminate.
Qed.

Lemma dotted_names_fuel (exprs : list node) :
  CodeAnalyzer.dotted_names exprs <> py.OutOfFuel.
Proof.
  apply for_each_fuel. intros e acc. destruct e; try discriminate.
  simpl. destruct e1; discriminate.
Qed.

(** ** [FunctionExtractor]: the sibling that passes a tuple *)

Lemma extractor_step (child : node) (complexity : nat) :
  FunctionExtractor.complexity_step child complexity = complexity + Spec.increment child.
Proof.
  unfold FunctionExtractor.complexity_step.
  destruct child; simpl; try lia.
Qed.

Lemma extractor_loop (l : list node) (c : nat) :
  fold_left (fun complexity child => FunctionExtractor.complexity_step child complexity) l c
  = c + list_sum (map Spec.increment l).
Proof.
  revert c. induction l as [|x l IH]; intros c; simpl; [lia|].
  rewrite IH, extractor_step. lia.
Qed.

Lemma list_sum_perm (l1 l2 : list nat) : l1 ≡ₚ l2 -> list_sum l1 = list_sum l2.
Proof. induction 1; simpl; lia. Qed.

(** [FunctionExtractor._calculate_function_complexity] is 1 plus the
    increments of the nodes of the function, hence at least 1. *)
Lemma extractor_complexity_formula (n : node) :
  FunctionExtractor._calculate_function_complexity n = Spec.cyclomatic_complexity n
  /\ 1 <= FunctionExtractor._calculate_function_complexity n.
Proof.
  unfold FunctionExtractor._calculate_function_complexity, Spec.cyclomatic_complexity,
    Spec.increments.
  rewrite extractor_loop.
  rewrite (list_sum_perm _ (map Spec.increment (subnodes n)))
    by (apply Permutation_map, ast_facts.walk_subnodes).
  split; lia.
Qed.

Lemma increments_unfold (n : node) :
  Spec.increments n
  = Spec.increment n + list_sum (map Spec.increments (iter_child_nodes n)).
Proof.
  unfold Spec.increments at 1. rewrite ast_facts.subnodes_unfold. simpl. f_equal.
  induction (iter_child_nodes n) as [|c cs IH]; simpl; [reflexivity|].
  by rewrite map_app, ast_facts.list_sum_app, IH.
Qed.

(** One more [if] statement in the body of a function adds 1, and the
    increments of what the statement itself contains. *)
Lemma extractor_complexity_if_inserted
  (name : string) (args : node) (before after decorator_list : list node)
  (returns : option node) (lineno : Z) (end_lineno : option Z)
  (test : node) (body orelse : list node) :
  FunctionExtractor._calculate_function_complexity
    (FunctionDef name args (before ++ If test body orelse :: after) decorator_list returns
       lineno end_lineno)
  = FunctionExtractor._calculate_function_complexity
      (FunctionDef name args (before ++ after) decorator_list returns lineno end_lineno)
    + 1
    + (Spec.increments test + list_sum (map Spec.increments body)
       + list_sum (map Spec.increments orelse)).
Proof.
  rewrite !(proj1 (extractor_complexity_formula _)). unfold Spec.cyclomatic_complexity.
  rewrite !(increments_unfold (FunctionDef _ _ _ _ _ _ _)).
  cbn [iter_child_nodes Spec.increment].
  rewrite !map_app, !ast_facts.list_sum_app. cbn [map list_sum].
  rewrite (increments_unfold (If test body orelse)).
  cbn [iter_child_nodes Spec.increment].
  rewrite !map_app, !ast_facts.list_sum_app. cbn [map list_sum].
  assert (forall x l, list_sum (x :: l) = x + list_sum l) as Hcons by reflexivity.
  rewrite !Hcons. change (list_sum []) with 0. lia.
Qed.

(** An [if] statement that holds no counted construct itself adds exactly 1. *)
Lemma extractor_complexity_plain_if
  (name : string) (args : node) (before after decorator_list : list node)
  (returns : option node) (lineno : Z) (end_lineno : option Z)
  (test : node) (body orelse : list node) :
  Spec.increments test = 0 ->
  Forall (fun stmt => Spec.increments stmt = 0) (body ++ orelse) ->
  FunctionExtractor._calculate_function_complexity
    (FunctionDef name args (before ++ If test body orelse :: after) decorator_list returns
       lineno end_lineno)
  = FunctionExtractor._calculate_function_complexity
      (FunctionDef name args (before ++ after) decorator_list returns lineno end_lineno)
    + 1.
Proof.
  intros Htest Hplain. rewrite extractor_complexity_if_inserted, Htest.
  apply Forall_app in Hplain as [Hbody Horelse].
  assert (forall l, Forall (fun stmt => Spec.increments stmt = 0) l ->
                    list_sum (map Spec.increments l) = 0) as Hzero.
  { induction 1 as [|x l Hx _ IH]; simpl; [reflexivity|]. by rewrite Hx, IH. }
  rewrite (Hzero body Hbody), (Hzero orelse Horelse). lia.
Qed.

Section with_library.
Context (unparse : node -> string) (cleandoc : string -> string) (str : node -> string).

Lemma extract_functions_fuel (tree : node) :
  CodeAnalyzer._extract_functions unparse cleandoc tree <> py.OutOfFuel.
Proof.
  apply for_each_fuel. intros n acc.
  assert (CodeAnalyzer.function_info unparse cleandoc tree n <> py.OutOfFuel) as H.
  { unfold CodeAnalyzer.function_info.
    destruct n; try discriminate;
      (pose proof (analyzer_complexity_fuel
                     ltac:(match goal with |- context [CodeAnalyzer._calculate_function_complexity ?x] => exact x end)) as Hc;
       destruct (CodeAnalyzer._calculate_function_complexity _); simpl; [|discriminate|done];
       pose proof (dotted_names_fuel decorator_list) as Hd;
       destruct (CodeAnalyzer.dotted_names decorator_list); simpl; [discriminate|discriminate|done]). }
  destruct (CodeAnalyzer.function_info unparse cleandoc tree n); simpl;
    [discriminate|discriminate|done].
Qed.

Lemma extract_method_info_fuel (n : node) :
  CodeAnalyzer._extract_method_info unparse cleandoc str n <> py.OutOfFuel.
Proof.
  unfold CodeAnalyzer._extract_method_info.
  destruct n; try discriminate;
    (pose proof (analyzer_complexity_fuel
                   ltac:(match goal with |- context [CodeAnalyzer._calculate_function_complexity ?x] => exact x end)) as Hc;
     destruct (CodeAnalyzer._calculate_function_complexity _); simpl; [discriminate|discriminate|done]).
Qed.

Lemma extract_classes_fuel (tree : node) :
  CodeAnalyzer._extract_classes unparse cleandoc str tree <> py.OutOfFuel.
Proof.
  apply for_each_fuel. intros n acc.
  assert (CodeAnalyzer.class_info unparse cleandoc str n <> py.OutOfFuel) as H.
  { unfold CodeAnalyzer.class_info. destruct n; try discriminate.
    pose proof (dotted_names_fuel bases) as Hb.
    destruct (CodeAnalyzer.dotted_names bases); simpl; [|discriminate|done].
    match goal with |- context [py.map_result ?f ?xs] =>
      pose proof (map_result_fuel f xs extract_method_info_fuel) as Hm;
      destruct (py.map_result f xs); simpl; [discriminate|discriminate|done]
    end. }
  destruct (CodeAnalyzer.class_info unparse cleandoc str n); simpl;
    [discriminate|discriminate|done].
Qed.

(** On a text that does not parse, [analyze_file] raises nothing: it
    returns the result object with [valid = False] and the error message. *)
Lemma analyze_file_syntax_error (file_path e : string) :
  CodeAnalyzer.analyze_file unparse cleandoc str file_path (syntax_error e)
  = py.Val (CodeAnalyzer.invalid ("Syntax error in " +:+ file_path +:+ ": " +:+ e)).
Proof. reflexivity. Qed.

(** C1 at its failing inputs: on every text that parses, [analyze_file]
    raises instead of returning. If nothing raises earlier, the entry
    ['complexity_metrics'] does, through the three-argument [isinstance] of
    [_calculate_cyclomatic_complexity]. *)
Theorem analyze_file_raises_on_valid_text (file_path : string) (body : list node) :
  exists e : py.exn,
    CodeAnalyzer.analyze_file unparse cleandoc str file_path (module_of body) = py.Exc e.
Proof.
  unfold CodeAnalyzer.analyze_file.
  pose proof (extract_functions_fuel (Module_ body)) as Hf.
  destruct (CodeAnalyzer._extract_functions unparse cleandoc (Module_ body)) as [fs|e|];
    cbn [py.bind]; [|by exists e|done].
  pose proof (extract_classes_fuel (Module_ body)) as Hc.
  destruct (CodeAnalyzer._extract_classes unparse cleandoc str (Module_ body)) as [cs|e|];
    cbn [py.bind]; [|by exists e|done].
  unfold CodeAnalyzer._calculate_complexity_metrics.
  rewrite analyzer_cyclomatic_complexity_raises. cbn [py.bind].
  by exists isinstance_type_error.
Qed.

(** C7 at a failing input: for the file [def add(a, b): return a + b] the
    extraction of [CodeAnalyzer] yields no function [add] of complexity 1; it
    raises [TypeError], from [_calculate_function_complexity]. *)
Theorem analyzer_add_raises :
  CodeAnalyzer._calculate_function_complexity add_def = py.Exc isinstance_type_error
  /\ CodeAnalyzer._extract_functions unparse cleandoc (Module_ [add_def])
     = py.Exc isinstance_type_error
  /\ CodeAnalyzer.analyze_file unparse cleandoc str "add.py" (module_of [add_def])
     = py.Exc isinstance_type_error.
Proof. repeat split; reflexivity. Qed.

(** The sibling on the same file: [FunctionExtractor.extract_from_file]
    returns one function, [add], of complexity 1 and without decorators. *)
Example extractor_add :
  FunctionExtractor.extract_from_file unparse cleandoc str "add.py" (module_of [add_def])
  = py.Val
      [("add",
        FunctionExtractor.FunctionDocumentation.mk
          (FunctionExtractor.FunctionSignature.mk "add"
             [FunctionExtractor.Parameter_.mk "a" None None FunctionExtractor.POSITIONAL None;
              FunctionExtractor.Parameter_.mk "b" None None FunctionExtractor.POSITIONAL None]
             None false false [])
          None 1 1 1 [] [])].
Proof. reflexivity. Qed.

End with_library.
End ComplexityProps.

(* ================================================================== *)
(** * Part XVII: cognitive complexity                              *)
(* ================================================================== *)

Module CognitiveProps.
Import ast Notions Inputs.

Lemma visit_node_unfold (n : node) (level complexity : nat) :
  CodeAnalyzer.visit_node n level complexity
  = fold_left
      (fun complexity child =>
         CodeAnalyzer.visit_node child (if Spec.nests n then level + 1 else level) complexity)
      (iter_child_nodes n)
      (complexity + score (n, level)).
Proof.
  unfold CodeAnalyzer.visit_node at 1. rewrite ast_facts.tree_rec_unfold.
  fold CodeAnalyzer.visit_node. unfold score, Spec.scores, Spec.nests.
  assert (forall (l : list node) (lv acc : nat),
             fold_left (fun c visit_child => visit_child lv c)
               (map CodeAnalyzer.visit_node l) acc
             = fold_left (fun c child => CodeAnalyzer.visit_node child lv c) l acc) as Hfold.
  { induction l as [|x l IH]; intros lv acc; simpl; [reflexivity|apply IH]. }
  rewrite Hfold. f_equal; destruct n; simpl; lia.
Qed.

Lemma with_levels_unfold (n : node) (level : nat) :
  Spec.with_levels n level
  = (n, level)
    :: flat_map (fun child => Spec.with_levels child (if Spec.nests n then level + 1 else level))
         (iter_child_nodes n).
Proof.
  unfold Spec.with_levels at 1. rewrite ast_facts.tree_rec_unfold.
  fold Spec.with_levels. f_equal.
  induction (iter_child_nodes n) as [|c cs IH]; simpl; [reflexivity|]. by rewrite IH.
Qed.

(** The walk of [visit_node] adds up the scores of the nodes it meets. *)
Lemma visit_node_sum (n : node) :
  forall level complexity,
    CodeAnalyzer.visit_node n level complexity
    = complexity + list_sum (map score (Spec.with_levels n level)).
Proof.
  induction n as [n IH] using ast_facts.node_children_ind. intros level complexity.
  rewrite visit_node_unfold, with_levels_unfold. simpl.
  generalize (if Spec.nests n then level + 1 else level). intros level'.
  generalize (score (n, level)). intros s0.
  assert (forall acc,
             fold_left (fun c child => CodeAnalyzer.visit_node child level' c)
               (iter_child_nodes n) acc
             = acc + list_sum (map score
                                 (flat_map (fun child => Spec.with_levels child level')
                                    (iter_child_nodes n)))) as Hchildren.
  { induction (iter_child_nodes n) as [|c cs IHcs]; intros acc; simpl; [lia|].
    rewrite IH by left. rewrite IHcs by (intros c' Hc'; apply IH; by right).
    rewrite map_app, ast_facts.list_sum_app. lia. }
  rewrite Hchildren. lia.
Qed.

(** C8: the cognitive complexity of a syntax tree is the sum, over its [if],
    [while] and [for] nodes and its [except] clauses, of one plus the nesting
    level of the node, where the level of a node is the number of [if],
    [while], [for], [with] and [except] constructs it lies in. The file with
    an [if] directly inside an [if] has cognitive complexity 3: the outer
    [if], at level 0, scores 1 and the inner one, at level 1, scores 2. *)
Theorem cognitive_complexity_nesting_weighted :
  (forall tree : node,
      CodeAnalyzer._calculate_cognitive_complexity tree = Spec.cognitive_complexity tree)
  /\ CodeAnalyzer._calculate_cognitive_complexity nested_ifs = 3
  /\ filter (fun entry => Spec.scores entry.1) (Spec.with_levels nested_ifs 0)
     = [(If (Name "x" (Other Load []))
           [If (Name "y" (Other Load [])) [Other Pass []] []] [], 0);
        (If (Name "y" (Other Load [])) [Other Pass []] [], 1)].
Proof.
  split; [|split; reflexivity].
  intros tree. unfold CodeAnalyzer._calculate_cognitive_complexity, Spec.cognitive_complexity.
  rewrite visit_node_sum. simpl. f_equal.
Qed.

End CognitiveProps.

(* ================================================================== *)
(** * Part XVIII: import records                                   *)
(* ================================================================== *)

Module ImportProps.
Import ast Notions Inputs.

(** C6, as stated, fails on both kinds of statement: [from x import a, b]
    gives one record naming both [a] and [b], not one record per name, and
    [import x.y] gives a record whose names are [["x.y"]], not the empty
    list. *)
Lemma extract_imports_not_as_specified :
  CodeAnalyzer._extract_imports from_import_file
  <> flat_map Spec.import_records (subnodes from_import_file)
  /\ CodeAnalyzer._extract_imports bare_import_file
     <> flat_map Spec.import_records (subnodes bare_import_file).
Proof. split; vm_compute; discriminate. Qed.

Lemma extract_imports_perm (tree : node) :
  CodeAnalyzer._extract_imports tree ≡ₚ flat_map records_of (subnodes tree).
Proof.
  unfold CodeAnalyzer._extract_imports. fold records_of.
  assert (forall l1 l2 : list node,
             l1 ≡ₚ l2 -> flat_map records_of l1 ≡ₚ flat_map records_of l2) as Hperm.
  { induction 1 as [|x l1 l2 _ IH|x y l|l1 l2 l3 _ IH1 _ IH2]; simpl.
    - reflexivity.
    - by rewrite IH.
    - rewrite !app_assoc. f_equiv. apply Permutation_app_comm.
    - by rewrite IH1. }
  apply Hperm, ast_facts.walk_subnodes.
Qed.

Lemma elem_of_flat_map {A B : Type} (f : A -> list B) (l : list A) (y : B) :
  y ∈ flat_map f l <-> exists x, x ∈ l /\ y ∈ f x.
Proof.
  rewrite list_elem_of_In, in_flat_map.
  split; intros (x & Hx & Hy); exists x; split; by apply list_elem_of_In.
Qed.

Lemma length_flat_map {A B : Type} (f : A -> list B) (l : list A) :
  length (flat_map f l) = list_sum (map (fun x => length (f x)) l).
Proof. induction l as [|x l IH]; simpl; [reflexivity|]. by rewrite length_app, IH. Qed.

(** C6, amended: every from-style import statement of the file gives one
    record, with the module of the statement (the empty string when the
    statement names none) and the list of all the names it imports, in
    order; every module named by a bare import statement gives one record,
    with that module and a names list holding just that module. There are no
    other records. *)
Theorem extract_imports_records (tree : node) :
  (forall module names level lineno,
      ImportFrom module names level lineno ∈ subnodes tree ->
      CodeAnalyzer.ImportInfo.mk (default EmptyString module) (map alias_name names) None
        lineno true ∈ CodeAnalyzer._extract_imports tree)
  /\ (forall names lineno a,
        Import names lineno ∈ subnodes tree -> a ∈ names ->
        CodeAnalyzer.ImportInfo.mk (alias_name a) [alias_name a] (alias_asname a)
          lineno false ∈ CodeAnalyzer._extract_imports tree)
  /\ (forall r,
        r ∈ CodeAnalyzer._extract_imports tree ->
        (exists module names level lineno,
            ImportFrom module names level lineno ∈ subnodes tree
            /\ r = CodeAnalyzer.ImportInfo.mk (default EmptyString module)
                     (map alias_name names) None lineno true)
        \/ (exists names lineno a,
              Import names lineno ∈ subnodes tree /\ a ∈ names
              /\ r = CodeAnalyzer.ImportInfo.mk (alias_name a) [alias_name a]
                       (alias_asname a) lineno false))
  /\ length (CodeAnalyzer._extract_imports tree)
     = list_sum
         (map (fun n =>
                 match n with
                 | Import names _ => length names
                 | ImportFrom _ _ _ _ => 1
                 | _ => 0
                 end)
            (subnodes tree)).
Proof.
  pose proof (extract_imports_perm tree) as Hperm.
  split; [|split; [|split]].
  - intros module names level lineno Hin. rewrite Hperm, elem_of_flat_map.
    eexists. split; [exact Hin|]. left.
  - intros names lineno a Hin Ha. rewrite Hperm, elem_of_flat_map.
    eexists. split; [exact Hin|]. simpl.
    apply list_elem_of_fmap. by exists a.
  - intros r. rewrite Hperm, elem_of_flat_map. intros (n & Hn & Hr).
    destruct n; simpl in Hr; try by inversion Hr.
    + right. apply list_elem_of_fmap in Hr as (a & -> & Ha). eauto 10.
    + left. apply list_elem_of_singleton in Hr as ->. eauto 10.
  - rewrite (Permutation_length Hperm), length_flat_map. f_equal.
    apply map_ext. intros n. destruct n; simpl; try reflexivity. apply length_map.
Qed.

(** The two files above: one record for [from x import a, b], one for
    [import x.y]. *)
Example extract_imports_examples :
  CodeAnalyzer._extract_imports from_import_file
  = [CodeAnalyzer.ImportInfo.mk "x" ["a"; "b"] None 1 true]
  /\ CodeAnalyzer._extract_imports bare_import_file
     = [CodeAnalyzer.ImportInfo.mk "x.y" ["x.y"] None 1 false].
Proof. split; reflexivity. Qed.

(** The amended statement at the file [from x import a, b]. *)
Lemma extract_imports_records_witness :
  CodeAnalyzer.ImportInfo.mk "x" ["a"; "b"] None 1 true
  ∈ CodeAnalyzer._extract_imports from_import_file.
Proof.
  apply (proj1 (extract_imports_records from_import_file) (Some "x")
           [alias "a" None; alias "b" None] 0%Z 1%Z).
  right. left.
Defined.

End ImportProps.

(* ================================================================== *)
(** * Part XIX: code smells                                        *)
(* ================================================================== *)

Module SmellProps.
Import ast Notions Inputs.

(** C9, as stated, fails: [f] has more than 5 parameters and is not
    flagged, [_detect_code_smells] counting [node.args.args] only. *)
Lemma code_smells_not_as_specified :
  ~ Spec.smells_as_specified variadic_file (CodeAnalyzer._detect_code_smells variadic_file).
Proof.
  intros [Hf _].
  specialize (Hf (FunctionDef "f"
                    (arguments []
                       [arg "a" None; arg "b" None; arg "c" None; arg "d" None; arg "e" None]
                       (Some (arg "rest" None)) [] [] None [])
                    pass_body [] None 1 (Some 1%Z))).
  destruct Hf as [Hf _]; [vm_compute; right; left | reflexivity |].
  destruct Hf as (count & line & Hin); [simpl; lia|].
  vm_compute in Hin. inversion Hin.
Qed.

Lemma detect_code_smells_perm (tree : node) :
  CodeAnalyzer._detect_code_smells tree ≡ₚ flat_map smells_of (subnodes tree).
Proof.
  unfold CodeAnalyzer._detect_code_smells. fold smells_of.
  assert (forall l1 l2 : list node,
             l1 ≡ₚ l2 -> flat_map smells_of l1 ≡ₚ flat_map smells_of l2) as Hperm.
  { induction 1 as [|x l1 l2 _ IH|x y l|l1 l2 l3 _ IH1 _ IH2]; simpl.
    - reflexivity.
    - by rewrite IH.
    - rewrite !app_assoc. f_equiv. apply Permutation_app_comm.
    - by rewrite IH1. }
  apply Hperm, ast_facts.walk_subnodes.
Qed.

Lemma class_free_no_large_class (l : list node) :
  Forall (fun x => isinstance x [cls.ClassDef] = false) l ->
  filter (fun s => is_large_class s) (flat_map smells_of l) = [].
Proof.
  induction 1 as [|x l Hx _ IH]; simpl; [reflexivity|].
  rewrite filter_app, IH, app_nil_r.
  destruct x; try reflexivity; try discriminate.
  simpl. by destruct (5 <? _)%nat.
Qed.

Lemma class_free_nodes (l : list node) :
  Forall class_free l ->
  Forall (fun x => isinstance x [cls.ClassDef] = false) (flat_map subnodes l).
Proof.
  induction 1 as [|x l Hx _ IH]; simpl; [constructor|]. by apply Forall_app.
Qed.

(** C9, amended: the report holds a long-parameter-list entry exactly for the
    plain (not [async]) function definitions of the file whose positional
    parameter list [args.args] has more than 5 entries, with that count, and
    a large-class entry exactly for the classes whose body directly holds
    more than 20 plain function definitions, with that count; it holds
    nothing else. A file made of one class with 25 plain methods, and no
    other class inside it, gets exactly one large-class entry, with the name
    of the class and the method count 25. *)
Theorem code_smells_flagged :
  (forall (tree : node) (s : CodeAnalyzer.smell),
      s ∈ CodeAnalyzer._detect_code_smells tree
      <-> (exists name a body decorator_list returns lineno end_lineno,
              FunctionDef name a body decorator_list returns lineno end_lineno
                ∈ subnodes tree
              /\ 5 < length (arguments_args a)
              /\ s = CodeAnalyzer.long_parameter_list name (length (arguments_args a)) lineno)
          \/ (exists name bases keywords body decorator_list lineno end_lineno,
                ClassDef name bases keywords body decorator_list lineno end_lineno
                  ∈ subnodes tree
                /\ 20 < length (filter (fun item => isinstance item [cls.FunctionDef]) body)
                /\ s = CodeAnalyzer.large_class name
                         (length (filter (fun item => isinstance item [cls.FunctionDef]) body))
                         lineno))
  /\ (forall (name : string) (bases keywords body decorator_list : list node)
            (lineno : Z) (end_lineno : option Z),
        length body = 25 ->
        Forall (fun item => isinstance item [cls.FunctionDef] = true) body ->
        Forall class_free (bases ++ keywords ++ body ++ decorator_list) ->
        filter (fun s => is_large_class s)
          (CodeAnalyzer._detect_code_smells
             (Module_ [ClassDef name bases keywords body decorator_list lineno end_lineno]))
        = [CodeAnalyzer.large_class name 25 lineno]).
Proof.
  split.
  - intros tree s. rewrite detect_code_smells_perm, ImportProps.elem_of_flat_map. split.
    + intros (n & Hn & Hs). destruct n; simpl in Hs; try by inversion Hs.
      * left. destruct (5 <? _)%nat eqn:E; [|by inversion Hs].
        apply Nat.ltb_lt in E. apply list_elem_of_singleton in Hs as ->. eauto 12.
      * right. destruct (20 <? _)%nat eqn:E; [|by inversion Hs].
        apply Nat.ltb_lt in E. apply list_elem_of_singleton in Hs as ->. eauto 12.
    + intros [(name & a & body & ds & r & l & e & Hin & Hlen & ->)
             |(name & bs & ks & body & ds & l & e & Hin & Hlen & ->)];
        (eexists; split; [exact Hin|]); simpl.
      * apply Nat.ltb_lt in Hlen. rewrite Hlen. left.
      * apply Nat.ltb_lt in Hlen. rewrite Hlen. left.
  - intros name bases keywords body decorator_list lineno end_lineno Hlen Hdefs Hfree.
    set (class_ := ClassDef name bases keywords body decorator_list lineno end_lineno).
    assert (filter (fun s => is_large_class s) (flat_map smells_of (subnodes (Module_ [class_])))
            = [CodeAnalyzer.large_class name 25 lineno]) as Hsub.
    { rewrite (ast_facts.subnodes_unfold (Module_ [class_])).
      cbn [iter_child_nodes flat_map]. rewrite app_nil_r.
      rewrite (ast_facts.subnodes_unfold class_). subst class_.
      cbn [iter_child_nodes flat_map smells_of app].
      assert (length (filter (fun item => isinstance item [cls.FunctionDef]) body) = 25) as ->.
      { rewrite <- Hlen. f_equal. clear Hlen Hfree.
        induction Hdefs as [|x l Hx _ IH]; [reflexivity|].
        rewrite filter_cons. simpl in Hx. rewrite Hx. simpl. by rewrite IH. }
      change (20 <? 25)%nat with true. cbn [app]. rewrite filter_cons. cbn [is_large_class].
      f_equal. apply class_free_no_large_class, class_free_nodes, Hfree. }
    apply Permutation_singleton_r. rewrite <- Hsub.
    apply filter_Permutation, detect_code_smells_perm.
Qed.

Example code_smells_class_of_25 :
  CodeAnalyzer._detect_code_smells class_of_25_methods = [CodeAnalyzer.large_class "Big" 25 1].
Proof. vm_compute. reflexivity. Qed.

(** The amended statement at the file of one class with 25 methods. *)
Lemma code_smells_flagged_witness :
  filter (fun s => is_large_class s) (CodeAnalyzer._detect_code_smells class_of_25_methods)
  = [CodeAnalyzer.large_class "Big" 25 1].
Proof.
  apply (proj2 code_smells_flagged "Big" [] [] (map method (seq 0 25)) [] 1%Z None).
  - reflexivity.
  - vm_compute. repeat constructor.
  - vm_compute. repeat constructor.
Defined.

End SmellProps.

(* ================================================================== *)
(** * Part XX: the call graph of a file                            *)
(* ================================================================== *)

Module CallGraphProps.
Import ast FunctionExtractor Notions Inputs.

Lemma for_each_invariant {A S : Type} (I : S -> Prop) (xs : list A)
  (body : A -> S -> py.result S) (s s' : S) :
  (forall x s1 s2, I s1 -> body x s1 = py.Val s2 -> I s2) ->
  I s -> py.for_each xs body s = py.Val s' -> I s'.
Proof.
  intros Hbody. revert s. induction xs as [|x xs IH]; intros s Hs; simpl.
  - by intros [= <-].
  - destruct (body x s) as [s1| |] eqn:Hx; simpl; [|discriminate..].
    apply IH. by apply (Hbody x s).
Qed.

Section with_library.
Context (unparse : node -> string) (cleandoc : string -> string) (str : node -> string).

Lemma documentation_fresh (n : node) (d : FunctionDocumentation.t) :
  _extract_function_documentation unparse cleandoc str n = py.Val d ->
  fresh_doc (func_name d) d.
Proof.
  unfold _extract_function_documentation.
  destruct (_extract_signature unparse str n) as [sig| |]; simpl; [|discriminate..].
  destruct (match n with
            | FunctionDef _ _ _ _ _ lineno end_lineno
            | AsyncFunctionDef _ _ _ _ _ lineno end_lineno => (lineno, end_lineno)
            | _ => (0%Z, None)
            end) as [lineno end_lineno].
  intros [= <-]. repeat split. simpl. unfold _extract_function_calls, py.list_set.
  apply NoDup_elements.
Qed.

Lemma collected_functions_fresh (nodes : list node)
  (functions : list (string * FunctionDocumentation.t)) :
  py.for_each nodes
    (fun n functions =>
       if isinstance n [cls.FunctionDef; cls.AsyncFunctionDef] then
         py.bind (_extract_function_documentation unparse cleandoc str n)
           (fun func_doc => py.Val (pydict.set functions (func_name func_doc) func_doc))
       else py.Val functions)
    [] = py.Val functions ->
  fresh_functions functions.
Proof.
  apply for_each_invariant.
  - intros n fs1 fs2 [Hnd Hfresh].
    destruct (isinstance n _); [|by intros [= <-]].
    destruct (_extract_function_documentation unparse cleandoc str n) as [d| |] eqn:Hd;
      simpl; [|discriminate..].
    intros [= <-]. split; [by apply pydict_facts.keys_set_NoDup|].
    intros k d'. destruct (decide (func_name d = k)) as [<-|Hne].
    + rewrite pydict_facts.get_set_eq. intros [= <-]. by apply documentation_fresh with n.
    + rewrite pydict_facts.get_set_ne by assumption. apply Hfresh.
  - split; [constructor|]. intros k d. discriminate.
Qed.

Lemma build_call_graph_link (functions : list (string * FunctionDocumentation.t)) :
  _build_call_graph functions
  = fold_left (Notions.link_all FunctionDocumentation.calls_made add_caller)
      (pydict.keys functions) functions.
Proof. reflexivity. Qed.

(** The dict after [_build_call_graph], entry by entry. *)
Lemma built_call_graph_entry (functions : list (string * FunctionDocumentation.t))
  (k : string) (d : FunctionDocumentation.t) :
  fresh_functions functions ->
  pydict.get (_build_call_graph functions) k = Some d ->
  exists d0,
    pydict.get functions k = Some d0
    /\ func_name d = k
    /\ FunctionDocumentation.calls_made d = FunctionDocumentation.calls_made d0
    /\ NoDup (FunctionDocumentation.calls_made d0)
    /\ FunctionDocumentation.called_by d =
         flat_map
           (fun caller =>
              repeat caller
                (Notions.occurrences k
                   (Notions.out_of FunctionDocumentation.calls_made functions caller)))
           (pydict.keys functions).
Proof.
  intros [Hnd Hfresh].
  rewrite build_call_graph_link,
    (pydict_facts.get_transposed FunctionDocumentation.calls_made add_caller) by reflexivity.
  destruct (pydict.get functions k) as [d0|] eqn:Hk; simpl; [|discriminate].
  intros [= <-]. exists d0. destruct (Hfresh k d0 Hk) as (Hname & Hcalled & Hcalls).
  repeat split.
  - unfold func_name.
    rewrite (pydict_facts.linked_frame FunctionDocumentation.calls_made add_caller
               FunctionDocumentation.signature) by reflexivity.
    symmetry. exact Hname.
  - by apply pydict_facts.linked_frame.
  - exact Hcalls.
  - rewrite (pydict_facts.linked_appended FunctionDocumentation.calls_made add_caller
               FunctionDocumentation.called_by) by reflexivity.
    by rewrite Hcalled.
Qed.

(** C10: in the dict returned by [extract_from_file], the name of [f] is in
    [g.called_by] exactly when the name of [g] is in [f.calls_made]; every
    name in a [called_by] list is a key of the dict; and no [called_by] list
    names a caller twice. *)
Theorem call_graph_transposed (file_path : string) (parse : parsed)
  (functions : list (string * FunctionDocumentation.t)) :
  extract_from_file unparse cleandoc str file_path parse = py.Val functions ->
  (forall kf f kg g,
      (kf, f) ∈ functions -> (kg, g) ∈ functions ->
      (func_name f ∈ FunctionDocumentation.called_by g
       <-> func_name g ∈ FunctionDocumentation.calls_made f))
  /\ (forall kg g caller,
        (kg, g) ∈ functions -> caller ∈ FunctionDocumentation.called_by g ->
        caller ∈ pydict.keys functions)
  /\ (forall kg g, (kg, g) ∈ functions -> NoDup (FunctionDocumentation.called_by g)).
Proof.
  unfold extract_from_file. destruct parse as [e|body]; [discriminate|].
  match goal with |- context [py.for_each ?xs ?f []] =>
    destruct (py.for_each xs f []) as [fs| |] eqn:Hfs; simpl; [|discriminate..]
  end.
  intros [= <-].
  pose proof (collected_functions_fresh _ _ Hfs) as Hfresh.
  assert (NoDup (pydict.keys (_build_call_graph fs))) as Hnd.
  { rewrite build_call_graph_link, pydict_facts.keys_transposed. apply Hfresh. }
  assert (pydict.keys (_build_call_graph fs) = pydict.keys fs) as Hkeys
    by (rewrite build_call_graph_link; apply pydict_facts.keys_transposed).
  assert (forall k d, (k, d) ∈ _build_call_graph fs ->
            exists d0,
              pydict.get fs k = Some d0
              /\ func_name d = k
              /\ FunctionDocumentation.calls_made d = FunctionDocumentation.calls_made d0
              /\ NoDup (FunctionDocumentation.calls_made d0)
              /\ FunctionDocumentation.called_by d =
                   flat_map
                     (fun caller =>
                        repeat caller
                          (Notions.occurrences k
                             (Notions.out_of FunctionDocumentation.calls_made fs caller)))
                     (pydict.keys fs)) as Hentry.
  { intros k d Hin. apply built_call_graph_entry; [exact Hfresh|].
    by apply pydict_facts.elem_of_get. }
  split; [|split].
  - intros kf f kg g Hf Hg.
    destruct (Hentry kf f Hf) as (f0 & Hf0 & Hfname & Hfcalls & _ & _).
    destruct (Hentry kg g Hg) as (g0 & _ & Hgname & _ & _ & Hgcalled).
    rewrite Hgcalled, pydict_facts.elem_of_appended, pydict_facts.occurrences_pos.
    rewrite Hfname, Hgname, Hfcalls. unfold Notions.out_of. rewrite Hf0.
    split; [tauto|]. intros H. split; [|exact H].
    apply pydict_facts.get_Some_keys. eauto.
  - intros kg g caller Hg Hcaller.
    destruct (Hentry kg g Hg) as (g0 & _ & _ & _ & _ & Hgcalled).
    rewrite Hgcalled in Hcaller. apply pydict_facts.elem_of_appended in Hcaller as [H _].
    by rewrite Hkeys.
  - intros kg g Hg.
    destruct (Hentry kg g Hg) as (g0 & _ & _ & _ & _ & ->).
    apply pydict_facts.NoDup_appended; [apply Hfresh|].
    intros caller. apply pydict_facts.occurrences_NoDup.
    unfold Notions.out_of.
    destruct (pydict.get fs caller) as [c0|] eqn:Hc; [|constructor].
    destruct Hfresh as [_ Hfresh]. by destruct (Hfresh caller c0 Hc) as (_ & _ & ?).
Qed.

End with_library.

Lemma call_graph_transposed_witness :
  (forall kf f kg g,
      (kf, f) ∈ three_functions_documented -> (kg, g) ∈ three_functions_documented ->
      (func_name f ∈ FunctionDocumentation.called_by g
       <-> func_name g ∈ FunctionDocumentation.calls_made f))
  /\ (forall kg g caller,
        (kg, g) ∈ three_functions_documented ->
        caller ∈ FunctionDocumentation.called_by g ->
        caller ∈ pydict.keys three_functions_documented)
  /\ (forall kg g,
        (kg, g) ∈ three_functions_documented -> NoDup (FunctionDocumentation.called_by g)).
Proof.
  apply (call_graph_transposed (fun _ => "") (fun text => text) (fun _ => "") "three.py"
           three_functions).
  vm_compute. reflexivity.
Defined.

Example three_functions_called_by :
  map (fun '(k, d) => (k, FunctionDocumentation.called_by d)) three_functions_documented
  = [("first", ["second"]); ("second", ["first"]); ("third", [])].
Proof. reflexivity. Qed.

End CallGraphProps.

(* ================================================================== *)
(** * Part XXI: sorting and slicing                                   *)
(* ================================================================== *)

Module py_sorting.

Section sorted_reverse.
Context {A : Type} (key : A -> nat).

Lemma insert_reverse_perm (x : A) (l : list A) : py.insert_reverse key x l ≡ₚ x :: l.
Proof.
  induction l as [|y l IH]; simpl; [reflexivity|].
  destruct (key x <? key y)%nat; [|reflexivity].
  rewrite IH. apply perm_swap.
Qed.

Lemma sorted_reverse_perm (l : list A) : py.sorted_reverse key l ≡ₚ l.
Proof.
  induction l as [|x l IH]; simpl; [reflexivity|].
  unfold py.sorted_reverse in *. simpl. by rewrite insert_reverse_perm, IH.
Qed.

Lemma insert_reverse_sorted (x : A) (l : list A) :
  StronglySorted (fun a b => key b <= key a) l ->
  StronglySorted (fun a b => key b <= key a) (py.insert_reverse key x l).
Proof.
  induction l as [|y l IH]; intros Hs; simpl; [repeat constructor|].
  apply StronglySorted_inv in Hs as [Hs Hy].
  destruct (key x <? key y)%nat eqn:Hxy.
  - apply Nat.ltb_lt in Hxy. constructor; [by apply IH|].
    rewrite insert_reverse_perm. constructor; [lia|exact Hy].
  - apply Nat.ltb_ge in Hxy. constructor; [by constructor|].
    constructor; [exact Hxy|]. eapply Forall_impl; [exact Hy|]. simpl. intros. lia.
Qed.

(** [sorted(xs, key=key, reverse=True)] is a rearrangement of [xs] in which
    the keys never increase. *)
Lemma sorted_reverse_sorted (l : list A) :
  StronglySorted (fun a b => key b <= key a) (py.sorted_reverse key l).
Proof.
  induction l as [|x l IH]; [constructor|].
  unfold py.sorted_reverse in *. simpl. by apply insert_reverse_sorted.
Qed.

End sorted_reverse.

Lemma slice_to_nat {A : Type} (xs : list A) (n : nat) : py.slice_to xs (Z.of_nat n) = take n xs.
Proof.
  unfold py.slice_to. rewrite (proj2 (Z.ltb_ge _ _)) by lia. by rewrite Nat2Z.id.
Qed.

End py_sorting.

(* ================================================================== *)
(** * Part XXII: the lines of a file                                  *)
(* ================================================================== *)

Module LineProps.
Import ast.

Section with_strip.
Context (strip : string -> string).

(** One line is counted by exactly one of the three counters. *)
Lemma line_kinds (acc_code acc_comment : nat) (lines : list string) :
  fold_left
    (fun code_lines line =>
       if CodeAnalyzer.is_code (strip line) then code_lines + 1 else code_lines)
    lines acc_code
  + fold_left
      (fun comment_lines line =>
         if py.startswith (strip line) "#" then comment_lines + 1 else comment_lines)
      lines acc_comment
  + list_sum
      (flat_map (fun line => if bool_decide (strip line = EmptyString) then [1] else [])
         lines)
  = acc_code + acc_comment + length lines.
Proof.
  unfold CodeAnalyzer.is_code. revert acc_code acc_comment.
  induction lines as [|line lines IH]; intros acc_code acc_comment; simpl; [lia|].
  destruct (strip line) as [|c rest] eqn:Hs.
  - rewrite bool_decide_eq_true_2 by reflexivity. simpl.
    specialize (IH acc_code acc_comment). lia.
  - rewrite bool_decide_eq_false_2 by discriminate.
    destruct (py.startswith (String c rest) "#"); simpl.
    + specialize (IH acc_code (acc_comment + 1)). lia.
    + specialize (IH (acc_code + 1) acc_comment). lia.
Qed.

(** X1: every line of a text is a code line, a comment line or a blank line,
    and only one of these: the three counts of [analyze_file] add up to its
    ['line_count'], whatever [str.strip] removes. *)
Theorem line_counts_add_up (content : string) :
  CodeAnalyzer._count_code_lines strip content
  + CodeAnalyzer._count_comment_lines strip content
  + CodeAnalyzer._count_blank_lines strip content
  = length (py.split "010" content)
  /\ 1 <= length (py.split "010" content).
Proof.
  split.
  - unfold CodeAnalyzer._count_code_lines, CodeAnalyzer._count_comment_lines,
      CodeAnalyzer._count_blank_lines.
    by rewrite line_kinds.
  - induction content as [|c rest IH]; simpl; [lia|].
    destruct (Ascii.eqb c "010"); simpl; [lia|].
    destruct (py.split "010" rest); simpl in *; lia.
Qed.

End with_strip.
End LineProps.

(* ================================================================== *)
(** * Part XXIII: global variables and constants                      *)
(* ================================================================== *)

Module VariableProps.
Import ast.

(** X2: [_extract_constants] returns the entries of
    [_extract_global_variables] whose name is upper case, in the same order
    and with the same name, type and line number; only the ['is_constant']
    key is left out. Both walk the whole tree: an assignment inside a
    function or a class counts as well. *)
Theorem constants_are_the_uppercase_globals (tree : node) :
  CodeAnalyzer._extract_constants tree
  = map (fun v => CodeAnalyzer.Variable_.mk (CodeAnalyzer.Variable_.name v)
                    (CodeAnalyzer.Variable_.type_ v) (CodeAnalyzer.Variable_.line_number v)
                    None)
      (filter (fun v => CodeAnalyzer.Variable_.is_constant v = Some true)
         (CodeAnalyzer._extract_global_variables tree))
  /\ forall v, v ∈ CodeAnalyzer._extract_global_variables tree ->
       CodeAnalyzer.Variable_.is_constant v
       = Some (py.isupper (CodeAnalyzer.Variable_.name v)).
Proof.
  unfold CodeAnalyzer._extract_constants, CodeAnalyzer._extract_global_variables.
  split.
  - induction (walk tree) as [|n nodes IH]; [reflexivity|].
    cbn [flat_map]. rewrite filter_app, map_app, <- IH. f_equal.
    destruct n as [| | | | | | | | | | | | | | | | | | | |target1 ? ? ?| |]; try reflexivity.
    destruct target1; try reflexivity.
    match goal with |- context [py.isupper ?x] => destruct (py.isupper x) eqn:Hup end.
    + rewrite filter_cons_True by reflexivity. reflexivity.
    + rewrite filter_cons_False by discriminate. reflexivity.
  - intros v Hv. apply ImportProps.elem_of_flat_map in Hv as (n & _ & Hv).
    destruct n as [| | | | | | | | | | | | | | | | | | | |target1 ? ? ?| |];
      try (by inversion Hv).
    destruct target1; try (by inversion Hv).
    apply list_elem_of_singleton in Hv as ->. reflexivity.
Qed.

End VariableProps.

(* ================================================================== *)
(** * Part XXIV: the nesting depth                                    *)
(* ================================================================== *)

Module DepthProps.
Import Notions ast.

Lemma visit_depth_unfold (n : node) (depth max_depth : nat) :
  CodeAnalyzer.visit_depth n depth max_depth
  = fold_left
      (fun max_depth child =>
         CodeAnalyzer.visit_depth child (if deepens n then depth + 1 else depth) max_depth)
      (iter_child_nodes n)
      (Nat.max max_depth depth).
Proof.
  unfold CodeAnalyzer.visit_depth at 1. rewrite ast_facts.tree_rec_unfold.
  fold CodeAnalyzer.visit_depth. unfold deepens.
  generalize (if isinstance n [cls.If; cls.While; cls.For; cls.With; cls.FunctionDef;
                               cls.ClassDef] then depth + 1 else depth).
  intros depth'. generalize (Nat.max max_depth depth).
  induction (iter_child_nodes n) as [|x l IH]; intros acc; simpl; [reflexivity|apply IH].
Qed.

Lemma with_depths_unfold (n : node) (depth : nat) :
  with_depths n depth
  = (n, depth)
    :: flat_map (fun child => with_depths child (if deepens n then depth + 1 else depth))
         (iter_child_nodes n).
Proof.
  unfold with_depths at 1. rewrite ast_facts.tree_rec_unfold.
  fold with_depths. f_equal.
  induction (iter_child_nodes n) as [|c cs IH]; simpl; [reflexivity|]. by rewrite IH.
Qed.

Lemma max_list_app (l1 l2 : list nat) :
  max_list (l1 ++ l2) = Nat.max (max_list l1) (max_list l2).
Proof. induction l1 as [|x l1 IH]; simpl; [reflexivity|]. rewrite IH. lia. Qed.

(** The walk of [visit_node] keeps the largest depth it meets. *)
Lemma visit_depth_max (n : node) :
  forall depth max_depth,
    CodeAnalyzer.visit_depth n depth max_depth
    = Nat.max max_depth (max_list (with_depths n depth).*2).
Proof.
  induction n as [n IH] using ast_facts.node_children_ind. intros depth max_depth.
  rewrite visit_depth_unfold, with_depths_unfold. cbn [fmap list_fmap snd max_list_with id].
  generalize (if deepens n then depth + 1 else depth). intros depth'.
  assert (forall acc,
             fold_left (fun m child => CodeAnalyzer.visit_depth child depth' m)
               (iter_child_nodes n) acc
             = Nat.max acc
                 (max_list (flat_map (fun child => with_depths child depth')
                              (iter_child_nodes n)).*2)) as Hchildren.
  { induction (iter_child_nodes n) as [|c cs IHcs]; intros acc; simpl; [lia|].
    rewrite IH by left. rewrite IHcs by (intros c' Hc'; apply IH; by right).
    rewrite fmap_app, max_list_app. lia. }
  rewrite Hchildren. simpl. lia.
Qed.

(** The nodes listed by [with_depths] are the nodes of the tree. *)
Lemma with_depths_nodes (n : node) : forall depth, (with_depths n depth).*1 = subnodes n.
Proof.
  induction n as [n IH] using ast_facts.node_children_ind. intros depth.
  rewrite with_depths_unfold, ast_facts.subnodes_unfold. cbn [fmap list_fmap fst]. f_equal.
  generalize (if deepens n then depth + 1 else depth). intros depth'.
  induction (iter_child_nodes n) as [|c cs IHcs]; simpl; [reflexivity|].
  rewrite fmap_app, IH by left. f_equal. apply IHcs. intros c' Hc'. apply IH. by right.
Qed.

(** No node lies deeper than there are deepening constructs in the tree. *)
Lemma with_depths_bound (n : node) :
  forall depth x d,
    (x, d) ∈ with_depths n depth ->
    depth <= d /\ d <= depth + length (filter (fun c => deepens c) (subnodes n)).
Proof.
  induction n as [n IH] using ast_facts.node_children_ind. intros depth x d.
  rewrite with_depths_unfold, ast_facts.subnodes_unfold.
  intros Hin. apply elem_of_cons in Hin as [[= -> ->]|Hin]; [lia|].
  apply ImportProps.elem_of_flat_map in Hin as (c & Hc & Hin).
  destruct (IH c Hc _ _ _ Hin) as [Hlo Hhi].
  assert (length (filter (fun c => deepens c) (subnodes c))
          <= length (filter (fun c => deepens c) (flat_map subnodes (iter_child_nodes n))))
    as Hsub.
  { clear -Hc. induction (iter_child_nodes n) as [|c' cs IHcs]; [inversion Hc|].
    simpl. rewrite filter_app, length_app.
    apply elem_of_cons in Hc as [->|Hc]; [lia|]. specialize (IHcs Hc). lia. }
  destruct (deepens n) eqn:Hn.
  - rewrite filter_cons_True by (simpl; by rewrite Hn). simpl. lia.
  - rewrite filter_cons_False by (simpl; rewrite Hn; tauto). lia.
Qed.

(** X3: the nesting depth that [_calculate_max_nesting_depth] reports is the
    largest depth of a node of the tree, where the depth of a node is the
    number of [if], [while], [for], [with], [def] and [class] constructs it
    lies in ([async def], [async for], [async with] and [try] do not add to
    it). It is never more than the number of these constructs in the tree. *)
Theorem max_nesting_depth_is_deepest_node (tree : node) :
  CodeAnalyzer._calculate_max_nesting_depth tree = max_list (with_depths tree 0).*2
  /\ (with_depths tree 0).*1 = subnodes tree
  /\ CodeAnalyzer._calculate_max_nesting_depth tree
     <= length (filter (fun c => deepens c) (subnodes tree)).
Proof.
  assert (CodeAnalyzer._calculate_max_nesting_depth tree = max_list (with_depths tree 0).*2)
    as Hmax.
  { unfold CodeAnalyzer._calculate_max_nesting_depth. rewrite visit_depth_max. lia. }
  split; [exact Hmax|]. split; [apply with_depths_nodes|].
  rewrite Hmax.
  assert (forall l : list (node * nat),
             (forall x d, (x, d) ∈ l -> d <= length (filter (fun c => deepens c) (subnodes tree))) ->
             max_list l.*2 <= length (filter (fun c => deepens c) (subnodes tree))) as Hle.
  { induction l as [|[x d] l IHl]; intros Hl; simpl; [lia|].
    apply Nat.max_lub; [apply (Hl x d); left|apply IHl; intros x' d' H; apply (Hl x' d'); by right]. }
  apply Hle. intros x d Hin. by destruct (with_depths_bound tree 0 x d Hin).
Qed.

End DepthProps.

(* ================================================================== *)
(** * Part XXV: calls and imported modules of a file                  *)
(* ================================================================== *)

Module DependencyProps.
Import ast CodeAnalyzer.

Lemma record_import_fold (nodes : list node) (d : Dependencies.t) :
  let d' := fold_left record_import nodes d in
  Dependencies.internal_calls d' = Dependencies.internal_calls d
  /\ Dependencies.external_calls d' = Dependencies.external_calls d
  /\ Dependencies.imported_modules d'
     = Dependencies.imported_modules d
       ++ flat_map
            (fun n =>
               match n with
               | Import names _ => map alias_name names
               | ImportFrom (Some module) _ _ _ =>
                   if decide (module = EmptyString) then [] else [module]
               | _ => []
               end)
            nodes.
Proof.
  revert d. induction nodes as [|n nodes IH]; intros d; simpl.
  - by rewrite app_nil_r.
  - destruct (IH (record_import d n)) as (Hi & He & Hm). rewrite Hi, He, Hm. clear.
    destruct n; simpl; rewrite ?app_nil_r; try done.
    + by rewrite app_assoc.
    + destruct module as [module|]; simpl; [|done].
      destruct (decide (module = "")); simpl; [done|]. by rewrite <- app_assoc.
Qed.

Lemma record_call_fold (nodes : list node) (d : Dependencies.t) :
  let d' := fold_left record_call nodes d in
  Dependencies.internal_calls d'
  = Dependencies.internal_calls d
    ++ flat_map
         (fun n =>
            match n with
            | Call (Name f _) _ _ _ => if bool_decide (f ∈ builtin_functions) then [] else [f]
            | _ => []
            end)
         nodes
  /\ Dependencies.external_calls d'
     = Dependencies.external_calls d
       ++ flat_map
            (fun n =>
               match n with
               | Call (Name f _) _ _ _ =>
                   if bool_decide (f ∈ builtin_functions) then [f] else []
               | Call (Attribute _ attr _) _ _ _ => [attr]
               | _ => []
               end)
            nodes
  /\ Dependencies.imported_modules d' = Dependencies.imported_modules d.
Proof.
  revert d. induction nodes as [|n nodes IH]; intros d; simpl.
  - by rewrite !app_nil_r.
  - destruct (IH (record_call d n)) as (Hi & He & Hm). rewrite Hi, He, Hm. clear.
    destruct n; simpl; try done.
    destruct n; simpl; try done.
    + destruct (bool_decide (id ∈ builtin_functions)); simpl; by rewrite <- ?app_assoc.
    + by rewrite <- app_assoc.
Qed.

(** X4: in the dict of [_extract_dependencies], every call whose callee is a
    plain name or an attribute is listed once, under ['internal_calls'] or
    under ['external_calls']; no name of [builtin_functions] is listed as
    internal; the callee of a method-style call [x.f(...)] is always listed
    as external, also for [self.f(...)]; and ['imported_modules'] holds the
    module of every record of [_extract_imports], in order, except for the
    from-imports that name no module. *)
Theorem calls_are_internal_or_external (tree : node) :
  let d := _extract_dependencies tree in
  length (Dependencies.internal_calls d) + length (Dependencies.external_calls d)
  = length (flat_map call_name (walk tree))
  /\ (forall f, f ∈ Dependencies.internal_calls d ->
        (f ∉ builtin_functions)
        /\ exists ctx args keywords lineno, Call (Name f ctx) args keywords lineno ∈ walk tree)
  /\ (forall value attr ctx args keywords lineno,
        Call (Attribute value attr ctx) args keywords lineno ∈ walk tree ->
        attr ∈ Dependencies.external_calls d)
  /\ Dependencies.imported_modules d
     = flat_map
         (fun r =>
            if ImportInfo.is_from_import r && bool_decide (ImportInfo.module r = EmptyString)
            then [] else [ImportInfo.module r])
         (_extract_imports tree).
Proof.
  intros d. unfold d, _extract_dependencies.
  destruct (record_call_fold (walk tree)
              (fold_left record_import (walk tree) (Dependencies.mk [] [] [])))
    as (Hi & He & Hm).
  destruct (record_import_fold (walk tree) (Dependencies.mk [] [] [])) as (Hi0 & He0 & Hm0).
  rewrite Hi, He, Hm, Hi0, He0, Hm0. cbn [Dependencies.internal_calls
    Dependencies.external_calls Dependencies.imported_modules app].
  clear Hi He Hm Hi0 He0 Hm0 d.
  split; [|split; [|split]].
  - induction (walk tree) as [|n nodes IH]; [reflexivity|].
    cbn [flat_map]. rewrite !length_app. rewrite <- IH. clear.
    destruct n; simpl; try lia. destruct n; simpl; try lia.
    destruct (bool_decide (id ∈ builtin_functions)); simpl; lia.
  - intros f Hf. apply ImportProps.elem_of_flat_map in Hf as (n & Hn & Hf).
    destruct n; try (by inversion Hf). destruct n; try (by inversion Hf).
    destruct (bool_decide (id ∈ builtin_functions)) eqn:Hb; [by inversion Hf|].
    apply list_elem_of_singleton in Hf as ->. split.
    + by apply bool_decide_eq_false in Hb.
    + do 4 eexists. exact Hn.
  - intros value attr ctx args keywords lineno Hin.
    apply ImportProps.elem_of_flat_map. eexists. split; [exact Hin|]. simpl. left.
  - unfold _extract_imports. induction (walk tree) as [|n nodes IH]; [reflexivity|].
    cbn [flat_map]. rewrite flat_map_app, <- IH. f_equal. clear.
    destruct n; simpl; try done.
    + induction names as [|a names IHn]; simpl; [reflexivity|]. by rewrite IHn.
    + destruct module as [module|]; simpl; [|reflexivity].
      destruct (decide (module = "")) as [->|Hne]; simpl; [reflexivity|].
      by rewrite bool_decide_eq_false_2.
Qed.

End DependencyProps.

(* ================================================================== *)
(** * Part XXVI: docstring coverage                                   *)
(* ================================================================== *)

Module CoverageProps.
Import ast CodeAnalyzer.

Section with_coverage.
Context (cleandoc : string -> string) (round : Q -> Z -> Q).

Lemma coverage_loop (nodes : list node) (tf df tc dc : nat) :
  fold_left
    (fun '(total_functions, documented_functions, total_classes, documented_classes) n =>
       if isinstance n [cls.FunctionDef] then
         (total_functions + 1,
          if has_docstring cleandoc n then documented_functions + 1 else documented_functions,
          total_classes, documented_classes)
       else if isinstance n [cls.ClassDef] then
         (total_functions, documented_functions, total_classes + 1,
          if has_docstring cleandoc n then documented_classes + 1 else documented_classes)
       else (total_functions, documented_functions, total_classes, documented_classes))
    nodes (tf, df, tc, dc)
  = (tf + length (filter (fun n => isinstance n [cls.FunctionDef]) nodes),
     df + length (filter (fun n => isinstance n [cls.FunctionDef] && has_docstring cleandoc n)
                    nodes),
     tc + length (filter (fun n => isinstance n [cls.ClassDef]) nodes),
     dc + length (filter (fun n => isinstance n [cls.ClassDef] && has_docstring cleandoc n)
                    nodes)).
Proof.
  revert tf df tc dc. induction nodes as [|n nodes IH]; intros tf df tc dc; simpl.
  - by rewrite !Nat.add_0_r.
  - assert (isinstance n [cls.FunctionDef] = true -> isinstance n [cls.ClassDef] = false)
      as Hfc by (destruct n; done).
    destruct (isinstance n [cls.FunctionDef]) eqn:Hf;
      [pose proof (Hfc eq_refl) as Hc|destruct (isinstance n [cls.ClassDef]) eqn:Hc];
      destruct (has_docstring cleandoc n) eqn:Hd; rewrite IH;
      repeat first
        [ rewrite filter_cons_True by (cbv beta; rewrite ?Hf, ?Hc, ?Hd; done)
        | rewrite filter_cons_False by (cbv beta; rewrite ?Hf, ?Hc, ?Hd; simpl; tauto) ];
      simpl; repeat match goal with |- (_, _) = (_, _) => f_equal end; lia.
Qed.

Lemma filter_length_le {A : Type} (p q : A -> bool) (l : list A) :
  (forall x, q x = true -> p x = true) ->
  length (filter (fun x => q x) l) <= length (filter (fun x => p x) l).
Proof.
  intros Hpq. induction l as [|x l IH]; simpl; [lia|].
  destruct (q x) eqn:Hq.
  - rewrite filter_cons_True by (by rewrite Hq).
    rewrite filter_cons_True by (by rewrite (Hpq x Hq)). simpl. lia.
  - rewrite filter_cons_False by (rewrite Hq; tauto).
    destruct (p x) eqn:Hp.
    + rewrite filter_cons_True by (by rewrite Hp). simpl. lia.
    + rewrite filter_cons_False by (rewrite Hp; tauto). lia.
Qed.

Lemma coverage_bounds (documented total : nat) :
  documented <= total ->
  (0 <= coverage documented total)%Q /\ (coverage documented total <= 100)%Q.
Proof.
  intros Hle. unfold coverage. destruct (0 <? total)%nat eqn:Ht; [|split; discriminate].
  apply Nat.ltb_lt in Ht.
  assert (0 < inject_Z (Z.of_nat total))%Q as Hpos
    by (change 0%Q with (inject_Z 0); rewrite <- Zlt_Qlt; lia).
  assert (0 <= inject_Z (Z.of_nat documented))%Q as Hnn
    by (change 0%Q with (inject_Z 0); rewrite <- Zle_Qle; lia).
  assert (inject_Z (Z.of_nat documented) <= inject_Z (Z.of_nat total))%Q as Hdt
    by (rewrite <- Zle_Qle; lia).
  assert (0 <= inject_Z (Z.of_nat documented) / inject_Z (Z.of_nat total))%Q as H0.
  { apply Qle_shift_div_l; [exact Hpos|]. by rewrite Qmult_0_l. }
  assert (inject_Z (Z.of_nat documented) / inject_Z (Z.of_nat total) <= 1)%Q as H1.
  { apply Qle_shift_div_r; [exact Hpos|]. by rewrite Qmult_1_l. }
  split.
  - apply Qmult_le_0_compat; [exact H0|discriminate].
  - apply Qle_trans with (1 * 100)%Q; [|unfold Qle; simpl; lia].
    apply Qmult_le_compat_r; [exact H1|discriminate].
Qed.

(** X5: in the dict of [_calculate_docstring_coverage], the totals are the
    numbers of [def] and [class] nodes of the tree ([async def] is not
    counted), the documented ones are those among them with a docstring that
    is not empty, so never more than the totals; each coverage is the
    rounded percentage of documented among total, a number between 0 and
    100 before rounding, and 100 when there is nothing to document. *)
Theorem docstring_coverage_counts (tree : node) :
  let c := _calculate_docstring_coverage cleandoc round tree in
  let df := DocstringCoverage.documented_functions c in
  let tf := DocstringCoverage.total_functions c in
  let dc := DocstringCoverage.documented_classes c in
  let tc := DocstringCoverage.total_classes c in
  tf = length (filter (fun n => isinstance n [cls.FunctionDef]) (walk tree))
  /\ df = length (filter (fun n => isinstance n [cls.FunctionDef]
                                  && has_docstring cleandoc n) (walk tree))
  /\ tc = length (filter (fun n => isinstance n [cls.ClassDef]) (walk tree))
  /\ dc = length (filter (fun n => isinstance n [cls.ClassDef]
                                  && has_docstring cleandoc n) (walk tree))
  /\ df <= tf /\ dc <= tc
  /\ DocstringCoverage.function_coverage c = round (coverage df tf) 2
  /\ DocstringCoverage.class_coverage c = round (coverage dc tc) 2
  /\ DocstringCoverage.overall_coverage c
     = round ((coverage df tf + coverage dc tc) / 2)%Q 2
  /\ (0 <= coverage df tf)%Q /\ (coverage df tf <= 100)%Q
  /\ (0 <= coverage dc tc)%Q /\ (coverage dc tc <= 100)%Q
  /\ (tf = 0 -> coverage df tf = 100%Q)
  /\ (tc = 0 -> coverage dc tc = 100%Q).
Proof.
  intros c df tf dc tc. subst df tf dc tc c. unfold _calculate_docstring_coverage.
  rewrite coverage_loop. cbn [DocstringCoverage.documented_functions
    DocstringCoverage.total_functions DocstringCoverage.documented_classes
    DocstringCoverage.total_classes DocstringCoverage.function_coverage
    DocstringCoverage.class_coverage DocstringCoverage.overall_coverage Nat.add].
  set (tf := length (filter (fun n => isinstance n [cls.FunctionDef]) (walk tree))).
  set (df := length (filter _ (walk tree))).
  set (tc := length (filter (fun n => isinstance n [cls.ClassDef]) (walk tree))).
  set (dc := length (filter (fun n => isinstance n [cls.ClassDef] && _) (walk tree))).
  assert (df <= tf) as Hf.
  { apply (filter_length_le (fun n => isinstance n [cls.FunctionDef])
             (fun n => isinstance n [cls.FunctionDef] && has_docstring cleandoc n)).
    intros x Hx. by apply andb_true_iff in Hx as [? _]. }
  assert (dc <= tc) as Hc.
  { apply (filter_length_le (fun n => isinstance n [cls.ClassDef])
             (fun n => isinstance n [cls.ClassDef] && has_docstring cleandoc n)).
    intros x Hx. by apply andb_true_iff in Hx as [? _]. }
  destruct (coverage_bounds df tf Hf) as [Hf0 Hf1].
  destruct (coverage_bounds dc tc Hc) as [Hc0 Hc1].
  repeat split; try assumption; try reflexivity.
  - intros ->. reflexivity.
  - intros ->. reflexivity.
Qed.

End with_coverage.
End CoverageProps.

(* ================================================================== *)
(** * Part XXVII: long lines                                          *)
(* ================================================================== *)

Module TextProps.
Import ast CodeAnalyzer.

Lemma enumerate_from_cons {A : Type} (start : nat) (x : A) (xs : list A) :
  py.enumerate_from start (x :: xs) = (start, x) :: py.enumerate_from (S start) xs.
Proof.
  unfold py.enumerate_from. simpl. rewrite Nat.add_0_r. f_equal.
  apply imap_ext. intros i y _. simpl. f_equal. lia.
Qed.

Lemma enumerate_from_lookup {A : Type} (xs : list A) :
  forall (start i : nat) (x : A),
    (i, x) ∈ py.enumerate_from start xs <-> start <= i /\ xs !! (i - start) = Some x.
Proof.
  induction xs as [|y xs IH]; intros start i x.
  - unfold py.enumerate_from. simpl. split; [intros H; inversion H|intros [_ H]; discriminate].
  - rewrite enumerate_from_cons, elem_of_cons, IH. split.
    + intros [[= -> ->]|[Hle Hx]].
      * split; [lia|]. by rewrite Nat.sub_diag.
      * split; [lia|]. replace (i - start) with (S (i - S start)) by lia. exact Hx.
    + intros [Hle Hx]. destruct (decide (i = start)) as [->|Hne].
      * left. rewrite Nat.sub_diag in Hx. simpl in Hx. congruence.
      * right. split; [lia|]. replace (i - start) with (S (i - S start)) in Hx by lia.
        exact Hx.
Qed.

Lemma length_substring_0 (n : nat) (s : string) :
  n <= String.length s -> String.length (String.substring 0 n s) = n.
Proof.
  revert s. induction n as [|n IH]; intros s Hn.
  - by destruct s.
  - destruct s as [|c s]; simpl in *; [lia|]. rewrite IH; [reflexivity|lia].
Qed.

Lemma length_append (s1 s2 : string) :
  String.length (s1 +:+ s2) = String.length s1 + String.length s2.
Proof. induction s1 as [|c s1 IH]; simpl; [reflexivity|]. by rewrite IH. Qed.

Lemma check_line_lengths_from (lines : list string) :
  forall start,
    let issues :=
      flat_map
        (fun '(i, line) =>
           if (100 <? String.length line)%nat
           then [LineIssue.mk i (String.length line) (shortened line)]
           else [])
        (py.enumerate_from start lines) in
    length issues = length (filter (fun line => (100 <? String.length line)%nat) lines)
    /\ StronglySorted lt (map LineIssue.line_number issues)
    /\ forall issue, issue ∈ issues ->
         start <= LineIssue.line_number issue
         /\ exists line,
              lines !! (LineIssue.line_number issue - start) = Some line
              /\ LineIssue.length issue = String.length line
              /\ LineIssue.content issue = shortened line
              /\ 100 < String.length line.
Proof.
  induction lines as [|line lines IH]; intros start; cbv zeta.
  - split; [reflexivity|]. split; [constructor|]. intros issue H. inversion H.
  - rewrite enumerate_from_cons. cbn [flat_map].
    destruct (IH (S start)) as (Hlen & Hsorted & Hissues). clear IH.
    assert (forall issue,
               issue ∈ flat_map
                         (fun '(i, line) =>
                            if (100 <? String.length line)%nat
                            then [LineIssue.mk i (String.length line) (shortened line)]
                            else [])
                         (py.enumerate_from (S start) lines) ->
               start < LineIssue.line_number issue
               /\ exists line',
                    (line :: lines) !! (LineIssue.line_number issue - start) = Some line'
                    /\ LineIssue.length issue = String.length line'
                    /\ LineIssue.content issue = shortened line'
                    /\ 100 < String.length line') as Hrest.
    { intros issue Hin. destruct (Hissues issue Hin) as (Hle & line' & Hl & H).
      split; [lia|]. exists line'. split; [|exact H].
      replace (LineIssue.line_number issue - start)
        with (S (LineIssue.line_number issue - S start)) by lia. exact Hl. }
    destruct (100 <? String.length line)%nat eqn:Hlong.
    + rewrite filter_cons_True by (by rewrite Hlong). cbn [app length map].
      split; [by rewrite Hlen|]. split.
      * constructor; [exact Hsorted|]. apply Forall_forall. intros i Hi.
        apply list_elem_of_fmap in Hi as (issue & -> & Hin). by destruct (Hrest issue Hin).
      * intros issue Hin. apply elem_of_cons in Hin as [->|Hin].
        -- simpl. split; [lia|]. exists line. rewrite Nat.sub_diag.
           apply Nat.ltb_lt in Hlong. by repeat split.
        -- destruct (Hrest issue Hin) as (Hlt & H). split; [lia|exact H].
    + rewrite filter_cons_False by (rewrite Hlong; tauto). cbn [app].
      split; [exact Hlen|]. split; [exact Hsorted|].
      intros issue Hin. destruct (Hrest issue Hin) as (Hlt & H). split; [lia|exact H].
Qed.

(** X6: [_check_line_lengths] reports the lines of more than 100 characters,
    each once and in the order of the text: the line numbers count from 1
    and increase, ['length'] is the length of the line, and ['content'] is
    always the first 50 characters of the line followed by three dots, 53
    characters in all (the branch that keeps the line whole is never taken
    for a reported line). *)
Theorem long_lines_are_reported (content : string) :
  let lines := py.split "010" content in
  let issues := _check_line_lengths content in
  length issues = length (filter (fun line => (100 <? String.length line)%nat) lines)
  /\ StronglySorted lt (map LineIssue.line_number issues)
  /\ forall issue, issue ∈ issues ->
       1 <= LineIssue.line_number issue <= length lines
       /\ exists line,
            lines !! (LineIssue.line_number issue - 1) = Some line
            /\ LineIssue.length issue = String.length line
            /\ 100 < LineIssue.length issue
            /\ LineIssue.content issue = String.substring 0 50 line +:+ "..."
            /\ String.length (LineIssue.content issue) = 53.
Proof.
  intros lines issues.
  destruct (check_line_lengths_from lines 1) as (Hlen & Hsorted & Hissues).
  split; [exact Hlen|]. split; [exact Hsorted|].
  intros issue Hin. destruct (Hissues issue Hin) as (Hle & line & Hl & Hlength & Hc & Hlong).
  split.
  - split; [exact Hle|]. apply lookup_lt_Some in Hl. lia.
  - exists line. split; [exact Hl|]. split; [exact Hlength|]. split; [lia|].
    assert (shortened line = String.substring 0 50 line +:+ "...") as Hs.
    { unfold shortened. destruct (50 <? String.length line)%nat eqn:H50; [reflexivity|].
      apply Nat.ltb_ge in H50. lia. }
    rewrite Hc, Hs. split; [reflexivity|].
    rewrite length_append, length_substring_0 by lia. reflexivity.
Qed.

End TextProps.

(* ================================================================== *)
(** * Part XXVIII: duplicate lines                                    *)
(* ================================================================== *)

Module DuplicateProps.
Import Notions ast CodeAnalyzer.

Section with_strip.
Context (strip : string -> string).

Local Abbreviation step :=
  (fun (line_counts : list (string * list nat)) '(i, line) =>
     let stripped := strip line in
     if is_code stripped && (10 <? String.length stripped)%nat then
       if pydict.contains line_counts stripped
       then pydict.modify line_counts stripped (fun occurrences => occurrences ++ [i])
       else pydict.set line_counts stripped [i]
     else line_counts).

Lemma line_counts_keys (numbered : list (nat * string)) :
  forall counts, NoDup (pydict.keys counts) ->
    NoDup (pydict.keys (fold_left step numbered counts)).
Proof.
  induction numbered as [|[i line] numbered IH]; intros counts Hnd; simpl; [exact Hnd|].
  apply IH. destruct (is_code (strip line) && _); [|exact Hnd].
  destruct (pydict.contains counts (strip line)).
  - by rewrite pydict_facts.keys_modify.
  - by apply pydict_facts.keys_set_NoDup.
Qed.

(** The first loop, one key at a time: the line numbers of the lines that
    are [k] once stripped are appended, in order, to what the dict held. *)
Lemma line_counts_get (numbered : list (nat * string)) (k : string) :
  forall counts,
    pydict.get (fold_left step numbered counts) k
    = let new :=
        if counted k
        then flat_map (fun '(i, line) => if decide (strip line = k) then [i] else [])
               numbered
        else [] in
      match pydict.get counts k, new with
      | Some occurrences, _ => Some (occurrences ++ new)
      | None, [] => None
      | None, _ => Some new
      end.
Proof.
  induction numbered as [|[i line] numbered IH]; intros counts; cbn [fold_left].
  - cbn [flat_map]. destruct (counted k), (pydict.get counts k); by rewrite ?app_nil_r.
  - rewrite IH. clear IH. cbv zeta. cbn [flat_map]. fold (counted (strip line)).
    destruct (decide (strip line = k)) as [Hk|Hk].
    + rewrite Hk. destruct (counted k) eqn:Hc; [|reflexivity].
      unfold pydict.contains.
      destruct (pydict.get counts k) as [occ|] eqn:Hget.
      * rewrite pydict_facts.get_modify, decide_True, Hget by reflexivity. simpl.
        by rewrite <- app_assoc.
      * rewrite pydict_facts.get_set_eq. reflexivity.
    + assert (pydict.get
                (if counted (strip line)
                 then if pydict.contains counts (strip line)
                      then pydict.modify counts (strip line) (fun occ => occ ++ [i])
                      else pydict.set counts (strip line) [i]
                 else counts) k
              = pydict.get counts k) as ->.
      { destruct (counted (strip line)); [|reflexivity].
        destruct (pydict.contains counts (strip line)).
        - by rewrite pydict_facts.get_modify, decide_False.
        - by rewrite pydict_facts.get_set_ne. }
      reflexivity.
Qed.

Lemma lines_equal_sorted (numbered : list (nat * string)) (k : string) :
  StronglySorted lt numbered.*1 ->
  StronglySorted lt
    (flat_map (fun '(i, line) => if decide (strip line = k) then [i] else []) numbered).
Proof.
  induction numbered as [|[i line] numbered IH]; intros Hs; simpl; [constructor|].
  apply StronglySorted_inv in Hs as [Hs Hlt].
  destruct (decide (strip line = k)); simpl; [|by apply IH].
  constructor; [by apply IH|]. apply Forall_forall. intros j Hj.
  apply ImportProps.elem_of_flat_map in Hj as ([j' line'] & Hin & Hj).
  destruct (decide (strip line' = k)); [|inversion Hj].
  apply list_elem_of_singleton in Hj as ->.
  rewrite Forall_forall in Hlt. apply Hlt.
  apply list_elem_of_fmap. by exists (j', line').
Qed.

Lemma enumerate_from_sorted {A : Type} (xs : list A) :
  forall start, StronglySorted lt (py.enumerate_from start xs).*1.
Proof.
  induction xs as [|x xs IH]; intros start.
  - constructor.
  - rewrite TextProps.enumerate_from_cons. simpl. constructor; [apply IH|].
    apply Forall_forall. intros j Hj. apply list_elem_of_fmap in Hj as ([j' y] & -> & Hin).
    apply TextProps.enumerate_from_lookup in Hin as [Hle _]. simpl. lia.
Qed.

(** X7: [_detect_duplicate_code] reports the stripped lines that are neither
    blank nor comments, have more than 10 characters and occur on at least
    two lines of the text, and no others. An entry lists under
    ['occurrences'] the numbers of all the lines that are its line once
    stripped, in increasing order, and ['count'] is their number. *)
Theorem duplicates_are_repeated_lines (content : string) :
  let duplicates := _detect_duplicate_code strip content in
  (forall d, d ∈ duplicates ->
     exists k,
       counted k = true
       /\ Duplicate.content d = shortened k
       /\ Duplicate.occurrences d = lines_equal_to strip content k
       /\ Duplicate.count d = length (Duplicate.occurrences d)
       /\ 2 <= Duplicate.count d
       /\ StronglySorted lt (Duplicate.occurrences d))
  /\ (forall k,
        counted k = true -> 2 <= length (lines_equal_to strip content k) ->
        Duplicate.mk (shortened k) (lines_equal_to strip content k)
          (length (lines_equal_to strip content k)) ∈ duplicates).
Proof.
  intros duplicates. subst duplicates. unfold _detect_duplicate_code.
  assert (NoDup (pydict.keys (line_counts strip content))) as Hnd
    by (apply line_counts_keys; constructor).
  assert (forall k occurrences,
             (k, occurrences) ∈ line_counts strip content <->
             counted k = true /\ occurrences = lines_equal_to strip content k
             /\ occurrences <> []) as Hentries.
  { intros k occ. rewrite pydict_facts.elem_of_get by exact Hnd.
    unfold line_counts. rewrite line_counts_get. cbn [pydict.get]. cbv zeta.
    fold (lines_equal_to strip content k).
    destruct (counted k); [|split; [discriminate|intros [? _]; discriminate]].
    destruct (lines_equal_to strip content k) as [|i l].
    - split; [discriminate|]. intros (_ & -> & H). by destruct H.
    - split; [intros [= <-]; done|]. intros (_ & -> & _). reflexivity. }
  split.
  - intros d Hd. apply ImportProps.elem_of_flat_map in Hd as ([k occ] & Hin & Hd).
    apply Hentries in Hin as (Hc & -> & Hne).
    destruct (1 <? length (lines_equal_to strip content k))%nat eqn:Hlen; [|inversion Hd].
    apply list_elem_of_singleton in Hd as ->. apply Nat.ltb_lt in Hlen.
    exists k. cbn [Duplicate.content Duplicate.occurrences Duplicate.count].
    split; [exact Hc|]. do 3 (split; [reflexivity|]). split; [lia|].
    apply lines_equal_sorted, enumerate_from_sorted.
  - intros k Hc Hlen. apply ImportProps.elem_of_flat_map.
    exists (k, lines_equal_to strip content k). split.
    + apply Hentries. repeat split; [exact Hc|].
      intros H. rewrite H in Hlen. simpl in Hlen. lia.
    + rewrite (proj2 (Nat.ltb_lt _ _)) by lia. left.
Qed.

End with_strip.
End DuplicateProps.

(* ================================================================== *)
(** * Part XXIX: the signature of a function                          *)
(* ================================================================== *)

Module SignatureProps.
Import ast FunctionExtractor.

Lemma setitem_in_range {A : Type} (xs : list A) (j : nat) (f : A -> A) :
  j < length xs -> py.setitem xs (Z.of_nat j) f = py.Val (alter f j xs).
Proof.
  intros Hj. unfold py.setitem. cbv zeta.
  assert ((Z.of_nat j <? 0)%Z = false) as Hlt by (apply Z.ltb_ge; lia).
  assert ((Z.of_nat (length xs) <=? Z.of_nat j)%Z = false) as Hle by (apply Z.leb_gt; lia).
  rewrite Hlt. cbv iota. rewrite Hlt, Hle. cbn [orb]. by rewrite Nat2Z.id.
Qed.

(** A loop that updates the list at the positions [start], [start + 1], ...
    as far as they exist, one per element of [bs]: what it leaves at each
    position. *)
Lemma update_loop {A B : Type} (g : B -> option (A -> A)) (start : nat)
  (body : Z * B -> list A -> py.result (list A)) :
  (forall i b xs,
      body (Z.of_nat i, b) xs
      = if (start + i <? length xs)%nat
        then py.Val (match g b with Some f => alter f (start + i) xs | None => xs end)
        else py.Val xs) ->
  forall bs o xs,
  exists R,
    py.for_each (imap (fun i b => (Z.of_nat (o + i), b)) bs) body xs = py.Val R
    /\ length R = length xs
    /\ forall p,
         R !! p
         = match (if decide (start + o <= p) then bs !! (p - (start + o)) else None) ≫= g with
           | Some f => f
           | None => id
           end <$> xs !! p.
Proof.
  intros Hbody bs. induction bs as [|b bs IH]; intros o xs.
  - exists xs. split; [reflexivity|]. split; [reflexivity|]. intros p.
    destruct (decide (start + o <= p)); simpl; by rewrite ?lookup_nil, option_fmap_id.
  - cbn [imap py.for_each]. rewrite Hbody.
    set (xs1 := if (start + (o + 0) <? length xs)%nat
                then match g b with Some f => alter f (start + (o + 0)) xs | None => xs end
                else xs).
    assert ((if (start + (o + 0) <? length xs)%nat
             then py.Val (match g b with
                          | Some f => alter f (start + (o + 0)) xs
                          | None => xs
                          end)
             else py.Val xs) = py.Val xs1) as -> by (unfold xs1; by destruct (_ <? _)%nat).
    cbn [py.bind].
    assert (length xs1 = length xs) as Hlen1.
    { unfold xs1. destruct (_ <? _)%nat; [|reflexivity].
      destruct (g b); [apply length_alter|reflexivity]. }
    assert (forall p,
               xs1 !! p
               = match (if decide (p = start + o) then g b else None) with
                 | Some f => f
                 | None => id
                 end <$> xs !! p) as Hxs1.
    { intros p. unfold xs1. rewrite Nat.add_0_r.
      destruct (decide (p = start + o)) as [->|Hne].
      - destruct (start + o <? length xs)%nat eqn:Hr.
        + destruct (g b) as [f|]; [|by rewrite option_fmap_id].
          by rewrite list_lookup_alter, decide_True.
        + apply Nat.ltb_ge in Hr. rewrite (lookup_ge_None_2 xs) by lia.
          by destruct (g b).
      - rewrite option_fmap_id. destruct (start + o <? length xs)%nat; [|reflexivity].
        destruct (g b) as [f|]; [|reflexivity].
        by rewrite list_lookup_alter, decide_False by done. }
    destruct (IH (S o) xs1) as (R & Hrun & HlenR & HR).
    exists R. split.
    + rewrite <- Hrun. f_equal. apply imap_ext. intros i x _. simpl. do 2 f_equal. lia.
    + split; [congruence|]. intros p. rewrite HR, Hxs1. clear.
      destruct (decide (p = start + o)) as [->|Hne].
      * rewrite decide_False by lia. rewrite decide_True by lia.
        rewrite Nat.sub_diag. simpl. destruct (g b), (xs !! (start + o)); reflexivity.
      * destruct (decide (start + S o <= p)).
        -- rewrite decide_True by lia.
           replace (p - (start + o)) with (S (p - (start + S o))) by lia. simpl.
           by destruct (xs !! p).
        -- rewrite decide_False by lia. simpl. by destruct (xs !! p).
Qed.

Section with_library.
Context (unparse : node -> string) (str : node -> string).

Local Abbreviation positional x :=
  (Parameter_.mk (arg_arg x) (_get_type_annotation unparse (arg_annotation x)) None
     POSITIONAL None).
Local Abbreviation keyword_only x :=
  (Parameter_.mk (arg_arg x) (_get_type_annotation unparse (arg_annotation x)) None
     KEYWORD None).

(** X8: on a function definition with no more defaults than positional
    arguments, as the parser builds them, [_extract_signature] raises
    nothing but what naming a decorator raises, and never [IndexError]. The
    parameters are the positional arguments, [*args] if any, the
    keyword-only arguments and [**kwargs] if any, in this order; the
    defaults go to the last positional arguments, which become KEYWORD
    parameters, and a keyword-only argument has the default at its position
    in [kw_defaults], if there is one. *)
Theorem signature_parameters (async : bool) (name : string) (a : node)
  (body decorator_list : list node) (returns : option node) (lineno : Z)
  (end_lineno : option Z) :
  let n := (if async then AsyncFunctionDef else FunctionDef)
             name a body decorator_list returns lineno end_lineno in
  let args := arguments_args a in
  let defaults := arguments_defaults a in
  let kwonlyargs := arguments_kwonlyargs a in
  let start := length args - length defaults in
  let kw_start := length args + length (option_list (arguments_vararg a)) in
  length defaults <= length args ->
  exists parameters,
    _extract_signature unparse str n
    = py.bind (py.map_result (_get_decorator_name str) decorator_list)
        (fun decorators =>
           py.Val (FunctionSignature.mk name parameters
                     (_get_type_annotation unparse returns) async (_is_generator n)
                     decorators))
    /\ map Parameter_.name parameters
       = map arg_arg args ++ map arg_arg (option_list (arguments_vararg a))
         ++ map arg_arg kwonlyargs ++ map arg_arg (option_list (arguments_kwarg a))
    /\ (forall i x, args !! i = Some x ->
          parameters !! i
          = Some (if decide (start <= i)
                  then Parameter_.mk (arg_arg x)
                         (_get_type_annotation unparse (arg_annotation x))
                         (unparse <$> defaults !! (i - start)) KEYWORD None
                  else positional x))
    /\ (forall v, arguments_vararg a = Some v ->
          parameters !! length args
          = Some (Parameter_.mk (arg_arg v)
                    (_get_type_annotation unparse (arg_annotation v)) None
                    VAR_POSITIONAL None))
    /\ (forall j x, kwonlyargs !! j = Some x ->
          parameters !! (kw_start + j)
          = Some (Parameter_.mk (arg_arg x)
                    (_get_type_annotation unparse (arg_annotation x))
                    (unparse <$> mjoin (arguments_kw_defaults a !! j)) KEYWORD None))
    /\ (forall k, arguments_kwarg a = Some k ->
          parameters !! (kw_start + length kwonlyargs)
          = Some (Parameter_.mk (arg_arg k)
                    (_get_type_annotation unparse (arg_annotation k)) None
                    VAR_KEYWORD None)).
Proof.
  intros n args defaults kwonlyargs start kw_start Hdefaults.
  set (parameters0 := map (fun x => positional x) args).
  set (extra1 := match arguments_vararg a with
                 | Some v => [Parameter_.mk (arg_arg v)
                                (_get_type_annotation unparse (arg_annotation v)) None
                                VAR_POSITIONAL None]
                 | None => []
                 end).
  set (extra2 := match arguments_kwarg a with
                 | Some k => [Parameter_.mk (arg_arg k)
                                (_get_type_annotation unparse (arg_annotation k)) None
                                VAR_KEYWORD None]
                 | None => []
                 end).
  (* the loop over the defaults *)
  set (body1 := fun '(i, d) parameters =>
                  if (Z.of_nat (length parameters0) - Z.of_nat (length defaults) + i
                      <? Z.of_nat (length parameters))%Z
                  then py.bind
                         (py.setitem parameters
                            (Z.of_nat (length parameters0) - Z.of_nat (length defaults) + i)
                            (set_default (_get_default_value unparse d)))
                         (fun parameters =>
                            py.setitem parameters
                              (Z.of_nat (length parameters0) - Z.of_nat (length defaults) + i)
                              set_keyword)
                  else py.Val parameters).
  assert (forall i d xs,
             body1 (Z.of_nat i, d) xs
             = if (start + i <? length xs)%nat
               then py.Val
                      (match Some (set_keyword ∘ set_default (_get_default_value unparse d))
                       with
                       | Some f => alter f (start + i) xs
                       | None => xs
                       end)
               else py.Val xs) as Hbody1.
  { intros i d xs. unfold body1.
    assert (Z.of_nat (length parameters0) - Z.of_nat (length defaults) + Z.of_nat i
            = Z.of_nat (start + i))%Z as ->
      by (unfold parameters0, start; rewrite length_map; fold args; lia).
    destruct (start + i <? length xs)%nat eqn:Hr.
    - apply Nat.ltb_lt in Hr. rewrite (proj2 (Z.ltb_lt _ _)) by lia.
      rewrite setitem_in_range by lia. cbn [py.bind].
      rewrite setitem_in_range by (rewrite length_alter; lia).
      by rewrite list_alter_alter_eq.
    - apply Nat.ltb_ge in Hr. by rewrite (proj2 (Z.ltb_ge _ _)) by lia. }
  destruct (update_loop
              (fun d => Some (set_keyword ∘ set_default (_get_default_value unparse d)))
              start body1 Hbody1 defaults 0 parameters0)
    as (R1 & Hrun1 & Hlen1 & HR1).
  (* the loop over the defaults of the keyword-only arguments *)
  set (parameters2 := (R1 ++ extra1) ++ map (fun x => keyword_only x) kwonlyargs).
  assert (length extra1 = length (option_list (arguments_vararg a))) as Hextra1
    by (unfold extra1; by destruct (arguments_vararg a)).
  set (body2 := fun '(i, d) parameters =>
                  match d with
                  | Some d =>
                      if (Z.of_nat (length args)
                          + match arguments_vararg a with Some _ => 1 | None => 0 end + i
                          <? Z.of_nat (length parameters))%Z
                      then py.setitem parameters
                             (Z.of_nat (length args)
                              + match arguments_vararg a with Some _ => 1 | None => 0 end + i)
                             (set_default (_get_default_value unparse d))
                      else py.Val parameters
                  | None => py.Val parameters
                  end).
  assert (forall i (d : option node) xs,
             body2 (Z.of_nat i, d) xs
             = if (kw_start + i <? length xs)%nat
               then py.Val
                      (match (fun d => set_default (_get_default_value unparse d)) <$> d with
                       | Some f => alter f (kw_start + i) xs
                       | None => xs
                       end)
               else py.Val xs) as Hbody2.
  { intros i d xs. unfold body2.
    assert (Z.of_nat (length args)
            + match arguments_vararg a with Some _ => 1 | None => 0 end
            + Z.of_nat i = Z.of_nat (kw_start + i))%Z as Hidx
      by (unfold kw_start; destruct (arguments_vararg a); simpl; lia).
    destruct d as [d|]; simpl.
    - rewrite Hidx. destruct (kw_start + i <? length xs)%nat eqn:Hr.
      + apply Nat.ltb_lt in Hr. rewrite (proj2 (Z.ltb_lt _ _)) by lia.
        by rewrite setitem_in_range by lia.
      + apply Nat.ltb_ge in Hr. by rewrite (proj2 (Z.ltb_ge _ _)) by lia.
    - by destruct (_ <? _)%nat. }
  destruct (update_loop
              (fun d : option node =>
                 (fun d => set_default (_get_default_value unparse d)) <$> d)
              kw_start body2 Hbody2 (arguments_kw_defaults a) 0 parameters2)
    as (R2 & Hrun2 & Hlen2 & HR2).
  exists (R2 ++ extra2).
  assert (length parameters0 = length args) as Hlen0 by (unfold parameters0; apply length_map).
  assert (length parameters2 = kw_start + length kwonlyargs) as Hlenp2.
  { unfold parameters2, kw_start. rewrite !length_app, length_map. lia. }
  assert (forall p, p < kw_start -> R2 !! p = (R1 ++ extra1) !! p) as Hlow.
  { intros p Hp. rewrite HR2, decide_False by lia. simpl. rewrite option_fmap_id.
    unfold parameters2. apply lookup_app_l. rewrite length_app. unfold kw_start in Hp. lia. }
  split; [|split; [|split; [|split; [|split]]]].
  - unfold n. destruct async; unfold _extract_signature;
      fold args defaults kwonlyargs parameters0; fold body1; fold body2;
      unfold enumerate;
      rewrite (imap_ext _ (fun i b => (Z.of_nat (0 + i), b)) defaults) by done;
      rewrite Hrun1; cbn [py.bind]; fold extra1; fold parameters2;
      rewrite (imap_ext _ (fun i b => (Z.of_nat (0 + i), b)) (arguments_kw_defaults a))
        by done;
      rewrite Hrun2; cbn [py.bind]; fold extra2; reflexivity.
  - assert (map Parameter_.name R1 = map arg_arg args) as HnR1.
    { apply list_eq. intros p. rewrite !list_lookup_fmap, HR1. unfold parameters0.
      rewrite list_lookup_fmap. destruct (args !! p) as [x|]; [|reflexivity]. simpl.
      destruct (decide (start + 0 <= p)); [|reflexivity].
      by destruct (defaults !! (p - (start + 0))). }
    assert (map Parameter_.name R2 = map Parameter_.name parameters2) as HnR2.
    { apply list_eq. intros p. rewrite !list_lookup_fmap, HR2.
      destruct (parameters2 !! p) as [x|]; [|reflexivity]. simpl.
      destruct (decide (kw_start + 0 <= p)); [|reflexivity].
      by destruct (arguments_kw_defaults a !! (p - (kw_start + 0))) as [[d|]|]. }
    rewrite map_app, HnR2. unfold parameters2. rewrite !map_app, HnR1, map_map.
    rewrite <- !app_assoc. f_equal. f_equal.
    + unfold extra1. by destruct (arguments_vararg a).
    + f_equal. unfold extra2. by destruct (arguments_kwarg a).
  - intros i x Hx. assert (i < length args) as Hi by (by eapply lookup_lt_Some).
    rewrite lookup_app_l by (rewrite Hlen2, Hlenp2; unfold kw_start; lia).
    rewrite Hlow by (unfold kw_start; lia).
    rewrite lookup_app_l by (rewrite Hlen1, Hlen0; lia).
    rewrite HR1. unfold parameters0. rewrite list_lookup_fmap, Hx. simpl.
    rewrite Nat.add_0_r. destruct (decide (start <= i)) as [Hs|Hs]; [|reflexivity].
    assert (is_Some (defaults !! (i - start))) as [d Hd]
      by (apply lookup_lt_is_Some; unfold start; lia).
    rewrite Hd. reflexivity.
  - intros v Hv. rewrite lookup_app_l by (rewrite Hlen2, Hlenp2; unfold kw_start; rewrite Hv; simpl; lia).
    rewrite Hlow by (unfold kw_start; rewrite Hv; simpl; lia).
    rewrite lookup_app_r by (rewrite Hlen1, Hlen0; lia).
    rewrite Hlen1, Hlen0, Nat.sub_diag. unfold extra1. by rewrite Hv.
  - intros j x Hx. assert (j < length kwonlyargs) as Hj by (by eapply lookup_lt_Some).
    rewrite lookup_app_l by (rewrite Hlen2, Hlenp2; lia).
    rewrite HR2, decide_True by lia.
    replace (kw_start + j - (kw_start + 0)) with j by lia.
    unfold parameters2. rewrite lookup_app_r
      by (rewrite length_app, Hlen1, Hlen0, Hextra1; unfold kw_start; lia).
    replace (kw_start + j - length (R1 ++ extra1)) with j
      by (rewrite length_app, Hlen1, Hlen0, Hextra1; unfold kw_start; lia).
    rewrite list_lookup_fmap, Hx. simpl.
    by destruct (arguments_kw_defaults a !! j) as [[d|]|].
  - intros k Hk. rewrite lookup_app_r by (rewrite Hlen2, Hlenp2; lia).
    rewrite Hlen2, Hlenp2, Nat.sub_diag. unfold extra2. by rewrite Hk.
Qed.

End with_library.

Lemma signature_parameters_witness :
  length (arguments_defaults Inputs.mixed_arguments)
  <= length (arguments_args Inputs.mixed_arguments)
  /\ exists parameters,
       _extract_signature (fun _ => "") (fun _ => "")
         (FunctionDef "f" Inputs.mixed_arguments Inputs.pass_body [] None 1 None)
       = py.Val (FunctionSignature.mk "f" parameters None false false [])
       /\ map Parameter_.name parameters = ["a"; "b"; "args"; "c"; "d"; "kw"].
Proof.
  assert (length (arguments_defaults Inputs.mixed_arguments)
          <= length (arguments_args Inputs.mixed_arguments)) as H by (simpl; lia).
  split; [exact H|].
  destruct (signature_parameters (fun _ => "") (fun _ => "") false "f"
              Inputs.mixed_arguments Inputs.pass_body [] None 1 None H)
    as (parameters & Hsig & Hnames & _).
  exists parameters. split; [exact Hsig|exact Hnames].
Defined.

End SignatureProps.

(* ================================================================== *)
(** * Part XXX: extraction from files and directories                 *)
(* ================================================================== *)

Module ExtractionProps.
Import ast FunctionExtractor Notions.

Lemma raises_only_bind {A B : Type} (P : py.exn -> Prop) (m : py.result A)
  (k : A -> py.result B) :
  raises_only P m -> (forall a, m = py.Val a -> raises_only P (k a)) ->
  raises_only P (py.bind m k).
Proof. destruct m; simpl; auto. Qed.

Lemma for_each_raises_only {A S : Type} (P : py.exn -> Prop) (xs : list A)
  (body : A -> S -> py.result S) :
  (forall x s, x ∈ xs -> raises_only P (body x s)) ->
  forall s, raises_only P (py.for_each xs body s).
Proof.
  induction xs as [|x xs IH]; intros Hbody s; simpl; [exact I|].
  apply raises_only_bind; [apply Hbody; left|]. intros s' _. apply IH.
  intros y s'' Hy. apply Hbody. by right.
Qed.

Lemma map_result_raises_only {A B : Type} (P : py.exn -> Prop) (f : A -> py.result B)
  (xs : list A) :
  (forall x, raises_only P (f x)) -> raises_only P (py.map_result f xs).
Proof.
  intros Hf. induction xs as [|x xs IH]; simpl; [exact I|].
  apply raises_only_bind; [apply Hf|]. intros y _.
  apply raises_only_bind; [exact IH|]. by intros ys _.
Qed.

Lemma setitem_raises_only {A : Type} (xs : list A) (i : Z) (f : A -> A) :
  raises_only attribute_or_index_error (py.setitem xs i f).
Proof. unfold py.setitem. by destruct (_ || _). Qed.

Section with_library.
Context (unparse : node -> string) (cleandoc : string -> string) (str : node -> string).

Lemma decorator_name_raises_only (d : node) :
  raises_only attribute_or_index_error (_get_decorator_name str d).
Proof.
  destruct d; simpl; try exact I.
  - destruct d; simpl; try exact I. by destruct d1.
  - by destruct d1.
Qed.

Lemma signature_outcome (n : node) :
  isinstance n [cls.FunctionDef; cls.AsyncFunctionDef] = true ->
  match _extract_signature unparse str n with
  | py.Val sig => FunctionSignature.name sig = defined_name n
  | py.Exc e => attribute_or_index_error e
  | py.OutOfFuel => False
  end.
Proof.
  intros Hdef.
  destruct n; try discriminate; unfold _extract_signature;
    (match goal with
     | |- context [py.bind (py.for_each ?xs ?body ?s) ?k] =>
         pose proof (for_each_raises_only attribute_or_index_error xs body) as H1;
         destruct (py.for_each xs body s) as [ps1| |] eqn:E1;
         [|specialize (H1 ltac:(
                         intros [i d] s' _;
                         destruct (_ <? _)%Z; [|exact I];
                         apply raises_only_bind; [apply setitem_raises_only|];
                         intros; apply setitem_raises_only) s);
           rewrite E1 in H1; exact H1..]
     end);
    cbn [py.bind];
    (match goal with
     | |- context [py.bind (py.for_each ?xs ?body ?s) ?k] =>
         pose proof (for_each_raises_only attribute_or_index_error xs body) as H2;
         destruct (py.for_each xs body s) as [ps2| |] eqn:E2;
         [|specialize (H2 ltac:(
                         intros [i [d|]] s' _; [|exact I];
                         destruct (_ <? _)%Z; [|exact I];
                         apply setitem_raises_only) s);
           rewrite E2 in H2; exact H2..]
     end);
    cbn [py.bind];
    (match goal with
     | |- context [py.map_result ?f ?xs] =>
         pose proof (map_result_raises_only attribute_or_index_error f xs
                       decorator_name_raises_only) as H3;
         destruct (py.map_result f xs); [reflexivity|exact H3..]
     end).
Qed.

Lemma documentation_outcome (n : node) :
  isinstance n [cls.FunctionDef; cls.AsyncFunctionDef] = true ->
  match _extract_function_documentation unparse cleandoc str n with
  | py.Val d => func_name d = defined_name n
  | py.Exc e => attribute_or_index_error e
  | py.OutOfFuel => False
  end.
Proof.
  intros Hdef. pose proof (signature_outcome n Hdef) as Hsig.
  unfold _extract_function_documentation.
  destruct (_extract_signature unparse str n) as [sig| |]; simpl; [|exact Hsig..].
  destruct n; try discriminate; exact Hsig.
Qed.

Local Abbreviation collect :=
  (fun n functions =>
     if isinstance n [cls.FunctionDef; cls.AsyncFunctionDef] then
       py.bind (_extract_function_documentation unparse cleandoc str n)
         (fun func_doc =>
            py.Val (pydict.set functions
                      (FunctionSignature.name (FunctionDocumentation.signature func_doc))
                      func_doc))
     else py.Val functions).

Lemma collect_outcome (nodes : list node) :
  forall functions,
    match py.for_each nodes collect functions with
    | py.Val functions' =>
        forall k, k ∈ pydict.keys functions' <->
                  k ∈ pydict.keys functions
                  \/ exists n, n ∈ nodes
                               /\ isinstance n [cls.FunctionDef; cls.AsyncFunctionDef] = true
                               /\ defined_name n = k
    | py.Exc e => attribute_or_index_error e
    | py.OutOfFuel => False
    end.
Proof.
  induction nodes as [|n nodes IH]; intros functions; cbn [py.for_each].
  - intros k. split; [by left|]. intros [H|(n & Hn & _)]; [exact H|inversion Hn].
  - destruct (isinstance n [cls.FunctionDef; cls.AsyncFunctionDef]) eqn:Hdef.
    + pose proof (documentation_outcome n Hdef) as Hdoc.
      destruct (_extract_function_documentation unparse cleandoc str n) as [d| |];
        cbn [py.bind]; [|exact Hdoc..].
      specialize (IH (pydict.set functions
                        (FunctionSignature.name (FunctionDocumentation.signature d)) d)).
      destruct (py.for_each nodes _ _) as [functions'| |]; [|exact IH..].
      intros k. rewrite IH, pydict_facts.keys_set_elem. fold (func_name d). rewrite Hdoc.
      split.
      * intros [[->|H]|(n' & Hn' & H)]; [right; exists n; split; [left|by split]
                                         |by left|right; exists n'; split; [by right|exact H]].
      * intros [H|(n' & Hn' & Hd' & Hk)]; [by left; right|].
        apply elem_of_cons in Hn' as [->|Hn']; [by left; left|].
        right. exists n'. by repeat split.
    + cbn [py.bind]. specialize (IH functions).
      destruct (py.for_each nodes _ _) as [functions'| |]; [|exact IH..].
      intros k. rewrite IH. split.
      * intros [H|(n' & Hn' & H)]; [by left|right; exists n'; split; [by right|exact H]].
      * intros [H|(n' & Hn' & Hd' & Hk)]; [by left|].
        apply elem_of_cons in Hn' as [->|Hn']; [congruence|].
        right. exists n'. by repeat split.
Qed.

Lemma extraction_raises (file_path : string) (parse : parsed) :
  match parse with
  | syntax_error e =>
      extract_from_file unparse cleandoc str file_path parse
      = py.Exc (py.SyntaxError ("Syntax error in " +:+ file_path +:+ ": " +:+ e))
  | module_of body =>
      raises_only attribute_or_index_error
        (extract_from_file unparse cleandoc str file_path parse)
  end.
Proof.
  destruct parse as [e|body]; [reflexivity|]. unfold extract_from_file.
  pose proof (collect_outcome (walk (Module_ body)) []) as Hkeys.
  destruct (py.for_each (walk (Module_ body)) _ []) as [functions| |];
    cbn [py.bind]; [exact I|exact Hkeys..].
Qed.

(** X9: [extract_from_file] raises [SyntaxError] on a text that does not
    parse; on a text that parses it raises nothing but [AttributeError] or
    [IndexError], from the signature of some definition, or returns a dict
    with one entry per function name: its keys are the names of the [def]
    and [async def] nodes of the tree, nested ones included, each once, and
    every entry is filed under the name in its signature. *)
Theorem extraction_outcome (file_path : string) (parse : parsed) :
  match parse, extract_from_file unparse cleandoc str file_path parse with
  | syntax_error e, r =>
      r = py.Exc (py.SyntaxError ("Syntax error in " +:+ file_path +:+ ": " +:+ e))
  | module_of body, py.Val functions =>
      NoDup (pydict.keys functions)
      /\ (forall k, k ∈ pydict.keys functions <->
            exists n, n ∈ walk (Module_ body)
                      /\ isinstance n [cls.FunctionDef; cls.AsyncFunctionDef] = true
                      /\ defined_name n = k)
      /\ (forall k d, (k, d) ∈ functions -> func_name d = k)
  | module_of body, py.Exc e => attribute_or_index_error e
  | module_of body, py.OutOfFuel => False
  end.
Proof.
  destruct parse as [e|body]; [reflexivity|]. unfold extract_from_file.
  pose proof (collect_outcome (walk (Module_ body)) []) as Hkeys.
  pose proof (CallGraphProps.collected_functions_fresh unparse cleandoc str
                (walk (Module_ body))) as Hfresh.
  destruct (py.for_each (walk (Module_ body)) _ []) as [functions| |] eqn:Hrun;
    cbn [py.bind]; [|exact Hkeys..].
  specialize (Hfresh functions eq_refl).
  assert (pydict.keys (_build_call_graph functions) = pydict.keys functions) as Hk
    by (rewrite CallGraphProps.build_call_graph_link; apply pydict_facts.keys_transposed).
  rewrite Hk. split; [apply Hfresh|]. split.
  - intros k. rewrite Hkeys. split; [intros [H|H]; [inversion H|exact H]|by right].
  - intros k d Hin.
    assert (NoDup (pydict.keys (_build_call_graph functions))) as Hnd
      by (rewrite Hk; apply Hfresh).
    apply (pydict_facts.elem_of_get _ _ _ Hnd) in Hin.
    by destruct (CallGraphProps.built_call_graph_entry functions k d Hfresh Hin)
      as (d0 & _ & Hname & _).
Qed.

Local Abbreviation extract_one :=
  (fun '(file_path, parse) all_functions =>
     match extract_from_file unparse cleandoc str file_path parse with
     | py.Val functions => py.Val (pydict.set all_functions file_path functions)
     | py.Exc (py.SyntaxError _) | py.Exc (py.FileNotFoundError _) => py.Val all_functions
     | py.Exc e => py.Exc e
     | py.OutOfFuel => py.OutOfFuel
     end).

Lemma directory_loop (python_files : list (string * parsed)) :
  forall all_functions : list (string * list (string * FunctionDocumentation.t)),
    match py.for_each python_files extract_one all_functions with
    | py.Val all_functions' =>
        (forall p, p ∈ pydict.keys all_functions' <->
                   p ∈ pydict.keys all_functions
                   \/ exists parse functions,
                        (p, parse) ∈ python_files
                        /\ extract_from_file unparse cleandoc str p parse
                           = py.Val functions)
        /\ (NoDup (pydict.keys all_functions) -> NoDup (pydict.keys all_functions'))
        /\ (forall p parse, (p, parse) ∈ python_files ->
              (exists e, parse = syntax_error e)
              \/ exists functions,
                   extract_from_file unparse cleandoc str p parse = py.Val functions)
    | py.Exc e =>
        attribute_or_index_error e
        /\ exists p parse,
             (p, parse) ∈ python_files
             /\ extract_from_file unparse cleandoc str p parse = py.Exc e
    | py.OutOfFuel => False
    end.
Proof.
  induction python_files as [|[p parse] files IH]; intros acc; cbn [py.for_each].
  - split; [|split; [done|]].
    + intros q. split; [by left|]. intros [H|(? & ? & H & _)]; [exact H|inversion H].
    + intros q parse H. inversion H.
  - pose proof (extraction_raises p parse) as Hout.
    destruct parse as [e|body].
    + rewrite Hout. cbn [py.bind]. specialize (IH acc).
      destruct (py.for_each files _ acc) as [all| |]; [| |exact IH].
      * destruct IH as (Hkeys & Hnd & Hall). split; [|split; [exact Hnd|]].
        -- intros q. rewrite Hkeys. split.
           ++ intros [H|(parse & fs & Hin & Hx)]; [by left|].
              right. exists parse, fs. split; [by right|exact Hx].
           ++ intros [H|(parse & fs & Hin & Hx)]; [by left|].
              apply elem_of_cons in Hin as [[= -> ->]|Hin].
              ** rewrite Hout in Hx. discriminate.
              ** right. by exists parse, fs.
        -- intros q parse Hin. apply elem_of_cons in Hin as [[= -> ->]|Hin]; [|by apply Hall].
           left. by exists e.
      * destruct IH as (He & q & parse & Hin & Hx). split; [exact He|].
        exists q, parse. split; [by right|exact Hx].
    + destruct (extract_from_file unparse cleandoc str p (module_of body))
        as [fs|e0|] eqn:Hx; cbn [py.bind].
      * specialize (IH (pydict.set acc p fs)).
        destruct (py.for_each files _ _) as [all| |]; [| |exact IH].
        -- destruct IH as (Hkeys & Hnd & Hall). split; [|split].
           ++ intros q. rewrite Hkeys, pydict_facts.keys_set_elem. split.
              ** intros [[->|H]|(parse & fs' & Hin & Hx')].
                 --- right. exists (module_of body), fs. split; [left|exact Hx].
                 --- by left.
                 --- right. exists parse, fs'. split; [by right|exact Hx'].
              ** intros [H|(parse & fs' & Hin & Hx')]; [by left; right|].
                 apply elem_of_cons in Hin as [[= -> ->]|Hin]; [by left; left|].
                 right. by exists parse, fs'.
           ++ intros H. by apply Hnd, pydict_facts.keys_set_NoDup.
           ++ intros q parse Hin.
              apply elem_of_cons in Hin as [[= -> ->]|Hin]; [|by apply Hall].
              right. by exists fs.
        -- destruct IH as (He & q & parse & Hin & Hx'). split; [exact He|].
           exists q, parse. split; [by right|exact Hx'].
      * destruct e0; try (by destruct Hout); cbn [py.bind];
          (split; [exact I|]; exists p, (module_of body); split; [left|exact Hx]).
      * by destruct Hout.
Qed.

(** X10: [extract_from_directory] raises [FileNotFoundError] when there is no
    directory at the path. Otherwise a file that does not parse is skipped,
    as if it were not there; but an [AttributeError] or [IndexError] that
    the extraction of a file raises is not caught: it leaves
    [extract_from_directory], and nothing is returned for the other files
    either. When it returns, the dict has one entry per path of a file whose
    extraction returned, and every file either was skipped for its syntax
    or had its functions extracted. *)
Theorem directory_extraction (directory_path : string) :
  extract_from_directory unparse cleandoc str directory_path None
  = py.Exc (py.FileNotFoundError ("Directory not found: " +:+ directory_path))
  /\ (forall before p e after,
        extract_from_directory unparse cleandoc str directory_path
          (Some (before ++ (p, syntax_error e) :: after))
        = extract_from_directory unparse cleandoc str directory_path (Some (before ++ after)))
  /\ (forall python_files,
        match extract_from_directory unparse cleandoc str directory_path (Some python_files)
        with
        | py.Val all_functions =>
            NoDup (pydict.keys all_functions)
            /\ (forall p, p ∈ pydict.keys all_functions <->
                  exists parse functions,
                    (p, parse) ∈ python_files
                    /\ extract_from_file unparse cleandoc str p parse = py.Val functions)
            /\ (forall p parse, (p, parse) ∈ python_files ->
                  (exists e, parse = syntax_error e)
                  \/ exists functions,
                       extract_from_file unparse cleandoc str p parse = py.Val functions)
        | py.Exc e =>
            attribute_or_index_error e
            /\ exists p parse,
                 (p, parse) ∈ python_files
                 /\ extract_from_file unparse cleandoc str p parse = py.Exc e
        | py.OutOfFuel => False
        end).
Proof.
  split; [reflexivity|]. split.
  - intros before p e after. unfold extract_from_directory.
    generalize (@nil (string * list (string * FunctionDocumentation.t))).
    induction before as [|[q parse] before IH]; intros acc; cbn [app py.for_each].
    + reflexivity.
    + destruct (extract_one (q, parse) acc) as [acc'| |]; cbn [py.bind]; [apply IH|done..].
  - intros python_files. unfold extract_from_directory.
    pose proof (directory_loop python_files []) as H.
    destruct (py.for_each python_files _ []) as [all| |]; [|exact H..].
    destruct H as (Hkeys & Hnd & Hall). split; [apply Hnd; constructor|]. split; [|exact Hall].
    intros p. rewrite Hkeys. split; [intros [H|H]; [inversion H|exact H]|by right].
Qed.

End with_library.
End ExtractionProps.

(* ================================================================== *)
(** * Part XXXI: the files of a project                               *)
(* ================================================================== *)

Module AnalyzeFileProps.
Import ast DependencyMapper Notions.

Lemma extracted_dependencies (s : self) (tree : node) (source_module : string)
  (d : Dependency) :
  d ∈ _extract_dependencies s tree source_module ->
  source d = source_module /\ scope d = _determine_scope s (target d).
Proof.
  unfold _extract_dependencies. intros Hd.
  apply ImportProps.elem_of_flat_map in Hd as (n & _ & Hd).
  destruct n; try (by inversion Hd).
  - apply ImportProps.elem_of_flat_map in Hd as (base & _ & Hd).
    apply list_elem_of_fmap in Hd as (t & -> & _). by split.
  - apply list_elem_of_fmap in Hd as (a & -> & _). by split.
  - apply list_elem_of_fmap in Hd as (a & -> & _). by split.
  - apply list_elem_of_fmap in Hd as (a & -> & _). by split.
Qed.

(** X11: [analyze_file] on a file that parses registers the module under the
    path of the file and returns its record. Every dependency of the record
    has the module as its source and the scope [_determine_scope] gives its
    target against the modules registered before the file, the file itself
    not among them: on a mapper without modules no dependency is Internal
    unless its target starts with a dot, an import of another file of the
    project included. *)
Theorem file_is_classified_against_earlier_files (s : self) (file_path module_name : string)
  (body : list node) :
  exists s' info,
    analyze_file s (mkSourceFile file_path module_name (module_of body)) = py.Val (s', info)
    /\ pydict.get (modules s') file_path = Some info
    /\ name info = module_name
    /\ (forall d, d ∈ dependencies info ->
          source d = module_name /\ scope d = _determine_scope s (target d))
    /\ (modules s = [] ->
        forall d, d ∈ dependencies info -> scope d = INTERNAL ->
          py.startswith (target d) "." = true).
Proof.
  eexists _, _. split; [reflexivity|]. simpl.
  split; [apply pydict_facts.get_set_eq|]. split; [reflexivity|]. split.
  - intros d Hd. by apply (extracted_dependencies s (Module_ body)).
  - intros Hnone d Hd Hint.
    destruct (extracted_dependencies s (Module_ body) module_name d Hd) as [_ Hscope].
    rewrite Hint in Hscope. unfold _determine_scope, _get_project_modules in Hscope.
    rewrite Hnone in Hscope. simpl in Hscope.
    destruct (bool_decide _); [discriminate|].
    rewrite orb_false_r in Hscope.
    destruct (py.startswith (target d) "."); [reflexivity|discriminate].
Qed.

(** X12: the loop of [analyze_project] registers the files that parse and
    skips the others: after it, [self.modules] has one entry per path of a
    parsed file, the entries it had before aside. *)
Theorem parsed_files_are_registered (s : self) (python_files : list source_file)
  (p : string) :
  let s' := analyze_files s python_files in
  (p ∈ pydict.keys (modules s') <->
   p ∈ pydict.keys (modules s)
   \/ exists f body, f ∈ python_files /\ DependencyMapper.file_path f = p
                     /\ content f = module_of body)
  /\ (NoDup (pydict.keys (modules s)) -> NoDup (pydict.keys (modules s')))
  /\ dependency_graph s' = dependency_graph s
  /\ builtin_modules s' = builtin_modules s.
Proof.
  cbv zeta. unfold analyze_files. revert s.
  induction python_files as [|f fs IH]; intros s; cbn [fold_left].
  - split; [|by repeat split]. split; [by left|]. intros [H|(f & body & Hf & _)]; [exact H|].
    inversion Hf.
  - destruct (IH (match analyze_file s f with py.Val (s', _) => s' | _ => s end))
      as (Hkeys & Hnd & Hg & Hb). clear IH.
    unfold analyze_file in *. destruct (content f) as [e|body] eqn:Hc.
    + split; [|by repeat split]. rewrite Hkeys. split.
      * intros [H|(f' & body & Hf' & Hp & Hc')]; [by left|]. right. exists f', body.
        split; [by right|by split].
      * intros [H|(f' & body & Hf' & Hp & Hc')]; [by left|]. right.
        apply elem_of_cons in Hf' as [->|Hf']; [congruence|]. by exists f', body.
    + cbn [modules dependency_graph builtin_modules] in *. split; [|split; [|by split]].
      * rewrite Hkeys, pydict_facts.keys_set_elem. split.
        -- intros [[->|H]|(f' & body' & Hf' & Hp & Hc')].
           ++ right. exists f, body. split; [left|by split].
           ++ by left.
           ++ right. exists f', body'. split; [by right|by split].
        -- intros [H|(f' & body' & Hf' & Hp & Hc')]; [by left; right|].
           apply elem_of_cons in Hf' as [->|Hf']; [by left; left|].
           right. by exists f', body'.
      * intros H. by apply Hnd, pydict_facts.keys_set_NoDup.
Qed.

End AnalyzeFileProps.

(* ================================================================== *)
(** * Part XXXII: the entries of the dependency graph                 *)
(* ================================================================== *)

Module GraphEntryProps.
Import DependencyMapper Notions.

Local Abbreviation targets_with sc deps := (map target (filter (fun d => has_scope sc d) deps)).

(** The inner loop of the first loop of [_build_dependency_graph], on the
    entry of the module. *)
Lemma record_dependencies (deps : list Dependency) :
  forall gi,
    let gi' := fold_left (fun gi dep => record_dependency dep gi) deps gi in
    gi_dependencies gi' = gi_dependencies gi ++ map target deps
    /\ gi_dependents gi' = gi_dependents gi
    /\ gi_internal_deps gi' = gi_internal_deps gi ++ targets_with INTERNAL deps
    /\ gi_external_deps gi' = gi_external_deps gi ++ targets_with EXTERNAL deps
    /\ gi_builtin_deps gi' = gi_builtin_deps gi ++ targets_with BUILTIN deps.
Proof.
  induction deps as [|dep deps IH]; intros gi; cbn [fold_left].
  - cbn. by rewrite !app_nil_r.
  - destruct (IH (record_dependency dep gi)) as (H1 & H2 & H3 & H4 & H5).
    cbv zeta. rewrite H1, H2, H3, H4, H5. clear.
    unfold record_dependency, has_scope.
    destruct (scope dep) eqn:Hs; cbn [gi_dependencies gi_dependents gi_internal_deps
      gi_external_deps gi_builtin_deps];
      repeat first [ rewrite filter_cons_True by (cbv beta; by rewrite Hs)
                   | rewrite filter_cons_False by (cbv beta; rewrite Hs; tauto) ];
      cbn [map]; rewrite <- ?app_assoc; done.
Qed.

Lemma modify_fold_get {V A : Type} (f : A -> V -> V) (k n : string) (xs : list A) :
  forall g : list (string * V),
    pydict.get (fold_left (fun g x => pydict.modify g k (f x)) xs g) n
    = if decide (k = n) then (fun v => fold_left (fun v x => f x v) xs v) <$> pydict.get g n
      else pydict.get g n.
Proof.
  induction xs as [|x xs IH]; intros g; simpl.
  - destruct (decide (k = n)); [|reflexivity]. by destruct (pydict.get g n).
  - rewrite IH, pydict_facts.get_modify.
    destruct (decide (k = n)); [|reflexivity]. by destruct (pydict.get g n).
Qed.

(** One round of the first loop: the entry of the module is started anew,
    the other entries are left alone. *)
Lemma add_module_get (graph : list (string * GraphInfo)) (m : ModuleInfo) (n : string) :
  pydict.get (add_module graph m) n
  = if decide (name m = n)
    then Some (fold_left (fun gi dep => record_dependency dep gi) (dependencies m)
                 empty_graph_info)
    else pydict.get graph n.
Proof.
  unfold add_module. rewrite (modify_fold_get record_dependency).
  destruct (decide (name m = n)) as [<-|Hne].
  - by rewrite pydict_facts.get_set_eq.
  - by rewrite pydict_facts.get_set_ne.
Qed.

Lemma first_loop_get (ms : list ModuleInfo) (n : string) :
  pydict.get (fold_left add_module ms []) n
  = (fun m => fold_left (fun gi dep => record_dependency dep gi) (dependencies m)
                empty_graph_info)
    <$> last (filter (fun m => name m = n) ms).
Proof.
  induction ms as [|m ms IH] using rev_ind; [reflexivity|].
  rewrite fold_left_app. cbn [fold_left]. rewrite add_module_get, filter_app.
  destruct (decide (name m = n)) as [Hn|Hn].
  - rewrite filter_cons_True by exact Hn. by rewrite filter_nil, last_snoc.
  - rewrite filter_cons_False by exact Hn. rewrite filter_nil, app_nil_r. exact IH.
Qed.

(** X13: after [_build_dependency_graph] the graph has one entry per module
    name. The entry of a name lists, under ['dependencies'], the targets of
    the dependency records of the module analysed last under that name, in
    order, and under ['internal_deps'], ['external_deps'] and
    ['builtin_deps'] those of them whose record has that scope: the three
    lists split ['dependencies']. A module analysed earlier under the same
    name leaves nothing in the entry. *)
Theorem graph_entry_of_module (s : self) (n : string) :
  let graph := dependency_graph (_build_dependency_graph s) in
  NoDup (pydict.keys graph)
  /\ (n ∈ pydict.keys graph <-> exists m, m ∈ pydict.values (modules s) /\ name m = n)
  /\ match last (filter (fun m => name m = n) (pydict.values (modules s))) with
     | None => pydict.get graph n = None
     | Some m =>
         exists gi,
           pydict.get graph n = Some gi
           /\ gi_dependencies gi = map target (dependencies m)
           /\ gi_internal_deps gi = targets_with INTERNAL (dependencies m)
           /\ gi_external_deps gi = targets_with EXTERNAL (dependencies m)
           /\ gi_builtin_deps gi = targets_with BUILTIN (dependencies m)
           /\ length (gi_dependencies gi)
              = length (gi_internal_deps gi) + length (gi_external_deps gi)
                + length (gi_builtin_deps gi)
     end.
Proof.
  intros graph.
  assert (forall k, pydict.get graph k
                    = Notions.linked gi_dependencies add_dependent
                        (fold_left add_module (pydict.values (modules s)) []) k
                        (pydict.keys (fold_left add_module (pydict.values (modules s)) []))
                      <$> pydict.get (fold_left add_module (pydict.values (modules s)) []) k)
    as Hget.
  { intros k. unfold graph, _build_dependency_graph. simpl.
    rewrite GraphProps.second_loop_link.
    by rewrite (pydict_facts.get_transposed gi_dependencies add_dependent). }
  assert (forall k, is_Some (pydict.get graph k)
                    <-> is_Some (last (filter (fun m => name m = k)
                                         (pydict.values (modules s))))) as Hsome.
  { intros k. rewrite Hget, first_loop_get, !fmap_is_Some. reflexivity. }
  split; [apply CouplingProps.built_graph_keys|]. split.
  - rewrite <- pydict_facts.get_Some_keys, Hsome. split.
    + intros [m Hm]. exists m. apply last_Some in Hm as [l Hl].
      assert (m ∈ filter (fun m => name m = n) (pydict.values (modules s))) as Hin
        by (rewrite Hl; set_solver).
      by apply list_elem_of_filter in Hin as [? ?].
    + intros (m & Hm & Hn).
      assert (m ∈ filter (fun m => name m = n) (pydict.values (modules s))) as Hin
        by (by apply list_elem_of_filter).
      destruct (filter _ _) as [|x l] using rev_ind; [inversion Hin|].
      rewrite last_snoc. eauto.
  - rewrite Hget, first_loop_get.
    destruct (last (filter _ _)) as [m|]; simpl; [|reflexivity].
    eexists. split; [reflexivity|].
    destruct (record_dependencies (dependencies m) empty_graph_info)
      as (H1 & _ & H3 & H4 & H5). cbv zeta in *. simpl in H1, H3, H4, H5.
    rewrite !pydict_facts.linked_frame by reflexivity.
    rewrite H1, H3, H4, H5. do 4 (split; [reflexivity|]).
    rewrite !length_map. clear. induction (dependencies m) as [|d ds IH]; [reflexivity|].
    destruct (scope d) eqn:Hs;
      repeat first [ rewrite filter_cons_True by (cbv beta; unfold has_scope; by rewrite Hs)
                   | rewrite filter_cons_False by (cbv beta; unfold has_scope; rewrite Hs; tauto) ];
      simpl; rewrite IH; lia.
Qed.

End GraphEntryProps.

(* ================================================================== *)
(** * Part XXXIII: orphaned modules                                   *)
(* ================================================================== *)

Module OrphanProps.
Import DependencyMapper Notions.

(** X14: after [_build_dependency_graph], [_find_orphaned_modules] lists,
    in the order of the graph and each once, the modules that no module of
    the graph, itself included, has among its ['dependencies'], whatever the
    scope the dependency was given. *)
Theorem orphaned_modules_have_no_dependent (s : self) (M : string) :
  let built := _build_dependency_graph s in
  let graph := dependency_graph built in
  (M ∈ _find_orphaned_modules built <->
   M ∈ pydict.keys graph
   /\ forall N gn, pydict.get graph N = Some gn -> M ∉ gi_dependencies gn)
  /\ NoDup (_find_orphaned_modules built)
  /\ sublist (_find_orphaned_modules built) (pydict.keys graph).
Proof.
  intros built graph.
  pose proof (CouplingProps.built_graph_keys s) as Hnd. fold built graph in Hnd.
  assert (sublist (_find_orphaned_modules built) (pydict.keys graph)) as Hsub.
  { unfold _find_orphaned_modules, pydict.keys. fold graph. clear.
    induction graph as [|[k gi] g IH]; simpl; [constructor|].
    destruct (gi_dependents gi); simpl; by constructor. }
  split; [|split; [by eapply sublist_NoDup|exact Hsub]].
  assert (M ∈ _find_orphaned_modules built
          <-> exists gi, pydict.get graph M = Some gi /\ gi_dependents gi = []) as ->.
  { unfold _find_orphaned_modules. fold graph. rewrite ImportProps.elem_of_flat_map. split.
    - intros ([k gi] & Hin & HM). destruct (gi_dependents gi) eqn:Hd; [|inversion HM].
      apply list_elem_of_singleton in HM as ->. exists gi.
      split; [by apply pydict_facts.elem_of_get|exact Hd].
    - intros (gi & Hget & Hd). exists (M, gi).
      split; [by apply pydict_facts.get_elem_of|]. rewrite Hd. left. }
  split.
  - intros (gi & Hget & Hd). split; [apply pydict_facts.get_Some_keys; eauto|].
    intros N gn HN Hin.
    destruct (GraphProps.built_graph_entry s M gi Hget) as (gm1 & HM1 & _ & _ & _ & Hdep).
    destruct (GraphProps.built_graph_entry s N gn HN) as (gn1 & HN1 & HNd & _).
    assert (N ∈ gi_dependents gi) as HNin.
    { rewrite Hdep. apply pydict_facts.elem_of_appended. split.
      - apply pydict_facts.get_Some_keys. eauto.
      - apply pydict_facts.occurrences_pos. unfold Notions.out_of. rewrite HN1.
        by rewrite <- HNd. }
    rewrite Hd in HNin. inversion HNin.
  - intros [Hkey Hnone]. apply pydict_facts.get_Some_keys in Hkey as [gi Hget].
    exists gi. split; [exact Hget|].
    destruct (GraphProps.built_graph_entry s M gi Hget) as (gm1 & HM1 & _ & _ & _ & Hdep).
    destruct (gi_dependents gi) as [|N l] eqn:Hd; [reflexivity|]. exfalso.
    assert (N ∈ N :: l) as HNin by left. rewrite Hdep in HNin.
    apply pydict_facts.elem_of_appended in HNin as [HNkey Hocc].
    apply pydict_facts.occurrences_pos in Hocc. unfold Notions.out_of in Hocc.
    destruct (pydict.get (fold_left add_module (pydict.values (modules s)) []) N)
      as [gn1|] eqn:HN1; [|inversion Hocc].
    assert (is_Some (pydict.get graph N)) as [gn HN].
    { apply pydict_facts.get_Some_keys. unfold graph, built, _build_dependency_graph. simpl.
      rewrite GraphProps.second_loop_link, pydict_facts.keys_transposed.
      apply pydict_facts.get_Some_keys. eauto. }
    destruct (GraphProps.built_graph_entry s N gn HN) as (gn1' & HN1' & HNd & _).
    rewrite HN1 in HN1'. injection HN1' as <-.
    apply (Hnone N gn HN). by rewrite HNd.
Qed.

End OrphanProps.


(* ================================================================== *)
(** * Part XXXIV: reported cycles are cycles                          *)
(* ================================================================== *)

Module CycleSoundness.
Import DependencyMapper Notions.

Section with_graph.
Context (graph : list (string * GraphInfo)).
Implicit Types (node : string) (path : list string) (st : dfs_state).

Local Abbreviation chain := (Notions.chain graph).
Local Abbreviation simple_cycle := (simple_cycle graph).

Lemma index_drop path node i :
  py.index path node = py.Val i -> exists rest, drop i path = node :: rest.
Proof.
  revert i. induction path as [|x path IH]; intros i; simpl; [discriminate|].
  destruct (decide (x = node)) as [->|Hne].
  - intros [= <-]. by exists path.
  - destruct (py.index path node) as [j| |]; simpl; [|discriminate..].
    intros [= <-]. by apply IH.
Qed.

(** What [dfs] appends when it meets a module of its recursion stack. *)
Lemma reported_cycle_simple path node i :
  NoDup path -> chain (path ++ [node]) -> py.index path node = py.Val i ->
  simple_cycle (drop i path ++ [node]).
Proof.
  intros Hnd Hch Hi. destruct (index_drop path node i Hi) as (rest & Hdrop).
  exists node, rest. rewrite Hdrop. split; [reflexivity|]. split.
  - rewrite <- Hdrop. rewrite <- (take_drop i path) in Hnd.
    by apply NoDup_app in Hnd as (_ & _ & Hnd).
  - change (node :: rest ++ [node]) with ((node :: rest) ++ [node]). rewrite <- Hdrop.
    assert (drop i path ++ [node] = drop i (path ++ [node])) as ->.
    { rewrite drop_app_le; [reflexivity|].
      apply Nat.lt_le_incl, lookup_lt_is_Some.
      rewrite <- (Nat.add_0_r i), <- lookup_drop, Hdrop. eauto. }
    by apply CycleProps.chain_drop.
Qed.

Lemma dfs_sound fuel :
  forall node path st st',
    dfs fuel graph node path st = py.Val st' ->
    rec_stack st = list_to_set path -> NoDup path -> chain (path ++ [node]) ->
    Forall simple_cycle (circular_deps st) ->
    rec_stack st' = rec_stack st /\ Forall simple_cycle (circular_deps st').
Proof.
  induction fuel as [|fuel IH]; intros node path st st' Hrun Hrec Hnd Hch Hgood;
    [discriminate|].
  rewrite CycleProps.dfs_S in Hrun.
  destruct (bool_decide (node ∈ rec_stack st)) eqn:Hstack.
  - destruct (py.index path node) as [i| |] eqn:Hi; simpl in Hrun; [|discriminate..].
    injection Hrun as <-. simpl. split; [reflexivity|].
    apply Forall_app. split; [exact Hgood|]. constructor; [|constructor].
    by apply reported_cycle_simple.
  - apply bool_decide_eq_false in Hstack.
    destruct (bool_decide (node ∈ visited st) || negb (pydict.contains graph node)).
    { injection Hrun as <-. by split. }
    destruct (pydict.get graph node) as [gi|] eqn:Hget; [|discriminate].
    set (st1 := {| circular_deps := circular_deps st;
                   visited := {[node]} ∪ visited st;
                   rec_stack := {[node]} ∪ rec_stack st |}) in *.
    assert (forall deps st0 st2,
               py.for_each deps (fun dep st' => dfs fuel graph dep (path ++ [node]) st') st0
               = py.Val st2 ->
               (forall d, d ∈ deps -> d ∈ gi_internal_deps gi) ->
               rec_stack st0 = rec_stack st1 ->
               Forall simple_cycle (circular_deps st0) ->
               rec_stack st2 = rec_stack st1 /\ Forall simple_cycle (circular_deps st2))
      as Hloop.
    { induction deps as [|d deps IHdeps]; intros st0 st2 Hfor Hin Hrec0 Hgood0; simpl in Hfor.
      - injection Hfor as <-. by split.
      - destruct (dfs fuel graph d (path ++ [node]) st0) as [st0'| |] eqn:Hd;
          simpl in Hfor; [|discriminate..].
        destruct (IH d (path ++ [node]) st0 st0' Hd) as [Hrec0' Hgood0'].
        + rewrite Hrec0. simpl. rewrite Hrec, list_to_set_app_L. set_solver.
        + apply NoDup_app. split; [exact Hnd|]. split; [|apply NoDup_singleton].
          intros x Hx Hx'. apply list_elem_of_singleton in Hx' as ->.
          apply Hstack. rewrite Hrec. by apply elem_of_list_to_set.
        + apply CycleProps.chain_snoc; [exact Hch|]. exists gi. split; [exact Hget|].
          apply Hin. left.
        + exact Hgood0.
        + apply (IHdeps st0' st2 Hfor); [|congruence|exact Hgood0'].
          intros d' Hd'. apply Hin. by right. }
    destruct (py.for_each (gi_internal_deps gi) _ st1) as [st2| |] eqn:Hfor;
      simpl in Hrun; [|discriminate..].
    destruct (Hloop _ st1 st2 Hfor) as [Hrec2 Hgood2]; [done|done|exact Hgood|].
    destruct (bool_decide (node ∈ rec_stack st2)); [|discriminate].
    injection Hrun as <-. simpl. split; [|exact Hgood2].
    rewrite Hrec2. simpl. set_solver.
Qed.

Lemma dfs_roots_sound roots :
  forall st st',
    dfs_roots graph roots st = py.Val st' ->
    rec_stack st = ∅ -> Forall simple_cycle (circular_deps st) ->
    Forall simple_cycle (circular_deps st').
Proof.
  unfold dfs_roots. induction roots as [|r roots IH]; intros st st' Hrun Hrec Hgood;
    simpl in Hrun.
  - by injection Hrun as <-.
  - destruct (dfs_root graph r st) as [st1| |] eqn:Hr; simpl in Hrun; [|discriminate..].
    assert (rec_stack st1 = rec_stack st /\ Forall simple_cycle (circular_deps st1))
      as [Hrec1 Hgood1].
    { unfold dfs_root in Hr. destruct (bool_decide (r ∈ visited st)).
      - injection Hr as <-. by split.
      - apply (dfs_sound _ r [] st st1 Hr); [by rewrite Hrec|constructor|exact I|exact Hgood]. }
    apply (IH st1 st' Hrun); [congruence|exact Hgood1].
Qed.

End with_graph.

(** X15: [_find_circular_dependencies] returns, and every list it reports is
    a cycle of the graph: it starts and ends with the same module, no other
    module occurs twice in it, and each module has the next one among its
    ['internal_deps']. *)
Theorem reported_cycles_are_cycles (s : self) :
  exists cycles,
    _find_circular_dependencies s = py.Val cycles
    /\ forall c, c ∈ cycles ->
         exists x rest,
           c = x :: rest ++ [x] /\ NoDup (x :: rest)
           /\ Notions.chain (dependency_graph s) c.
Proof.
  unfold _find_circular_dependencies.
  destruct (CycleProps.dfs_roots_spec (dependency_graph s)
              (pydict.keys (dependency_graph s)) dfs_init eq_refl) as (st & Hrun & _).
  rewrite Hrun. exists (circular_deps st). split; [reflexivity|].
  pose proof (dfs_roots_sound (dependency_graph s) _ dfs_init st Hrun eq_refl
                ltac:(constructor)) as Hgood.
  rewrite Forall_forall in Hgood. exact Hgood.
Qed.

End CycleSoundness.

(* ================================================================== *)
(** * Part XXXV: cycles are found                                     *)
(* ================================================================== *)

Module CycleCompleteness.
Import DependencyMapper Notions.

Section with_graph.
Context (graph : list (string * GraphInfo)).
Implicit Types (node : string) (path : list string) (st : dfs_state).

Local Abbreviation edge := (Notions.edge graph).
Local Abbreviation finish_order := (finish_order graph).
Local Abbreviation searched := (searched graph).

Lemma edge_key a b : edge a b -> a ∈ pydict.keys graph.
Proof. intros (gi & Hget & _). apply pydict_facts.get_Some_keys. eauto. Qed.

Lemma tc_edge_key a b : tc edge a b -> a ∈ pydict.keys graph.
Proof. intros H. destruct H as [? ? H|? ? ? H _]; by apply edge_key in H. Qed.

Lemma finish_order_closed order :
  finish_order order ->
  forall a b, a ∈ order -> edge a b -> b ∈ pydict.keys graph -> b ∈ order.
Proof.
  induction order as [|v earlier IH]; intros Hord a b Ha Hab Hb; [inversion Ha|].
  destruct Hord as (_ & Hv & Hord). apply elem_of_cons in Ha as [->|Ha].
  - right. by apply Hv.
  - right. by apply (IH Hord a b).
Qed.

Lemma finish_order_reach order :
  finish_order order ->
  forall a b, tc edge a b -> a ∈ order -> b ∈ pydict.keys graph -> b ∈ order.
Proof.
  intros Hord a b Hab. induction Hab as [a b Hab|a z b Haz Hzb IH]; intros Ha Hb.
  - by apply (finish_order_closed order Hord a b).
  - apply IH; [|exact Hb].
    apply (finish_order_closed order Hord a z Ha Haz). by apply tc_edge_key in Hzb.
Qed.

(** No module of a finish order lies on a cycle. *)
Lemma finish_order_acyclic order :
  finish_order order -> forall x, x ∈ order -> ~ tc edge x x.
Proof.
  induction order as [|v earlier IH]; intros Hord x Hx Hcycle; [inversion Hx|].
  destruct Hord as (Hfresh & Hv & Hord).
  apply elem_of_cons in Hx as [->|Hx]; [|by apply (IH Hord x)].
  apply Hfresh. pose proof (tc_edge_key _ _ Hcycle) as Hkey.
  inversion Hcycle as [? ? Hvv|? z ? Hvz Hzv]; subst.
  - by apply Hv.
  - apply (finish_order_reach earlier Hord z v Hzv); [|exact Hkey].
    apply Hv; [exact Hvz|]. by apply tc_edge_key in Hzv.
Qed.

Local Abbreviation after node st st' :=
  (rec_stack st' = rec_stack st
   /\ visited st ⊆ visited st'
   /\ (circular_deps st <> [] -> circular_deps st' <> [])
   /\ searched st'
   /\ (circular_deps st' <> []
       \/ (node ∈ pydict.keys graph -> node ∈ visited st' /\ node ∉ rec_stack st'))).

Lemma dfs_complete fuel :
  forall node path st st',
    dfs fuel graph node path st = py.Val st' -> searched st -> after node st st'.
Proof.
  induction fuel as [|fuel IH]; intros node path st st' Hrun Hs; [discriminate|].
  rewrite CycleProps.dfs_S in Hrun.
  destruct (bool_decide (node ∈ rec_stack st)) eqn:Hstack.
  - destruct (py.index path node) as [i| |]; simpl in Hrun; [|discriminate..].
    injection Hrun as <-. simpl.
    assert (circular_deps st ++ [drop i path ++ [node]] <> []) as Hne
      by (intros H; by apply app_eq_nil in H as [_ ?]).
    split; [reflexivity|]. split; [done|]. split; [done|]. split; [by left|by left].
  - apply bool_decide_eq_false in Hstack.
    destruct (bool_decide (node ∈ visited st) || negb (pydict.contains graph node))
      eqn:Hskip.
    { injection Hrun as <-. split; [reflexivity|]. split; [done|]. split; [done|].
      split; [exact Hs|]. right. intros Hkey. split; [|exact Hstack].
      apply orb_true_iff in Hskip as [Hv|Hc]; [by apply bool_decide_eq_true in Hv|].
      apply negb_true_iff in Hc. unfold pydict.contains in Hc.
      apply pydict_facts.get_Some_keys in Hkey as [gi Hgi]. by rewrite Hgi in Hc. }
    apply orb_false_iff in Hskip as [Hvis _]. apply bool_decide_eq_false in Hvis.
    destruct (pydict.get graph node) as [gi|] eqn:Hget; [|discriminate].
    set (st1 := {| circular_deps := circular_deps st;
                   visited := {[node]} ∪ visited st;
                   rec_stack := {[node]} ∪ rec_stack st |}) in *.
    assert (searched st1) as Hs1.
    { destruct Hs as [Hc|(order & Hord & Hfin)]; [by left|]. right. exists order.
      split; [exact Hord|]. intros x. rewrite Hfin. simpl. set_solver. }
    assert (forall deps st0 st2,
               py.for_each deps (fun dep st' => dfs fuel graph dep (path ++ [node]) st') st0
               = py.Val st2 ->
               searched st0 ->
               rec_stack st2 = rec_stack st0
               /\ visited st0 ⊆ visited st2
               /\ (circular_deps st0 <> [] -> circular_deps st2 <> [])
               /\ searched st2
               /\ (circular_deps st2 <> []
                   \/ forall d, d ∈ deps -> d ∈ pydict.keys graph ->
                        d ∈ visited st2 /\ d ∉ rec_stack st2)) as Hloop.
    { induction deps as [|d deps IHdeps]; intros st0 st2 Hfor Hs0; simpl in Hfor.
      - injection Hfor as <-. repeat split; try done. right. intros d Hd. inversion Hd.
      - destruct (dfs fuel graph d (path ++ [node]) st0) as [st0'| |] eqn:Hd;
          simpl in Hfor; [|discriminate..].
        destruct (IH d _ st0 st0' Hd Hs0) as (Hr1 & Hv1 & Hc1 & Hs1' & Hd1).
        destruct (IHdeps st0' st2 Hfor Hs1') as (Hr2 & Hv2 & Hc2 & Hs2 & Hd2).
        split; [congruence|]. split; [set_solver|]. split; [tauto|]. split; [exact Hs2|].
        destruct Hd2 as [Hd2|Hd2]; [by left|].
        destruct Hd1 as [Hd1|Hd1]; [left; tauto|].
        right. intros d' Hd' Hkey. apply elem_of_cons in Hd' as [->|Hd'].
        + destruct (Hd1 Hkey) as [Ha Hb]. split; [set_solver|]. by rewrite Hr2.
        + by apply Hd2. }
    destruct (py.for_each (gi_internal_deps gi) _ st1) as [st2| |] eqn:Hfor;
      simpl in Hrun; [|discriminate..].
    destruct (Hloop _ st1 st2 Hfor Hs1) as (Hr2 & Hv2 & Hc2 & Hs2 & Hd2).
    destruct (bool_decide (node ∈ rec_stack st2)); [|discriminate].
    injection Hrun as <-. simpl.
    split; [rewrite Hr2; simpl; set_solver|]. split; [simpl in Hv2; set_solver|].
    split; [exact Hc2|].
    assert (node ∈ visited st2) as Hnode by (apply Hv2; simpl; set_solver).
    destruct (circular_deps st2) as [|c cs] eqn:Hcirc; [|split; by left].
    destruct Hs2 as [Hs2|(order & Hord & Hfin)]; [done|].
    destruct Hd2 as [Hd2|Hd2]; [done|].
    split; [|right; intros _; split; [exact Hnode|set_solver]].
    right. exists (node :: order). split.
    + split; [|split; [|exact Hord]].
      * intros Hin. apply Hfin in Hin as [_ Hin]. apply Hin. rewrite Hr2. simpl. set_solver.
      * intros w (gi' & Hget' & Hw) Hkey. rewrite Hget in Hget'. injection Hget' as <-.
        apply Hfin. by apply Hd2.
    + intros x. rewrite elem_of_cons, Hfin. simpl. split.
      * intros [->|[Hx Hx']]; [split; [exact Hnode|set_solver]|split; [exact Hx|set_solver]].
      * intros [Hx Hx']. destruct (decide (x = node)) as [->|Hne]; [by left|].
        right. split; [exact Hx|set_solver].
Qed.

Lemma dfs_roots_complete roots :
  forall st st',
    dfs_roots graph roots st = py.Val st' -> rec_stack st = ∅ -> searched st ->
    rec_stack st' = ∅
    /\ visited st ⊆ visited st'
    /\ (circular_deps st <> [] -> circular_deps st' <> [])
    /\ searched st'
    /\ (circular_deps st' <> []
        \/ forall r, r ∈ roots -> r ∈ pydict.keys graph -> r ∈ visited st').
Proof.
  unfold dfs_roots. induction roots as [|r roots IH]; intros st st' Hrun Hrec Hs;
    simpl in Hrun.
  - injection Hrun as <-. repeat split; try done. right. intros r Hr. inversion Hr.
  - destruct (dfs_root graph r st) as [st1| |] eqn:Hr; simpl in Hrun; [|discriminate..].
    assert (rec_stack st1 = ∅ /\ visited st ⊆ visited st1 /\ searched st1
            /\ (circular_deps st1 <> [] \/ (r ∈ pydict.keys graph -> r ∈ visited st1))
            /\ (circular_deps st <> [] -> circular_deps st1 <> []))
      as (Hrec1 & Hv1 & Hs1 & Hr1 & Hc1).
    { unfold dfs_root in Hr. destruct (bool_decide (r ∈ visited st)) eqn:Hvis.
      - injection Hr as <-. apply bool_decide_eq_true in Hvis. repeat split; try done.
        by right.
      - destruct (dfs_complete _ r [] st st1 Hr Hs) as (H1 & H2 & H3 & H4 & H5).
        split; [congruence|]. split; [exact H2|]. split; [exact H4|].
        split; [|exact H3]. destruct H5 as [H5|H5]; [by left|]. right. intros Hk.
        by destruct (H5 Hk). }
    destruct (IH st1 st' Hrun Hrec1 Hs1) as (Hrec' & Hv' & Hc' & Hs' & Hall).
    split; [exact Hrec'|]. split; [set_solver|]. split; [tauto|]. split; [exact Hs'|].
    destruct Hall as [Hall|Hall]; [by left|].
    destruct Hr1 as [Hr1|Hr1]; [left; tauto|].
    right. intros r' Hr' Hkey. apply elem_of_cons in Hr' as [->|Hr']; [|by apply Hall].
    set_solver.
Qed.

(** A graph with a cycle makes the search report one. *)
Lemma cyclic_reports (st : dfs_state) :
  dfs_roots graph (pydict.keys graph) dfs_init = py.Val st ->
  Notions.cyclic graph -> circular_deps st <> [].
Proof.
  intros Hrun [x Hx] Hnone.
  destruct (dfs_roots_complete _ dfs_init st Hrun eq_refl) as (Hrec & _ & _ & Hs & Hall).
  { right. exists []. split; [exact I|]. intros y. simpl. set_solver. }
  destruct Hs as [Hs|(order & Hord & Hfin)]; [done|].
  destruct Hall as [Hall|Hall]; [done|].
  pose proof (tc_edge_key _ _ Hx) as Hkey.
  apply (finish_order_acyclic order Hord x); [|exact Hx].
  apply Hfin. split; [by apply Hall|]. rewrite Hrec. set_solver.
Qed.

End with_graph.

(** X16: [_find_circular_dependencies] reports no cycle exactly when the graph
    has none: if some module reaches itself along internal-dependency edges,
    the list returned is not empty. *)
Theorem cycles_are_found (s : self) :
  exists cycles,
    _find_circular_dependencies s = py.Val cycles
    /\ (cycles = [] <-> ~ Notions.cyclic (dependency_graph s)).
Proof.
  unfold _find_circular_dependencies.
  destruct (CycleProps.dfs_roots_spec (dependency_graph s)
              (pydict.keys (dependency_graph s)) dfs_init eq_refl) as (st & Hrun & _).
  rewrite Hrun. exists (circular_deps st). split; [reflexivity|]. split.
  - intros Hnone Hcyclic. by apply (cyclic_reports (dependency_graph s) st Hrun Hcyclic).
  - intros Hacyclic. pose proof (CycleProps.acyclic_reports_nothing s Hacyclic) as H.
    unfold _find_circular_dependencies in H. rewrite Hrun in H. by injection H.
Qed.

End CycleCompleteness.

(* ================================================================== *)
(** * Part XXXVI: the most used dependencies                          *)
(* ================================================================== *)

Module UsageProps.
Import DependencyMapper.

Local Abbreviation with_target k := (filter (fun d : Dependency => target d = k)).

Lemma count_dependency_get (counts : list (string * Usage)) (dep : Dependency) (k : string) :
  pydict.get (count_dependency counts dep) k
  = if decide (target dep = k) then
      match pydict.get counts k with
      | Some u => Some (mkUsage (usage_count u + 1) (usage_scope u) (usage_type u))
      | None => Some (mkUsage 1 (scope dep) (dependency_type dep))
      end
    else pydict.get counts k.
Proof.
  unfold count_dependency, pydict.contains. rewrite pydict_facts.get_modify.
  destruct (decide (target dep = k)) as [<-|Hne].
  - destruct (pydict.get counts (target dep)) as [u|] eqn:Hget.
    + by rewrite Hget.
    + by rewrite pydict_facts.get_set_eq.
  - destruct (pydict.get counts (target dep)); [reflexivity|].
    by rewrite pydict_facts.get_set_ne.
Qed.

Lemma count_dependency_keys (counts : list (string * Usage)) (dep : Dependency) :
  NoDup (pydict.keys counts) -> NoDup (pydict.keys (count_dependency counts dep)).
Proof.
  intros Hnd. unfold count_dependency. rewrite pydict_facts.keys_modify.
  destruct (pydict.contains counts (target dep)); [exact Hnd|].
  by apply pydict_facts.keys_set_NoDup.
Qed.

(** The counting loop, one target at a time. *)
Lemma counts_get (deps : list Dependency) (k : string) :
  forall counts,
    pydict.get (fold_left count_dependency deps counts) k
    = match pydict.get counts k, with_target k deps with
      | Some u, ds => Some (mkUsage (usage_count u + length ds) (usage_scope u) (usage_type u))
      | None, [] => None
      | None, d :: ds => Some (mkUsage (length (d :: ds)) (scope d) (dependency_type d))
      end.
Proof.
  induction deps as [|dep deps IH]; intros counts; simpl.
  - destruct (pydict.get counts k) as [[c sc ty]|]; [|reflexivity].
    simpl. by rewrite Nat.add_0_r.
  - rewrite IH, count_dependency_get. clear IH.
    destruct (decide (target dep = k)) as [Hk|Hk].
    + rewrite filter_cons_True by exact Hk.
      destruct (pydict.get counts k) as [u|]; simpl; f_equal; f_equal; lia.
    + by rewrite filter_cons_False by exact Hk.
Qed.

Lemma counts_keys (deps : list Dependency) :
  forall counts, NoDup (pydict.keys counts) ->
    NoDup (pydict.keys (fold_left count_dependency deps counts)).
Proof.
  induction deps as [|dep deps IH]; intros counts Hnd; simpl; [exact Hnd|].
  by apply IH, count_dependency_keys.
Qed.

Lemma dependency_counts_flat (s : self) :
  dependency_counts s
  = fold_left count_dependency (flat_map dependencies (pydict.values (modules s))) [].
Proof.
  unfold dependency_counts. generalize (@nil (string * Usage)).
  induction (pydict.values (modules s)) as [|m ms IH]; intros counts; simpl; [reflexivity|].
  by rewrite fold_left_app, IH.
Qed.

(** The entries of [dependency_counts]: one per target that occurs, with the
    number of its occurrences and the scope and type of the first. *)
Lemma dependency_counts_entries (s : self) (k : string) (u : Usage) :
  (k, u) ∈ dependency_counts s <->
  exists d ds,
    with_target k (flat_map dependencies (pydict.values (modules s))) = d :: ds
    /\ u = mkUsage (length (d :: ds)) (scope d) (dependency_type d).
Proof.
  rewrite pydict_facts.elem_of_get
    by (rewrite dependency_counts_flat; apply counts_keys; constructor).
  rewrite dependency_counts_flat, counts_get. cbn [pydict.get].
  destruct (with_target k _) as [|d ds].
  - split; [discriminate|]. intros (? & ? & ? & _). discriminate.
  - split.
    + intros [= <-]. by exists d, ds.
    + intros (d' & ds' & [= <- <-] & ->). reflexivity.
Qed.

(** X17: [_get_most_used_dependencies] with a limit n >= 0 returns at most n
    entries, one per target at most; the count of an entry is the number of
    dependency records of all analysed modules with that target, and its
    scope and type are those of the first such record; the counts never
    increase along the list; and a target that is left out is used no more
    often than any target that is listed. *)
Theorem most_used_are_the_most_used (s : self) (n : nat) :
  let all := flat_map dependencies (pydict.values (modules s)) in
  let result := _get_most_used_dependencies s (Z.of_nat n) in
  length result <= n
  /\ NoDup (map mu_name result)
  /\ StronglySorted (fun a b => mu_count b <= mu_count a) result
  /\ (forall r, r ∈ result ->
        exists d ds,
          with_target (mu_name r) all = d :: ds
          /\ mu_count r = length (d :: ds)
          /\ mu_scope r = scope d /\ mu_type r = dependency_type d)
  /\ (forall d r,
        d ∈ all -> target d ∉ map mu_name result -> r ∈ result ->
        length (with_target (target d) all) <= mu_count r).
Proof.
  intros all result. subst result. unfold _get_most_used_dependencies.
  rewrite py_sorting.slice_to_nat.
  set (key := fun item : string * Usage => usage_count item.2).
  set (sorted := py.sorted_reverse key (dependency_counts s)).
  set (entry := fun '(name, info) =>
                  mkMostUsed name (usage_count info) (usage_scope info) (usage_type info)).
  assert (sorted ≡ₚ dependency_counts s) as Hperm by apply py_sorting.sorted_reverse_perm.
  assert (StronglySorted (fun a b => key b <= key a) sorted) as Hsorted
    by apply py_sorting.sorted_reverse_sorted.
  assert (NoDup sorted.*1) as Hnd.
  { rewrite Hperm. rewrite dependency_counts_flat. apply counts_keys. constructor. }
  assert (map mu_name (map entry (take n sorted)) = (take n sorted).*1) as Hnames.
  { rewrite map_map. apply map_ext. by intros [name info]. }
  split; [|split; [|split; [|split]]].
  - rewrite length_map, length_take. lia.
  - rewrite Hnames. rewrite <- (take_drop n sorted), fmap_app in Hnd.
    by apply NoDup_app in Hnd as [Hnd _].
  - assert (forall l, StronglySorted (fun a b => key b <= key a) l ->
                      StronglySorted (fun a b => mu_count b <= mu_count a) (map entry l))
      as Hmap.
    { induction l as [|[name info] l IHl]; intros Hl; simpl; [constructor|].
      apply StronglySorted_inv in Hl as [Hl Hx]. constructor; [by apply IHl|].
      apply Forall_forall. intros r Hr.
      apply list_elem_of_fmap in Hr as ([name' info'] & -> & Hin).
      rewrite Forall_forall in Hx. apply (Hx _ Hin). }
    apply Hmap. rewrite <- (take_drop n sorted) in Hsorted.
    by apply StronglySorted_app_1_l in Hsorted.
  - intros r Hr. apply list_elem_of_fmap in Hr as ([name info] & -> & Hin).
    apply elem_of_take in Hin as (i & Hin & _). apply list_elem_of_lookup_2 in Hin.
    rewrite Hperm in Hin. apply dependency_counts_entries in Hin as (d & ds & Hk & ->).
    exists d, ds. by repeat split.
  - intros d r Hd Hout Hr.
    apply list_elem_of_fmap in Hr as ([name info] & -> & Hin). simpl.
    destruct (with_target (target d) all) as [|d0 ds0] eqn:Hk.
    { simpl. lia. }
    assert ((target d, mkUsage (length (d0 :: ds0)) (scope d0) (dependency_type d0))
            ∈ sorted) as Hentry.
    { rewrite Hperm. apply dependency_counts_entries. by exists d0, ds0. }
    rewrite <- (take_drop n sorted) in Hentry. apply elem_of_app in Hentry as [Htake|Hdrop].
    + exfalso. apply Hout. rewrite Hnames. apply list_elem_of_fmap. by eexists (_, _).
    + rewrite <- (take_drop n sorted) in Hsorted.
      apply (StronglySorted_app_1_elem_of _ _ _ _ _ Hsorted Hin Hdrop).
Qed.

End UsageProps.

(* ================================================================== *)
(** * Part XXXVII: the analysis report                                *)
(* ================================================================== *)

Module ReportProps.
Import DependencyMapper Notions.

Lemma scopes_split (deps : list Dependency) :
  length deps
  = length (filter (has_scope INTERNAL) deps) + length (filter (has_scope EXTERNAL) deps)
    + length (filter (has_scope BUILTIN) deps).
Proof.
  induction deps as [|d ds IH]; [reflexivity|].
  destruct (scope d) eqn:Hs;
    repeat first [ rewrite filter_cons_True by (unfold has_scope; by rewrite Hs)
                 | rewrite filter_cons_False by (unfold has_scope; rewrite Hs; tauto) ];
    cbn [length]; lia.
Qed.

Section with_round.
Context (round : Q -> Z -> Q).

(** X18: [_generate_analysis_report] never raises. Without analysed modules
    it returns the error dict; otherwise ['total_modules'] is the number of
    analysed files, ['total_dependencies'] the number of their dependency
    records, and the three counts by scope add up to it. *)
Theorem report_counts_add_up (s : self) :
  (modules s = [] -> _generate_analysis_report round s = py.Val no_modules)
  /\ (modules s <> [] ->
      exists internal external builtin cycles,
        _generate_analysis_report round s
        = py.Val (analysis (length (modules s)) (internal + external + builtin)
                    internal external builtin (dependency_graph s) cycles
                    (_find_orphaned_modules s) (_calculate_coupling_metrics round s))
        /\ _find_circular_dependencies s = py.Val cycles
        /\ internal + external + builtin
           = list_sum (map (fun m => length (dependencies m)) (pydict.values (modules s)))).
Proof.
  unfold _generate_analysis_report. split.
  - intros ->. reflexivity.
  - intros Hne. destruct (modules s) as [|m ms] eqn:Hm; [done|]. rewrite <- Hm.
    destruct (CycleProps.find_circular_dependencies_returns s) as (cycles & Hc & _).
    rewrite Hc. cbn [py.bind].
    set (all := flat_map dependencies (pydict.values (modules s))).
    exists (length (filter (has_scope INTERNAL) all)),
      (length (filter (has_scope EXTERNAL) all)),
      (length (filter (has_scope BUILTIN) all)), cycles.
    rewrite <- (scopes_split all). split; [reflexivity|]. split; [reflexivity|].
    unfold all. apply ImportProps.length_flat_map.
Qed.

End with_round.
End ReportProps.

